(** * The strategy-board share-code codec

    A shallow embedding of [python/stgy_encoder.py] and
    [python/stgy_decoder.py]: the character cipher, the container framing,
    the binary layout (header, icon list, TLV sections, footer) and the icon
    and background tables, followed by the properties established for them.

    Conventions of the embedding.
    - A Python [bytes]/[bytearray] value is a [list Z]; [bytes_ok] says that
      every element is in 0..255.
    - A Python [str] is a [string], one [ascii] per code point (code points
      0..255).
    - A Python exception is a value of [exn]; code that may raise returns a
      [outcome].
    - A Python [float] that holds a coordinate is an exact rational, kept in
      lowest terms ([Qred]) so that equal numbers are equal terms.
    - [zlib] and the UTF-8 decoder of the standard library are not part of
      the repository; they are variables of the sections that use them. *)

From Stdlib Require Import ZArith List String Ascii Bool Lia QArith Qround.
From Stdlib Require Import DecimalString.
Import ListNotations.

Open Scope Z_scope.

(* ------------------------------------------------------------------ *)
(** ** Exceptions and results *)

Inductive exn : Set :=
| IndexError        (* subscript out of range *)
| struct_error      (* struct.pack / unpack_from / pack_into *)
| binascii_Error    (* base64.b64decode *)
| zlib_error        (* zlib.decompress *)
| OutOfFuel.        (* a loop of the model ran out of fuel; never a Python error *)

Inductive outcome (A : Type) : Type :=
| Ok (a : A)
| Raise (e : exn).

Arguments Ok {A} a.
Arguments Raise {A} e.

Definition bind {A B : Type} (m : outcome A) (k : A -> outcome B) : outcome B :=
  match m with
  | Ok a => k a
  | Raise e => Raise e
  end.

Notation "x <- m ;; k" := (bind m (fun x => k))
  (at level 61, m at next level, right associativity).
Notation "' pat <- m ;; k" := (bind m (fun x => match x with pat => k end))
  (at level 61, pat pattern, m at next level, right associativity).

Definition is_ok {A : Type} (m : outcome A) : bool :=
  match m with Ok _ => true | Raise _ => false end.

(* ------------------------------------------------------------------ *)
(** ** Python primitives used by both modules *)

Definition ord (c : ascii) : Z := Z.of_N (N_of_ascii c).
Definition chr (z : Z) : ascii := ascii_of_N (Z.to_N z).

Definition len {A : Type} (l : list A) : Z := Z.of_nat (List.length l).

Definition is_byte (x : Z) : Prop := 0 <= x < 256.
Definition bytes_ok (b : list Z) : Prop := Forall is_byte b.

Definition str (s : string) : list ascii := list_ascii_of_string s.
Definition codes (s : string) : list Z := map ord (str s).

(** [s[a:-b]] for [a, b >= 0] given as naturals, [b > 0]. *)
Definition slice_neg {A : Type} (a b : nat) (s : list A) : list A :=
  firstn (List.length s - b - a) (skipn a s).

(** [s.replace(x, y)] for one-character [x] and [y]. *)
Definition replace (x y : ascii) (s : list ascii) : list ascii :=
  map (fun c => if Ascii.eqb c x then y else c) s.

(** [s.rstrip(x)] for a one-element strip set. *)
Fixpoint rstrip {A : Type} (eqb : A -> A -> bool) (x : A) (s : list A) : list A :=
  match s with
  | [] => []
  | c :: s' =>
      match rstrip eqb x s' with
      | [] => if eqb c x then [] else [c]
      | r => c :: r
      end
  end.

(** A [dict] whose insertion order matters: an association list with
    unique keys.  [dict_set] is [d[k] = v], [dict_get] is [d.get(k, dflt)]. *)
Fixpoint dict_set (d : list (Z * Z)) (k v : Z) : list (Z * Z) :=
  match d with
  | [] => [(k, v)]
  | (k', v') :: d' => if k' =? k then (k, v) :: d' else (k', v') :: dict_set d' k v
  end.

Fixpoint dict_find (d : list (Z * Z)) (k : Z) : option Z :=
  match d with
  | [] => None
  | (k', v) :: d' => if k' =? k then Some v else dict_find d' k
  end.

Definition dict_get (d : list (Z * Z)) (k dflt : Z) : Z :=
  match dict_find d k with Some v => v | None => dflt end.

(** The integers [0 .. n-1], as [range(n)] yields them. *)
Definition range (n : nat) : list Z := map Z.of_nat (seq 0 n).

(* ------------------------------------------------------------------ *)
(** ** [struct]: little-endian packing *)

Module Struct.

(** [struct.pack('<B', v)] *)
Definition pack_B (v : Z) : outcome (list Z) :=
  if (0 <=? v) && (v <? 256) then Ok [v] else Raise struct_error.

(** [struct.pack('<H', v)] *)
Definition pack_H (v : Z) : outcome (list Z) :=
  if (0 <=? v) && (v <? 65536) then Ok [v mod 256; v / 256]
  else Raise struct_error.

(** [struct.pack('<h', v)] *)
Definition pack_h (v : Z) : outcome (list Z) :=
  if (-32768 <=? v) && (v <? 32768)
  then Ok [v mod 256; (v mod 65536) / 256]
  else Raise struct_error.

(** [struct.pack('<I', v)] *)
Definition pack_I (v : Z) : outcome (list Z) :=
  if (0 <=? v) && (v <? 4294967296)
  then Ok [v mod 256; (v / 256) mod 256; (v / 65536) mod 256; v / 16777216]
  else Raise struct_error.

(** [data[i]] for [i >= 0]; reading past the end raises [IndexError]. *)
Definition index (data : list Z) (i : Z) : outcome Z :=
  if (0 <=? i) && (i <? len data)
  then Ok (nth (Z.to_nat i) data 0)
  else Raise IndexError.

Definition byte_at (data : list Z) (i : Z) : Z := nth (Z.to_nat i) data 0.

(** [struct.unpack_from('<H', data, pos)[0]] *)
Definition unpack_from_H (data : list Z) (pos : Z) : outcome Z :=
  if (0 <=? pos) && (pos + 2 <=? len data)
  then Ok (byte_at data pos + 256 * byte_at data (pos + 1))
  else Raise struct_error.

(** [struct.unpack_from('<h', data, pos)[0]] *)
Definition unpack_from_h (data : list Z) (pos : Z) : outcome Z :=
  u <- unpack_from_H data pos ;;
  Ok (if u <? 32768 then u else u - 65536).

(** [struct.unpack_from('<I', data, pos)[0]] *)
Definition unpack_from_I (data : list Z) (pos : Z) : outcome Z :=
  if (0 <=? pos) && (pos + 4 <=? len data)
  then Ok (byte_at data pos + 256 * byte_at data (pos + 1)
           + 65536 * byte_at data (pos + 2) + 16777216 * byte_at data (pos + 3))
  else Raise struct_error.

(** Overwrite [data[pos : pos + len(bs)]], as [pack_into] does. *)
Definition overwrite (data : list Z) (pos : Z) (bs : list Z) : list Z :=
  firstn (Z.to_nat pos) data ++ bs
  ++ skipn (Z.to_nat pos + List.length bs) data.

(** [struct.pack_into('<I', data, pos, v)] *)
Definition pack_into_I (data : list Z) (pos v : Z) : outcome (list Z) :=
  bs <- pack_I v ;;
  if (0 <=? pos) && (pos + 4 <=? len data)
  then Ok (overwrite data pos bs)
  else Raise struct_error.

End Struct.

(* ------------------------------------------------------------------ *)
(** ** [base64] of the standard library

    [b64encode] is [base64.b64encode]; [b64decode] is [base64.b64decode] in
    its default, non-validating mode, written as the loop of
    [binascii.a2b_base64]: characters outside the alphabet are skipped, a
    run of [=] that completes a quad ends the input, other [=] are ignored,
    and leftover characters of an incomplete quad are an error. *)

Module Base64.

Definition b2a (v : Z) : ascii :=
  if v <? 26 then chr (v + 65)
  else if v <? 52 then chr (v + 71)
  else if v <? 62 then chr (v - 4)
  else if v =? 62 then "+"%char
  else "/"%char.

Definition a2b (c : ascii) : option Z :=
  let o := ord c in
  if (65 <=? o) && (o <=? 90) then Some (o - 65)
  else if (97 <=? o) && (o <=? 122) then Some (o - 71)
  else if (48 <=? o) && (o <=? 57) then Some (o + 4)
  else if o =? 43 then Some 62
  else if o =? 47 then Some 63
  else None.

Fixpoint b64encode (b : list Z) : list ascii :=
  match b with
  | [] => []
  | [x] => [b2a (x / 4); b2a ((x mod 4) * 16); "="%char; "="%char]
  | [x; y] =>
      [b2a (x / 4); b2a ((x mod 4) * 16 + y / 16); b2a ((y mod 16) * 4);
       "="%char]
  | x :: y :: z :: b' =>
      b2a (x / 4) :: b2a ((x mod 4) * 16 + y / 16)
      :: b2a ((y mod 16) * 4 + z / 64) :: b2a (z mod 64) :: b64encode b'
  end.

Fixpoint a2b_loop (s : list ascii) (quad_pos leftchar pads : Z)
         (out : list Z) : outcome (list Z) :=
  match s with
  | [] => if quad_pos =? 0 then Ok out else Raise binascii_Error
  | c :: s' =>
      if Ascii.eqb c "="%char then
        if 2 <=? quad_pos then
          if 4 <=? quad_pos + (pads + 1) then Ok out
          else a2b_loop s' quad_pos leftchar (pads + 1) out
        else a2b_loop s' quad_pos leftchar pads out
      else
        match a2b c with
        | None => a2b_loop s' quad_pos leftchar pads out
        | Some this_ch =>
            if quad_pos =? 0 then a2b_loop s' 1 this_ch 0 out
            else if quad_pos =? 1 then
              a2b_loop s' 2 (this_ch mod 16) 0
                       (out ++ [leftchar * 4 + this_ch / 16])
            else if quad_pos =? 2 then
              a2b_loop s' 3 (this_ch mod 4) 0
                       (out ++ [leftchar * 16 + this_ch / 4])
            else
              a2b_loop s' 0 0 0 (out ++ [leftchar * 64 + this_ch])
        end
  end.

Definition b64decode (s : list ascii) : outcome (list Z) :=
  a2b_loop s 0 0 0 [].

End Base64.

(* ------------------------------------------------------------------ *)
(** ** The cipher tables *)

Definition DAT_1420cf520 : list Z :=
  repeat 0 43
  ++ codes "N" ++ [0] ++ codes "P" ++ [0; 0] ++ codes "xg0K8SJ2sZ"
  ++ repeat 0 7 ++ codes "DFtT6EaVcpLMmej9XB4RY7_nOb"
  ++ repeat 0 6 ++ codes "i-vHCArWodIqhUlk3fy5Gw1uzQ".

Definition INVERSE_DAT : list (Z * Z) :=
  [ (98, 45); (50, 48); (119, 49); (55, 50); (113, 51); (83, 52); (116, 53);
    (69, 54); (86, 55); (52, 56); (80, 57); (102, 65); (82, 66); (101, 67);
    (65, 68); (70, 69); (66, 70); (117, 71); (100, 72); (107, 73); (54, 74);
    (51, 75); (75, 76); (76, 77); (43, 78); (89, 79); (45, 80); (122, 81);
    (84, 82); (53, 83); (68, 84); (110, 85); (72, 86); (104, 87); (81, 88);
    (85, 89); (57, 90); (87, 95); (71, 97); (90, 98); (73, 99); (106, 100);
    (78, 101); (114, 102); (49, 103); (109, 104); (97, 105); (79, 106);
    (112, 107); (111, 108); (77, 109); (88, 110); (105, 111); (74, 112);
    (108, 113); (103, 114); (56, 115); (67, 116); (120, 117); (99, 118);
    (118, 119); (48, 120); (115, 121); (121, 122) ].

(** [{v: k for k, v in INVERSE_DAT.items()}] *)
Definition FORWARD_DAT : list (Z * Z) :=
  fold_left (fun d kv => dict_set d (snd kv) (fst kv)) INVERSE_DAT [].

(** The loop that fills [KEY_REVERSE]. *)
Definition KEY_REVERSE : list (Z * Z) :=
  fold_left
    (fun d i =>
       let x := nth (Z.to_nat i) DAT_1420cf520 0 in
       if negb (x =? 0) then dict_set d x i else d)
    (range (List.length DAT_1420cf520)) [].

Definition char_to_base64_value (c : ascii) : Z :=
  let o := ord c in
  if (65 <=? o) && (o <=? 90) then o - 65
  else if (97 <=? o) && (o <=? 122) then o - 71
  else if (48 <=? o) && (o <=? 57) then o + 4
  else if Ascii.eqb c "-"%char then 62
  else if Ascii.eqb c "_"%char then 63
  else 0.

Definition base64_value_to_char (val : Z) : ascii :=
  let val := Z.land val 63 in
  if val <? 26 then chr (val + 65)
  else if val <? 52 then chr (val + 71)
  else if val <? 62 then chr (val - 4)
  else if val =? 62 then "-"%char
  else if val =? 63 then "_"%char
  else "A"%char.

(* ------------------------------------------------------------------ *)
(** ** The character cipher

    [CipherCodec.encode] is the part of [encode_cipher] that turns the
    container bytes into the share code (from the [b64encode] call to the
    end); [CipherCodec.decode] is the part of [decode_cipher] that recovers
    the container bytes (up to and including the [b64decode] call). *)

Module CipherCodec.

(** The loop [for i, c in enumerate(b64)] of [encode_cipher]. *)
Fixpoint encode_loop (b64 : list ascii) (i key : Z) : list ascii :=
  match b64 with
  | [] => []
  | c :: b64' =>
      let val := char_to_base64_value c in
      let encoded_val := Z.land (val + i + key) 63 in
      let standard_char := base64_value_to_char encoded_val in
      let subst_char :=
        chr (dict_get FORWARD_DAT (ord standard_char) (ord "A"%char)) in
      subst_char :: encode_loop b64' (i + 1) key
  end.

Definition encode (full_data : list Z) (key : Z) : string :=
  let b64 := Base64.b64encode full_data in
  let b64 :=
    replace "/"%char "_"%char
      (replace "+"%char "-"%char (rstrip Ascii.eqb "="%char b64)) in
  let key_char_standard := base64_value_to_char key in
  let key_source :=
    chr (dict_get KEY_REVERSE (ord key_char_standard) (ord "V"%char)) in
  let encoded := encode_loop b64 0 key in
  "[stgy:a" ++ String key_source (string_of_list_ascii encoded) ++ "]".

(** The loop [for i, c in enumerate(data[1:])] of [decode_cipher]. *)
Fixpoint decode_loop (cs : list ascii) (i key : Z) : list ascii :=
  match cs with
  | [] => []
  | c :: cs' =>
      let standard_char := chr (dict_get INVERSE_DAT (ord c) 65) in
      let val := char_to_base64_value standard_char in
      let decoded_val := Z.land (val - i - key) 63 in
      base64_value_to_char decoded_val :: decode_loop cs' (i + 1) key
  end.

Definition decode (stgy_string : string) : outcome (list Z) :=
  let data := slice_neg 7 1 (str stgy_string) in
  match data with
  | [] => Raise IndexError
  | key_char :: data1 =>
      k <- Struct.index DAT_1420cf520 (ord key_char) ;;
      let key_mapped := chr k in
      let key := char_to_base64_value key_mapped in
      let decoded := decode_loop data1 0 key in
      let b64_string :=
        replace "_"%char "/"%char (replace "-"%char "+"%char decoded) in
      Base64.b64decode (b64_string ++ str "==")
  end.

End CipherCodec.


(* ------------------------------------------------------------------ *)
(** ** The icon registry and the background tables *)

Definition ICON_TYPES : list (Z * string) :=
  [
    (4, "checkered_circle"); (8, "checkered_square"); (124, "grey_circle");
    (125, "grey_square"); (9, "circle_aoe"); (10, "fan_aoe");
    (11, "line_aoe"); (12, "line"); (13, "gaze"); (14, "stack");
    (15, "line_stack"); (16, "proximity"); (17, "donut");
    (106, "stack_multi"); (107, "proximity_player"); (108, "tankbuster");
    (109, "radial_knockback"); (110, "linear_knockback"); (111, "tower");
    (112, "targeting"); (126, "moving_circle_aoe"); (127, "1person_aoe");
    (128, "2person_aoe"); (129, "3person_aoe"); (130, "4person_aoe");
    (18, "gladiator"); (19, "pugilist"); (20, "marauder"); (21, "lancer");
    (22, "archer"); (23, "conjurer"); (24, "thaumaturge"); (25, "arcanist");
    (26, "rogue"); (27, "paladin"); (28, "monk"); (29, "warrior");
    (30, "dragoon"); (31, "bard"); (32, "white_mage"); (33, "black_mage");
    (34, "summoner"); (35, "scholar"); (36, "ninja"); (37, "machinist");
    (38, "dark_knight"); (39, "astrologian"); (40, "samurai");
    (41, "red_mage"); (42, "blue_mage"); (43, "gunbreaker"); (44, "dancer");
    (45, "reaper"); (46, "sage"); (101, "viper"); (102, "pictomancer");
    (47, "tank"); (48, "tank_1"); (49, "tank_2"); (50, "healer");
    (51, "healer_1"); (52, "healer_2"); (53, "dps"); (54, "dps_1");
    (55, "dps_2"); (56, "dps_3"); (57, "dps_4"); (118, "melee_dps");
    (119, "ranged_dps"); (120, "physical_ranged_dps");
    (121, "magical_ranged_dps"); (122, "pure_healer");
    (123, "barrier_healer"); (60, "small_enemy"); (62, "medium_enemy");
    (64, "large_enemy"); (65, "attack_1"); (66, "attack_2");
    (67, "attack_3"); (68, "attack_4"); (69, "attack_5"); (115, "attack_6");
    (116, "attack_7"); (117, "attack_8"); (70, "bind_1"); (71, "bind_2");
    (72, "bind_3"); (73, "ignore_1"); (74, "ignore_2");
    (75, "square_marker"); (76, "circle_marker"); (77, "plus_marker");
    (78, "triangle_marker"); (79, "waymark_a"); (80, "waymark_b");
    (81, "waymark_c"); (82, "waymark_d"); (83, "waymark_1");
    (84, "waymark_2"); (85, "waymark_3"); (86, "waymark_4");
    (87, "shape_circle"); (88, "shape_x"); (89, "shape_triangle");
    (90, "shape_square"); (94, "up_arrow"); (100, "text"); (103, "rotate");
    (135, "highlighted_circle"); (136, "highlighted_x");
    (137, "highlighted_square"); (138, "highlighted_triangle");
    (139, "rotate_clockwise"); (140, "rotate_counterclockwise");
    (113, "enhancement"); (114, "enfeeblement"); (131, "lockon_red");
    (132, "lockon_blue"); (133, "lockon_purple"); (134, "lockon_green");
    (105, "group") ]%string.

Definition ICON_TYPE_IDS : list (string * Z) :=
  [
    ("checkered_circle", 4); ("checkered_square", 8); ("grey_circle", 124);
    ("grey_square", 125); ("circle_aoe", 9); ("fan_aoe", 10);
    ("line_aoe", 11); ("line", 12); ("gaze", 13); ("stack", 14);
    ("line_stack", 15); ("proximity", 16); ("donut", 17);
    ("stack_multi", 106); ("proximity_player", 107); ("tankbuster", 108);
    ("radial_knockback", 109); ("linear_knockback", 110); ("tower", 111);
    ("targeting", 112); ("moving_circle_aoe", 126); ("1person_aoe", 127);
    ("2person_aoe", 128); ("3person_aoe", 129); ("4person_aoe", 130);
    ("gladiator", 18); ("pugilist", 19); ("marauder", 20); ("lancer", 21);
    ("archer", 22); ("conjurer", 23); ("thaumaturge", 24); ("arcanist", 25);
    ("rogue", 26); ("paladin", 27); ("monk", 28); ("warrior", 29);
    ("dragoon", 30); ("bard", 31); ("white_mage", 32); ("black_mage", 33);
    ("summoner", 34); ("scholar", 35); ("ninja", 36); ("machinist", 37);
    ("dark_knight", 38); ("astrologian", 39); ("samurai", 40);
    ("red_mage", 41); ("blue_mage", 42); ("gunbreaker", 43); ("dancer", 44);
    ("reaper", 45); ("sage", 46); ("viper", 101); ("pictomancer", 102);
    ("tank", 47); ("tank_1", 48); ("tank_2", 49); ("healer", 50);
    ("healer_1", 51); ("healer_2", 52); ("dps", 53); ("dps_1", 54);
    ("dps_2", 55); ("dps_3", 56); ("dps_4", 57); ("melee_dps", 118);
    ("ranged_dps", 119); ("physical_ranged_dps", 120);
    ("magical_ranged_dps", 121); ("pure_healer", 122);
    ("barrier_healer", 123); ("small_enemy", 60); ("medium_enemy", 62);
    ("large_enemy", 64); ("attack_1", 65); ("attack_2", 66);
    ("attack_3", 67); ("attack_4", 68); ("attack_5", 69); ("attack_6", 115);
    ("attack_7", 116); ("attack_8", 117); ("bind_1", 70); ("bind_2", 71);
    ("bind_3", 72); ("ignore_1", 73); ("ignore_2", 74);
    ("square_marker", 75); ("circle_marker", 76); ("plus_marker", 77);
    ("triangle_marker", 78); ("waymark_a", 79); ("waymark_b", 80);
    ("waymark_c", 81); ("waymark_d", 82); ("waymark_1", 83);
    ("waymark_2", 84); ("waymark_3", 85); ("waymark_4", 86);
    ("shape_circle", 87); ("shape_x", 88); ("shape_triangle", 89);
    ("shape_square", 90); ("up_arrow", 94); ("text", 100); ("rotate", 103);
    ("highlighted_circle", 135); ("highlighted_x", 136);
    ("highlighted_square", 137); ("highlighted_triangle", 138);
    ("rotate_clockwise", 139); ("rotate_counterclockwise", 140);
    ("enhancement", 113); ("enfeeblement", 114); ("lockon_red", 131);
    ("lockon_blue", 132); ("lockon_purple", 133); ("lockon_green", 134);
    ("group", 105) ]%string.

(** [ICON_NAME_TO_ID = {v: k for k, v in ICON_TYPES.items()}] of the
    decoder module. *)
Fixpoint sdict_set (d : list (string * Z)) (k : string) (v : Z)
  : list (string * Z) :=
  match d with
  | [] => [(k, v)]
  | (k', v') :: d' =>
      if String.eqb k' k then (k, v) :: d' else (k', v') :: sdict_set d' k v
  end.

Definition ICON_NAME_TO_ID : list (string * Z) :=
  fold_left (fun d kv => sdict_set d (snd kv) (fst kv)) ICON_TYPES [].

(** [d.get(k)] on a dict with integer keys and on one with string keys. *)
Fixpoint zfind {V : Type} (d : list (Z * V)) (k : Z) : option V :=
  match d with
  | [] => None
  | (k', v) :: d' => if k' =? k then Some v else zfind d' k
  end.

Fixpoint sfind {V : Type} (d : list (string * V)) (k : string) : option V :=
  match d with
  | [] => None
  | (k', v) :: d' => if String.eqb k' k then Some v else sfind d' k
  end.

(** [d.get(k, dflt)] and [obj.get(key, dflt)] *)
Definition get {V : Type} (o : option V) (dflt : V) : V :=
  match o with Some v => v | None => dflt end.

(** [BACKGROUND_TYPES] of the decoder: the per-object table (tag 6). *)
Definition BACKGROUND_TYPES : list (Z * string) :=
  [ (0, "none"); (1, "checkered"); (2, "checkered_circle");
    (3, "checkered_square"); (4, "grey"); (5, "grey_circle");
    (6, "grey_square") ]%string.

(** [bg_names] of the decoder: the footer table (tag 3). *)
Definition bg_names : list (Z * string) :=
  [ (1, "none"); (2, "checkered"); (3, "checkered_circle");
    (4, "checkered_square"); (5, "grey"); (6, "grey_circle");
    (7, "grey_square") ]%string.

(** The encoder's [bg_map] for tag 6 and its [bg_map] for tag 3. *)
Definition bg_map_object : list (string * Z) :=
  [ ("none", 0); ("checkered", 1); ("checkered_circle", 2);
    ("checkered_square", 3); ("grey", 4); ("grey_circle", 5);
    ("grey_square", 6) ]%string.

Definition bg_map_footer : list (string * Z) :=
  [ ("none", 1); ("checkered", 2); ("checkered_circle", 3);
    ("checkered_square", 4); ("grey", 5); ("grey_circle", 6);
    ("grey_square", 7) ]%string.

(** [str(n)] for an integer, as an f-string prints it. *)
Definition str_of_int (n : Z) : string := NilZero.string_of_int (Z.to_int n).

(** [f"unknown_{n}"] *)
Definition unknown_ (n : Z) : string := ("unknown_" ++ str_of_int n)%string.

(** [f"{v:02x}"] for a byte. *)
Definition hex_digit (d : Z) : ascii :=
  if d <? 10 then chr (d + 48) else chr (d + 87).

Definition format_02x (v : Z) : string :=
  String (hex_digit (v / 16)) (String (hex_digit (v mod 16)) EmptyString).

(** [s.lower()] on code points 0..255. *)
Definition lower_char (c : ascii) : ascii :=
  let o := ord c in
  if ((65 <=? o) && (o <=? 90))
     || ((192 <=? o) && (o <=? 222) && negb (o =? 215))
  then chr (o + 32) else c.

Definition lower (s : string) : string :=
  string_of_list_ascii (map lower_char (str s)).

(** [s.encode('utf-8')] on code points 0..255. *)
Definition utf8_encode (s : list ascii) : list Z :=
  flat_map (fun c => let o := ord c in
                     if o <? 128 then [o] else [192 + o / 64; 128 + o mod 64]) s.

(** [b.ljust(n, b'\x00')] *)
Definition ljust (n : nat) (b : list Z) : list Z :=
  b ++ repeat 0 (n - List.length b).

(** [s.strip('\x00')] on a [str]. *)
Fixpoint lstrip {A : Type} (eqb : A -> A -> bool) (x : A) (s : list A) : list A :=
  match s with
  | [] => []
  | c :: s' => if eqb c x then lstrip eqb x s' else s
  end.

Definition strip_nul (s : string) : string :=
  string_of_list_ascii
    (rstrip Ascii.eqb zero (lstrip Ascii.eqb zero (str s))).

(* ------------------------------------------------------------------ *)
(** ** Documents

    The JSON mapping both programs work on.  A key that may be absent is an
    [option]; [background] and [board_background] hold an [int] or a [str].
    The record lists every key either program reads or writes. *)

Inductive int_or_str : Type :=
| JInt (z : Z)
| JStr (s : string).

Module Obj.
Record t : Type := mk {
  type : option string;
  type_id : option Z;
  x : option Q;
  y : option Q;
  size : option Z;
  background : option int_or_str;
  color : option string;
  color_r : option Z;
  color_g : option Z;
  color_b : option Z;
  transparency : option Z;
  arc_angle : option Z;
  donut_radius : option Z;
  knockback_horizontal : option Z;
  hidden : option bool;
  locked : option bool
}.

(** The empty mapping [{}]. *)
Definition empty : t :=
  mk None None None None None None None None None None None None None None
     None None.
End Obj.

Module Doc.
Record t : Type := mk {
  version : option Z;
  name : option string;
  board_background : option int_or_str;
  objects : option (list Obj.t)
}.
End Doc.

(** [int(q)]: truncation toward zero. *)
Definition py_int (q : Q) : Z := Z.quot (Qnum q) (Zpos (Qden q)).

(** [v / 10.0] *)
Definition div10 (v : Z) : Q := Qred (Qmake v 10).

(** The two directions of the icon registry, as the programs spell them:
    [ICON_TYPE_IDS.get(type_name, 47)] in the encoder and
    [ICON_TYPES.get(icon_id, f"unknown_{icon_id}")] in the decoder. *)
Definition nameToId (type_name : string) : Z :=
  get (sfind ICON_TYPE_IDS type_name) 47.

Definition idToName (icon_id : Z) : string :=
  get (zfind ICON_TYPES icon_id) (unknown_ icon_id).

(** [a or b] where [a] is [obj.get(key)]: an absent key and 0 are falsy. *)
Definition py_or (a : option Z) (b : Z) : Z :=
  match a with
  | Some v => if v =? 0 then b else v
  | None => b
  end.

(** A loop [for a in l: body] over a buffer that may raise. *)
Fixpoint for_each {A S : Type} (l : list A) (body : A -> S -> outcome S) (s : S)
  : outcome S :=
  match l with
  | [] => Ok s
  | a :: l' => s' <- body a s ;; for_each l' body s'
  end.

(** [result += m] *)
Definition extend (result : list Z) (m : outcome (list Z)) : outcome (list Z) :=
  bs <- m ;; Ok (result ++ bs).

(* ------------------------------------------------------------------ *)
(** ** [build_binary] (encoder) *)

Definition build_binary (data : Doc.t) : outcome (list Z) :=
  let name := firstn 7 (str (get (Doc.name data) "board"%string)) in
  let objects := get (Doc.objects data) [] in
  let n := len objects in
  let result := [] in
  (* Header (0x00 - 0x23) *)
  result <- extend result (Struct.pack_I 2) ;;
  result <- extend result (Struct.pack_I 0) ;;
  let result := result ++ repeat 0 10 in
  result <- extend result (Struct.pack_I 0) ;;
  result <- extend result (Struct.pack_H 0) ;;
  result <- extend result (Struct.pack_H 1) ;;
  result <- extend result (Struct.pack_H 8) ;;
  let name_bytes := ljust 8 (firstn 8 (utf8_encode name)) in
  let result := result ++ name_bytes in
  (* Object list (Tag 2 entries) *)
  result <- for_each objects (fun obj result =>
    result <- extend result (Struct.pack_H 2) ;;
    let type_name := get (Obj.type obj) "tank"%string in
    let type_id := py_or (Obj.type_id obj) (nameToId type_name) in
    extend result (Struct.pack_H type_id)) result ;;
  result <-
    (if n =? 0 then Ok result
     else if n =? 1 then
       result <- extend result (Struct.pack_H 4) ;;
       result <- extend result (Struct.pack_H 1) ;;
       let obj := nth 0 objects Obj.empty in
       let flags :=
         if get (Obj.hidden obj) false then 0
         else if get (Obj.locked obj) false then 9
         else 1 in
       result <- extend result (Struct.pack_H 1) ;;
       extend result (Struct.pack_H flags)
     else
       result <- extend result (Struct.pack_H 4) ;;
       result <- extend result (Struct.pack_H 1) ;;
       result <- extend result (Struct.pack_H n) ;;
       for_each objects (fun _ result => extend result (Struct.pack_H 1))
                result) ;;
  result <-
    (if n >? 0 then
       (* Tag 5 - Position block *)
       result <- extend result (Struct.pack_H 5) ;;
       result <- extend result (Struct.pack_H 3) ;;
       result <- extend result (Struct.pack_H n) ;;
       result <- for_each objects (fun obj result =>
         let x := py_int (get (Obj.x obj) 0 * 10)%Q in
         let y := py_int (get (Obj.y obj) 0 * 10)%Q in
         result <- extend result (Struct.pack_h x) ;;
         extend result (Struct.pack_h y)) result ;;
       (* Tag 6 - Object background *)
       result <- extend result (Struct.pack_H 6) ;;
       result <- extend result (Struct.pack_H 1) ;;
       result <- extend result (Struct.pack_H n) ;;
       result <- for_each objects (fun obj result =>
         let bg := get (Obj.background obj) (JInt 0) in
         let bg := match bg with
                   | JStr s => get (sfind bg_map_object s) 0
                   | JInt z => z
                   end in
         extend result (Struct.pack_H bg)) result ;;
       (* Tag 7 - Size bytes *)
       result <- extend result (Struct.pack_H 7) ;;
       result <- extend result (Struct.pack_H 0) ;;
       result <- extend result (Struct.pack_H n) ;;
       result <- for_each objects (fun obj result =>
         let size := Z.land (get (Obj.size obj) 100) 255 in
         extend result (Struct.pack_B size)) result ;;
       let result := if n mod 2 =? 1 then result ++ [0] else result in
       (* Tag 8 - Color *)
       result <- extend result (Struct.pack_H 8) ;;
       result <- extend result (Struct.pack_H 2) ;;
       result <- extend result (Struct.pack_H n) ;;
       result <- for_each objects (fun obj result =>
         let r := get (Obj.color_r obj) 255 in
         let g := get (Obj.color_g obj) 255 in
         let b := get (Obj.color_b obj) 255 in
         let a := get (Obj.transparency obj) 0 in
         result <- extend result (Struct.pack_B r) ;;
         result <- extend result (Struct.pack_B g) ;;
         result <- extend result (Struct.pack_B b) ;;
         extend result (Struct.pack_B a)) result ;;
       (* Tag 10 - Arc angle *)
       result <- extend result (Struct.pack_H 10) ;;
       result <- extend result (Struct.pack_H 1) ;;
       result <- extend result (Struct.pack_H n) ;;
       result <- for_each objects (fun obj result =>
         let arc := get (Obj.arc_angle obj) 0 in
         extend result (Struct.pack_H arc)) result ;;
       (* Tag 11 - Donut radius *)
       result <- extend result (Struct.pack_H 11) ;;
       result <- extend result (Struct.pack_H 1) ;;
       result <- extend result (Struct.pack_H n) ;;
       result <- for_each objects (fun obj result =>
         let radius :=
           get (Obj.donut_radius obj)
               (get (Obj.knockback_horizontal obj) 0) in
         extend result (Struct.pack_H radius)) result ;;
       (* Tag 12 - Reserved *)
       result <- extend result (Struct.pack_H 12) ;;
       result <- extend result (Struct.pack_H 1) ;;
       result <- extend result (Struct.pack_H n) ;;
       for_each objects (fun _ result => extend result (Struct.pack_H 0))
                result
     else Ok result) ;;
  (* Tag 3 - Footer with board background *)
  let board_bg := get (Doc.board_background data) (JInt 1) in
  let board_bg := match board_bg with
                  | JStr s => get (sfind bg_map_footer (lower s)) 1
                  | JInt z => z
                  end in
  result <- extend result (Struct.pack_H 3) ;;
  result <- extend result (Struct.pack_H 1) ;;
  result <- extend result (Struct.pack_H 1) ;;
  result <- extend result (Struct.pack_H board_bg) ;;
  (* Update sizes *)
  let payload_size := len result - 28 in
  result <- Struct.pack_into_I result 18 payload_size ;;
  let field_04 := len result - 16 in
  result <- Struct.pack_into_I result 4 field_04 ;;
  Ok result.

(* ------------------------------------------------------------------ *)
(** ** [parse_binary] (decoder) *)

(** The local variables of [parse_binary] that its tag loop updates;
    [_flags] is the entry [result["_flags"]] and [board_background] the
    entry [result["board_background"]]. *)
Record locals : Type := mk_locals {
  pos : Z;
  positions : list (Q * Q);
  backgrounds : list Z;
  sizes : list Z;
  colors : list (Z * Z * Z * Z);
  arc_angles : list Z;
  donut_radii : list Z;
  _flags : option Z;
  board_background : option string
}.

Definition set_pos (st : locals) (p : Z) : locals :=
  mk_locals p (positions st) (backgrounds st) (sizes st) (colors st)
            (arc_angles st) (donut_radii st) (_flags st) (board_background st).

(** The loop [while pos < len(data) - 4] that collects the icon list. *)
Fixpoint parse_icons (fuel : nat) (data : list Z) (pos : Z) (icons : list Z)
  : outcome (Z * list Z) :=
  match fuel with
  | O => Raise OutOfFuel
  | S fuel' =>
      if pos <? len data - 4 then
        marker <- Struct.unpack_from_H data pos ;;
        if negb (marker =? 2) then Ok (pos, icons)
        else
          icon_id <- Struct.unpack_from_H data (pos + 2) ;;
          parse_icons fuel' data (pos + 4) (icons ++ [icon_id])
      else Ok (pos, icons)
  end.

(** The inner loops [for _ in range(count)] of the tag sections. *)
Fixpoint read_positions (count : nat) (data : list Z) (pos : Z)
         (positions : list (Q * Q)) : outcome (Z * list (Q * Q)) :=
  match count with
  | O => Ok (pos, positions)
  | S count' =>
      if pos + 4 >? len data then Ok (pos, positions)
      else
        x <- Struct.unpack_from_h data pos ;;
        y <- Struct.unpack_from_h data (pos + 2) ;;
        read_positions count' data (pos + 4)
                       (positions ++ [(div10 x, div10 y)])
  end.

Fixpoint read_H_values (count : nat) (data : list Z) (pos : Z)
         (values : list Z) : outcome (Z * list Z) :=
  match count with
  | O => Ok (pos, values)
  | S count' =>
      if pos + 2 >? len data then Ok (pos, values)
      else
        val <- Struct.unpack_from_H data pos ;;
        read_H_values count' data (pos + 2) (values ++ [val])
  end.

Fixpoint read_sizes (count : nat) (data : list Z) (pos : Z)
         (sizes : list Z) : outcome (Z * list Z) :=
  match count with
  | O => Ok (pos, sizes)
  | S count' =>
      if pos >=? len data then Ok (pos, sizes)
      else
        size <- Struct.index data pos ;;
        read_sizes count' data (pos + 1) (sizes ++ [size])
  end.

Fixpoint read_colors (count : nat) (data : list Z) (pos : Z)
         (colors : list (Z * Z * Z * Z)) : outcome (Z * list (Z * Z * Z * Z)) :=
  match count with
  | O => Ok (pos, colors)
  | S count' =>
      if pos + 4 >? len data then Ok (pos, colors)
      else
        r <- Struct.index data pos ;;
        g <- Struct.index data (pos + 1) ;;
        b <- Struct.index data (pos + 2) ;;
        a <- Struct.index data (pos + 3) ;;
        read_colors count' data (pos + 4) (colors ++ [(r, g, b, a)])
  end.

(** The loop [while pos < len(data) - 2] over the tags. *)
Fixpoint parse_tags (fuel : nat) (data : list Z) (st : locals)
  : outcome locals :=
  match fuel with
  | O => Raise OutOfFuel
  | S fuel' =>
      let pos := pos st in
      if pos <? len data - 2 then
        tag <- Struct.unpack_from_H data pos ;;
        if tag =? 4 then
          count_val <- Struct.unpack_from_H data (pos + 4) ;;
          if count_val >? 1 then parse_tags fuel' data (set_pos st (pos + 10))
          else
            flag_val <- Struct.unpack_from_H data (pos + 6) ;;
            parse_tags fuel' data
              (mk_locals (pos + 8) (positions st) (backgrounds st) (sizes st)
                         (colors st) (arc_angles st) (donut_radii st)
                         (Some flag_val) (board_background st))
        else if tag =? 5 then
          if pos + 6 >? len data then Ok st
          else
            count <- Struct.unpack_from_H data (pos + 4) ;;
            r <- read_positions (Z.to_nat count) data (pos + 6) (positions st) ;;
            parse_tags fuel' data
              (mk_locals (fst r) (snd r) (backgrounds st) (sizes st)
                         (colors st) (arc_angles st) (donut_radii st)
                         (_flags st) (board_background st))
        else if tag =? 6 then
          if pos + 6 >? len data then Ok st
          else
            count <- Struct.unpack_from_H data (pos + 4) ;;
            r <- read_H_values (Z.to_nat count) data (pos + 6) (backgrounds st) ;;
            parse_tags fuel' data
              (mk_locals (fst r) (positions st) (snd r) (sizes st)
                         (colors st) (arc_angles st) (donut_radii st)
                         (_flags st) (board_background st))
        else if tag =? 7 then
          if pos + 6 >? len data then Ok st
          else
            count <- Struct.unpack_from_H data (pos + 4) ;;
            r <- read_sizes (Z.to_nat count) data (pos + 6) (sizes st) ;;
            let pos := if count mod 2 =? 1 then fst r + 1 else fst r in
            parse_tags fuel' data
              (mk_locals pos (positions st) (backgrounds st) (snd r)
                         (colors st) (arc_angles st) (donut_radii st)
                         (_flags st) (board_background st))
        else if tag =? 8 then
          if pos + 6 >? len data then Ok st
          else
            count <- Struct.unpack_from_H data (pos + 4) ;;
            r <- read_colors (Z.to_nat count) data (pos + 6) (colors st) ;;
            parse_tags fuel' data
              (mk_locals (fst r) (positions st) (backgrounds st) (sizes st)
                         (snd r) (arc_angles st) (donut_radii st)
                         (_flags st) (board_background st))
        else if tag =? 10 then
          if pos + 6 >? len data then Ok st
          else
            count <- Struct.unpack_from_H data (pos + 4) ;;
            r <- read_H_values (Z.to_nat count) data (pos + 6) (arc_angles st) ;;
            parse_tags fuel' data
              (mk_locals (fst r) (positions st) (backgrounds st) (sizes st)
                         (colors st) (snd r) (donut_radii st)
                         (_flags st) (board_background st))
        else if tag =? 11 then
          if pos + 6 >? len data then Ok st
          else
            count <- Struct.unpack_from_H data (pos + 4) ;;
            r <- read_H_values (Z.to_nat count) data (pos + 6) (donut_radii st) ;;
            parse_tags fuel' data
              (mk_locals (fst r) (positions st) (backgrounds st) (sizes st)
                         (colors st) (arc_angles st) (snd r)
                         (_flags st) (board_background st))
        else if tag =? 12 then
          if pos + 6 >? len data then Ok st
          else
            count <- Struct.unpack_from_H data (pos + 4) ;;
            parse_tags fuel' data (set_pos st (pos + (6 + count * 2)))
        else if tag =? 3 then
          if pos + 8 <=? len data then
            board_bg <- Struct.unpack_from_H data (pos + 6) ;;
            Ok (mk_locals pos (positions st) (backgrounds st) (sizes st)
                          (colors st) (arc_angles st) (donut_radii st)
                          (_flags st)
                          (Some (get (zfind bg_names board_bg)
                                     (unknown_ board_bg))))
          else Ok st
        else parse_tags fuel' data (set_pos st (pos + 2))
      else Ok st
  end.

(** The body of the loop [for i, icon_id in enumerate(icons)] that builds
    one object. *)
Definition build_object (n : Z) (st : locals) (i : nat) (icon_id : Z) : Obj.t :=
  let type := idToName icon_id in
  let xy := match nth_error (positions st) i with
            | Some p => p
            | None => (0 # 1, 0 # 1)%Q
            end in
  let size := match nth_error (sizes st) i with
              | Some s => if s >? 0 then s else 100
              | None => 100
              end in
  let background :=
    match nth_error (backgrounds st) i with
    | Some bg => Some (match zfind BACKGROUND_TYPES bg with
                       | Some nm => JStr nm
                       | None => JInt bg
                       end)
    | None => None
    end in
  let color :=
    match nth_error (colors st) i with
    | Some (r, g, b, a) =>
        Some ("#" ++ format_02x r ++ format_02x g ++ format_02x b)%string
    | None => None
    end in
  let transparency :=
    match nth_error (colors st) i with
    | Some (r, g, b, a) => if a >? 0 then Some a else None
    | None => None
    end in
  let arc_angle :=
    match nth_error (arc_angles st) i with
    | Some v => if v >? 0 then Some v else None
    | None => None
    end in
  let donut_radius :=
    match nth_error (donut_radii st) i with
    | Some v => if v >? 0 then Some v else None
    | None => None
    end in
  let hidden :=
    match _flags st with
    | Some flag_val =>
        if (n =? 1) && (flag_val =? 0) then Some true else None
    | None => None
    end in
  let locked :=
    match _flags st with
    | Some flag_val =>
        if (n =? 1) && negb (flag_val =? 0)
           && ((flag_val =? 9) || negb (Z.land flag_val 8 =? 0))
        then Some true else None
    | None => None
    end in
  Obj.mk (Some type) (Some icon_id) (Some (fst xy)) (Some (snd xy))
         (Some size) background color None None None transparency
         arc_angle donut_radius None hidden locked.

Fixpoint build_objects (n : Z) (st : locals) (i : nat) (icons : list Z)
  : list Obj.t :=
  match icons with
  | [] => []
  | icon_id :: icons' =>
      build_object n st i icon_id :: build_objects n st (S i) icons'
  end.

Section Decoder.

(** [bytes.decode('utf-8', errors='replace')] of the standard library. *)
Variable utf8_decode : list Z -> string.

Definition parse_binary (data : list Z) : outcome Doc.t :=
  version <- Struct.unpack_from_I data 0 ;;
  let name :=
    strip_nul
      (utf8_decode (rstrip Z.eqb 0 (firstn 8 (skipn 28 data)))) in
  (* Parse icon list starting at 0x24 *)
  r <- parse_icons (S (List.length data)) data 36 [] ;;
  let pos := fst r in
  let icons := snd r in
  let n := len icons in
  st <- parse_tags (S (List.length data)) data
          (mk_locals pos [] [] [] [] [] [] None None) ;;
  Ok (Doc.mk (Some version) (Some name)
             (option_map JStr (board_background st))
             (Some (build_objects n st 0 icons))).

End Decoder.

(* ------------------------------------------------------------------ *)
(** ** The container and the two entry points

    [zlib.compress], [zlib.crc32] and [zlib.decompress] are the standard
    library's; [randint] is the value [random.randint(0, 63)] returns when
    [encode_cipher] is called without a key. *)

Section Codec.

Variable zlib_compress : list Z -> Z -> list Z.
Variable zlib_crc32 : list Z -> Z.
Variable zlib_decompress : list Z -> outcome (list Z).
Variable utf8_decode : list Z -> string.

Definition encode_cipher (binary_data : list Z) (key : option Z) (randint : Z)
  : outcome string :=
  let compressed := zlib_compress binary_data 6 in
  let length := len binary_data in
  length_bytes <- Struct.pack_H length ;;
  let checksum := Z.land (zlib_crc32 (length_bytes ++ compressed)) 4294967295 in
  checksum_bytes <- Struct.pack_I checksum ;;
  let header := checksum_bytes ++ length_bytes in
  let full_data := header ++ compressed in
  let key := match key with None => randint | Some key => key end in
  Ok (CipherCodec.encode full_data key).

Definition decode_cipher (stgy_string : string) : outcome (list Z) :=
  binary_data <- CipherCodec.decode stgy_string ;;
  zlib_decompress (skipn 6 binary_data).

Definition encode_stgy (data : Doc.t) (randint : Z) : outcome string :=
  binary <- build_binary data ;;
  encode_cipher binary None randint.

Definition decode_stgy (stgy_string : string) : outcome Doc.t :=
  data <- decode_cipher stgy_string ;;
  parse_binary utf8_decode data.

End Codec.

(* ================================================================== *)
(** * Auxiliary definitions used by the statements and proofs *)

(** The key character [encode_cipher] emits for [key], and the key
    [decode_cipher] reads back from a key character. *)
Definition key_char_of (key : Z) : ascii :=
  chr (dict_get KEY_REVERSE (ord (base64_value_to_char key)) (ord "V"%char)).

Definition key_of_char (c : ascii) : outcome Z :=
  k <- Struct.index DAT_1420cf520 (ord c) ;;
  Ok (char_to_base64_value (chr k)).

Definition outcome_Z_eqb (r : outcome Z) (v : Z) : bool :=
  match r with Ok x => x =? v | Raise _ => false end.


(** The 6-bit groups of a byte string: unpadded base64 before the alphabet
    is applied. *)
Fixpoint sextets (b : list Z) : list Z :=
  match b with
  | [] => []
  | [x] => [x / 4; (x mod 4) * 16]
  | [x; y] => [x / 4; (x mod 4) * 16 + y / 16; (y mod 16) * 4]
  | x :: y :: z :: b' =>
      x / 4 :: (x mod 4) * 16 + y / 16 :: (y mod 16) * 4 + z / 64 :: z mod 64
      :: sextets b'
  end.

Definition is_sextet (v : Z) : Prop := 0 <= v < 64.

(** Stand-ins for the standard library, used to run the model on concrete
    inputs: a decoder that is UTF-8 on ASCII bytes, and a "compressor" that
    stores its input unchanged. *)
Definition decode_ascii (b : list Z) : string :=
  string_of_list_ascii (map (fun x => if x <? 128 then chr x else "?"%char) b).

Definition store_compress (b : list Z) (level : Z) : list Z := b.
Definition store_decompress (b : list Z) : outcome (list Z) := Ok b.
Definition zero_crc32 (b : list Z) : Z := 0.

(** One [tank] at the origin, as the decoder reports it. *)
Definition tank_object : Obj.t :=
  Obj.mk (Some "tank"%string) (Some 47) (Some (0 # 1)%Q) (Some (0 # 1)%Q)
         (Some 100) (Some (JStr "none")) (Some "#ffffff"%string)
         None None None None None None None None None.

Definition tank_board : Doc.t :=
  Doc.mk (Some 2) (Some "board"%string) (Some (JStr "none"))
         (Some [tank_object]).

Definition empty_board : Doc.t :=
  Doc.mk (Some 2) (Some "board"%string) (Some (JStr "none")) (Some []).

(** The icon code [build_binary] writes for an object:
    [obj.get("type_id") or ICON_TYPE_IDS.get(type_name, 47)]. *)
Definition icon_id_of (obj : Obj.t) : Z :=
  py_or (Obj.type_id obj) (nameToId (get (Obj.type obj) "tank"%string)).

(* ------------------------------------------------------------------ *)
(** ** The bytes [build_binary] lays out

    Little-endian byte strings of the [struct] formats and the ranges in
    which [struct.pack] accepts a value. *)

Definition le16 (v : Z) : list Z := [v mod 256; v / 256].
Definition le16s (v : Z) : list Z := [v mod 256; (v mod 65536) / 256].
Definition le32 (v : Z) : list Z :=
  [v mod 256; (v / 256) mod 256; (v / 65536) mod 256; v / 16777216].

Definition u8 (v : Z) : bool := (0 <=? v) && (v <? 256).
Definition u16 (v : Z) : bool := (0 <=? v) && (v <? 65536).
Definition i16 (v : Z) : bool := (-32768 <=? v) && (v <? 32768).
Definition u32 (v : Z) : bool := (0 <=? v) && (v <? 4294967296).

(** The values [build_binary] reads off an object and off the document. *)
Definition x_of (obj : Obj.t) : Z := py_int (get (Obj.x obj) 0 * 10)%Q.
Definition y_of (obj : Obj.t) : Z := py_int (get (Obj.y obj) 0 * 10)%Q.

Definition bg_of (obj : Obj.t) : Z :=
  match get (Obj.background obj) (JInt 0) with
  | JStr s => get (sfind bg_map_object s) 0
  | JInt z => z
  end.

Definition size_of (obj : Obj.t) : Z := Z.land (get (Obj.size obj) 100) 255.
Definition r_of (obj : Obj.t) : Z := get (Obj.color_r obj) 255.
Definition g_of (obj : Obj.t) : Z := get (Obj.color_g obj) 255.
Definition b_of (obj : Obj.t) : Z := get (Obj.color_b obj) 255.
Definition a_of (obj : Obj.t) : Z := get (Obj.transparency obj) 0.
Definition arc_of (obj : Obj.t) : Z := get (Obj.arc_angle obj) 0.

Definition radius_of (obj : Obj.t) : Z :=
  get (Obj.donut_radius obj) (get (Obj.knockback_horizontal obj) 0).

Definition flags_of (obj : Obj.t) : Z :=
  if get (Obj.hidden obj) false then 0
  else if get (Obj.locked obj) false then 9
  else 1.

Definition board_bg_of (data : Doc.t) : Z :=
  match get (Doc.board_background data) (JInt 1) with
  | JStr s => get (sfind bg_map_footer (lower s)) 1
  | JInt z => z
  end.

Definition name_bytes (data : Doc.t) : list Z :=
  ljust 8 (firstn 8 (utf8_encode
                       (firstn 7 (str (get (Doc.name data) "board"%string))))).

(** The sections, in the order [build_binary] appends them. *)
Definition layout_header (data : Doc.t) : list Z :=
  [2; 0; 0; 0] ++ [0; 0; 0; 0] ++ repeat 0 10 ++ [0; 0; 0; 0] ++ [0; 0]
  ++ [1; 0] ++ [8; 0] ++ name_bytes data.

Definition layout_icons (objects : list Obj.t) : list Z :=
  flat_map (fun obj => le16 2 ++ le16 (icon_id_of obj)) objects.

Definition layout_tag4 (objects : list Obj.t) : list Z :=
  let n := len objects in
  if n =? 0 then []
  else if n =? 1 then
    le16 4 ++ le16 1 ++ le16 1 ++ le16 (flags_of (nth 0 objects Obj.empty))
  else le16 4 ++ le16 1 ++ le16 n ++ flat_map (fun _ => le16 1) objects.

Definition layout_positions (objects : list Obj.t) : list Z :=
  le16 5 ++ le16 3 ++ le16 (len objects)
  ++ flat_map (fun obj => le16s (x_of obj) ++ le16s (y_of obj)) objects.

Definition layout_backgrounds (objects : list Obj.t) : list Z :=
  le16 6 ++ le16 1 ++ le16 (len objects)
  ++ flat_map (fun obj => le16 (bg_of obj)) objects.

Definition layout_sizes (objects : list Obj.t) : list Z :=
  le16 7 ++ le16 0 ++ le16 (len objects)
  ++ flat_map (fun obj => [size_of obj]) objects
  ++ (if len objects mod 2 =? 1 then [0] else []).

Definition layout_colors (objects : list Obj.t) : list Z :=
  le16 8 ++ le16 2 ++ le16 (len objects)
  ++ flat_map (fun obj => [r_of obj; g_of obj; b_of obj; a_of obj]) objects.

Definition layout_arc_angles (objects : list Obj.t) : list Z :=
  le16 10 ++ le16 1 ++ le16 (len objects)
  ++ flat_map (fun obj => le16 (arc_of obj)) objects.

Definition layout_donut_radii (objects : list Obj.t) : list Z :=
  le16 11 ++ le16 1 ++ le16 (len objects)
  ++ flat_map (fun obj => le16 (radius_of obj)) objects.

Definition layout_reserved (objects : list Obj.t) : list Z :=
  le16 12 ++ le16 1 ++ le16 (len objects)
  ++ flat_map (fun _ => le16 0) objects.

Definition layout_properties (objects : list Obj.t) : list Z :=
  if len objects >? 0 then
    layout_positions objects ++ layout_backgrounds objects
    ++ layout_sizes objects ++ layout_colors objects
    ++ layout_arc_angles objects ++ layout_donut_radii objects
    ++ layout_reserved objects
  else [].

Definition layout_footer (data : Doc.t) : list Z :=
  le16 3 ++ le16 1 ++ le16 1 ++ le16 (board_bg_of data).

(** The buffer before the two header fields are updated. *)
Definition layout (data : Doc.t) : list Z :=
  let objects := get (Doc.objects data) [] in
  layout_header data ++ layout_icons objects ++ layout_tag4 objects
  ++ layout_properties objects ++ layout_footer data.

(** The two [pack_into] calls at the end of [build_binary]. *)
Definition patch (result : list Z) : list Z :=
  let result := Struct.overwrite result 18 (le32 (len result - 28)) in
  Struct.overwrite result 4 (le32 (len result - 16)).

(** Every value [build_binary] packs is in the range of its format. *)
Definition properties_fit (objects : list Obj.t) : bool :=
  forallb (fun obj => i16 (x_of obj) && i16 (y_of obj)) objects
  && forallb (fun obj => u16 (bg_of obj)) objects
  && forallb (fun obj => u8 (r_of obj) && u8 (g_of obj) && u8 (b_of obj)
                         && u8 (a_of obj)) objects
  && forallb (fun obj => u16 (arc_of obj)) objects
  && forallb (fun obj => u16 (radius_of obj)) objects.

Definition fits (data : Doc.t) : bool :=
  let objects := get (Doc.objects data) [] in
  forallb (fun obj => u16 (icon_id_of obj)) objects
  && u16 (len objects)
  && properties_fit objects
  && u16 (board_bg_of data).

(** The binary of [tank_board] cut off inside the header of its position
    section (52 of its 116 bytes), and the same binary with the count of
    its colour section set to 0 although the board has one object. *)
Definition truncated_tank : list Z :=
  [2; 0; 0; 0; 100; 0; 0; 0; 0; 0; 0; 0; 0; 0; 0; 0; 0; 0; 88; 0; 0; 0;
   0; 0; 1; 0; 8; 0; 98; 111; 97; 114; 100; 0; 0; 0;
   2; 0; 47; 0;
   4; 0; 1; 0; 1; 0; 1; 0;
   5; 0; 3; 0].

Definition mismatched_tank : list Z :=
  [2; 0; 0; 0; 100; 0; 0; 0; 0; 0; 0; 0; 0; 0; 0; 0; 0; 0; 88; 0; 0; 0;
   0; 0; 1; 0; 8; 0; 98; 111; 97; 114; 100; 0; 0; 0;
   2; 0; 47; 0;
   4; 0; 1; 0; 1; 0; 1; 0;
   5; 0; 3; 0; 1; 0; 0; 0; 0; 0;
   6; 0; 1; 0; 1; 0; 0; 0;
   7; 0; 0; 0; 1; 0; 100; 0;
   8; 0; 2; 0; 0; 0; 255; 255; 255; 0;
   10; 0; 1; 0; 1; 0; 0; 0;
   11; 0; 1; 0; 1; 0; 0; 0;
   12; 0; 1; 0; 1; 0; 0; 0;
   3; 0; 1; 0; 1; 0; 1; 0].

(** The share code of [tank_board] under key 17, with the stand-ins for
    the compressor and the checksum. *)
Definition tank_code : string :=
  match encode_stgy store_compress zero_crc32 tank_board 17 with
  | Ok code => code
  | Raise _ => EmptyString
  end.

(* ------------------------------------------------------------------ *)
(** ** What the decoder reports for an encoded document *)

(** The object the decoder reports for [obj] on a board of [n] objects. *)
Definition canon_obj (n : Z) (obj : Obj.t) : Obj.t :=
  Obj.mk
    (Some (idToName (icon_id_of obj)))
    (Some (icon_id_of obj))
    (Some (div10 (x_of obj)))
    (Some (div10 (y_of obj)))
    (Some (if size_of obj >? 0 then size_of obj else 100))
    (Some (match zfind BACKGROUND_TYPES (bg_of obj) with
           | Some nm => JStr nm
           | None => JInt (bg_of obj)
           end))
    (Some ("#" ++ format_02x (r_of obj) ++ format_02x (g_of obj)
               ++ format_02x (b_of obj))%string)
    None None None
    (if a_of obj >? 0 then Some (a_of obj) else None)
    (if arc_of obj >? 0 then Some (arc_of obj) else None)
    (if radius_of obj >? 0 then Some (radius_of obj) else None)
    None
    (if (n =? 1) && get (Obj.hidden obj) false then Some true else None)
    (if (n =? 1) && negb (get (Obj.hidden obj) false)
        && get (Obj.locked obj) false
     then Some true else None).

(** The document the decoder reports for [data]. *)
Definition canon (data : Doc.t) : Doc.t :=
  let objects := get (Doc.objects data) [] in
  Doc.mk
    (Some 2)
    (Some (string_of_list_ascii
             (firstn 7 (str (get (Doc.name data) "board"%string)))))
    (Some (JStr (get (zfind bg_names (board_bg_of data))
                     (unknown_ (board_bg_of data)))))
    (Some (map (canon_obj (len objects)) objects)).

(** The name consists of ASCII characters other than NUL. *)
Definition name_plain (data : Doc.t) : bool :=
  forallb (fun c => (1 <=? ord c) && (ord c <? 128))
          (str (get (Doc.name data) "board"%string)).

(** The state of the tag loop after the sections of [data], stopped at
    offset [p]. *)
Definition parsed_state (data : Doc.t) (p : Z) : locals :=
  let objects := get (Doc.objects data) [] in
  mk_locals p
    (map (fun obj => (div10 (x_of obj), div10 (y_of obj))) objects)
    (map bg_of objects)
    (map size_of objects)
    (map (fun obj => (r_of obj, g_of obj, b_of obj, a_of obj)) objects)
    (map arc_of objects)
    (map radius_of objects)
    (if len objects =? 1 then Some (flags_of (nth 0 objects Obj.empty))
     else None)
    (Some (get (zfind bg_names (board_bg_of data))
               (unknown_ (board_bg_of data)))).

(** [tank_board] under a name of eight characters, and with a red tank. *)
Definition named_board : Doc.t :=
  Doc.mk (Some 2) (Some "abcdefgh"%string) (Some (JStr "none"))
         (Some [tank_object]).

Definition red_tank_board : Doc.t :=
  Doc.mk (Some 2) (Some "board"%string) (Some (JStr "none"))
         (Some [Obj.mk (Some "tank"%string) (Some 47) (Some (0 # 1)%Q)
                       (Some (0 # 1)%Q) (Some 100) (Some (JStr "none"))
                       (Some "#ff0000"%string)
                       None None None None None None None None None]).

(** The values the tag loop has collected are such as [build_binary]
    can pack again: positions are tenths of signed 16-bit values,
    backgrounds, arc angles and radii are unsigned 16-bit values, and
    the alpha of every colour is a byte. *)
Definition locals_in_range (st : locals) : Prop :=
  Forall (fun p => i16 (py_int (fst p * 10)%Q) = true
                   /\ i16 (py_int (snd p * 10)%Q) = true) (positions st)
  /\ Forall (fun v => u16 v = true) (backgrounds st)
  /\ Forall (fun c => u8 (snd c) = true) (colors st)
  /\ Forall (fun v => u16 v = true) (arc_angles st)
  /\ Forall (fun v => u16 v = true) (donut_radii st).

(* ================================================================== *)
(** * Properties *)

(* ------------------------------------------------------------------ *)
(** ** Characters, ranges and results *)

Lemma ord_range (c : ascii) : 0 <= ord c < 256.
Proof.
  unfold ord. pose proof (N_ascii_bounded c). lia.
Qed.

Lemma chr_ord (c : ascii) : chr (ord c) = c.
Proof.
  unfold chr, ord. rewrite N2Z.id. apply ascii_N_embedding.
Qed.

Lemma ord_chr (z : Z) : 0 <= z < 256 -> ord (chr z) = z.
Proof.
  intros Hz. unfold chr, ord. rewrite N_ascii_embedding by lia. lia.
Qed.

Lemma range_forallb (n : nat) (P : Z -> bool) :
  forallb P (range n) = true ->
  forall v, 0 <= v < Z.of_nat n -> P v = true.
Proof.
  intros H v Hv. rewrite forallb_forall in H. apply H.
  unfold range. apply in_map_iff. exists (Z.to_nat v). split; [lia|].
  apply in_seq. lia.
Qed.

Lemma len_app {A : Type} (l1 l2 : list A) : len (l1 ++ l2) = len l1 + len l2.
Proof. unfold len. rewrite length_app. lia. Qed.

Lemma len_nonneg {A : Type} (l : list A) : 0 <= len l.
Proof. unfold len. lia. Qed.

Lemma land_63 (x : Z) : Z.land x 63 = x mod 64.
Proof. change 63 with (Z.ones 6). rewrite Z.land_ones by lia. reflexivity. Qed.

Lemma str_app (s1 s2 : string) : str (s1 ++ s2) = (str s1 ++ str s2)%list.
Proof.
  unfold str. induction s1 as [|c s1 IH]; simpl; [reflexivity|].
  now rewrite IH.
Qed.

Lemma str_of_list (l : list ascii) : str (string_of_list_ascii l) = l.
Proof. apply list_ascii_of_string_of_list_ascii. Qed.

Lemma rstrip_cons_neq {A : Type} (eqb : A -> A -> bool) (x c : A) (s : list A) :
  eqb c x = false -> rstrip eqb x (c :: s) = c :: rstrip eqb x s.
Proof.
  intros H. simpl. destruct (rstrip eqb x s); [now rewrite H|reflexivity].
Qed.

(** Induction on a list three elements at a time. *)
Lemma list_ind3 {A : Type} (P : list A -> Prop) :
  P [] -> (forall x, P [x]) -> (forall x y, P [x; y]) ->
  (forall x y z l, P l -> P (x :: y :: z :: l)) ->
  forall l, P l.
Proof.
  intros H0 H1 H2 H3.
  fix IH 1. intros [|x [|y [|z l]]];
    [exact H0 | apply H1 | apply H2 | apply H3; apply IH].
Qed.

(* ------------------------------------------------------------------ *)
(** ** The tables are mutually inverse on the 64 sextets *)

Lemma forward_inverse_dat (v : Z) :
  0 <= v < 64 ->
  char_to_base64_value
    (chr (dict_get INVERSE_DAT
            (ord (chr (dict_get FORWARD_DAT (ord (base64_value_to_char v))
                                (ord "A"%char)))) 65)) = v.
Proof.
  intros Hv.
  apply Z.eqb_eq.
  apply (range_forallb 64
           (fun v => char_to_base64_value
              (chr (dict_get INVERSE_DAT
                 (ord (chr (dict_get FORWARD_DAT (ord (base64_value_to_char v))
                                     (ord "A"%char)))) 65)) =? v)).
  - vm_compute. reflexivity.
  - exact Hv.
Qed.

Lemma result_Z_eqb_eq (r : outcome Z) (v : Z) :
  outcome_Z_eqb r v = true -> r = Ok v.
Proof.
  destruct r; simpl; [|discriminate]. intros H. apply Z.eqb_eq in H. now subst.
Qed.

Lemma key_char_recovered (k : Z) :
  0 <= k < 64 -> key_of_char (key_char_of k) = Ok k.
Proof.
  intros Hk. apply result_Z_eqb_eq.
  apply (range_forallb 64 (fun k => outcome_Z_eqb (key_of_char (key_char_of k)) k)).
  - vm_compute. reflexivity.
  - exact Hk.
Qed.

Lemma value_of_char_of_value (v : Z) :
  0 <= v < 64 -> char_to_base64_value (base64_value_to_char v) = v.
Proof.
  intros Hv. apply Z.eqb_eq.
  apply (range_forallb 64
           (fun v => char_to_base64_value (base64_value_to_char v) =? v)).
  - vm_compute. reflexivity.
  - exact Hv.
Qed.

(* ------------------------------------------------------------------ *)
(** ** The keyed rotation is undone by the decoder's loop *)

Lemma rotation_undone (val i key : Z) :
  0 <= val < 64 ->
  Z.land (Z.land (val + i + key) 63 - i - key) 63 = val.
Proof.
  intros Hv. rewrite !land_63.
  replace ((val + i + key) mod 64 - i - key)
    with ((val + i + key) mod 64 - (i + key)) by lia.
  rewrite Zminus_mod_idemp_l.
  replace (val + i + key - (i + key)) with val by lia.
  apply Z.mod_small. lia.
Qed.

Lemma decode_encode_loop (vs : list Z) :
  Forall (fun v => 0 <= v < 64) vs ->
  forall i key,
    CipherCodec.decode_loop
      (CipherCodec.encode_loop (map base64_value_to_char vs) i key) i key
    = map base64_value_to_char vs.
Proof.
  induction 1 as [|v vs Hv _ IH]; intros i key; simpl; [reflexivity|].
  rewrite IH. f_equal.
  rewrite (value_of_char_of_value v Hv).
  rewrite forward_inverse_dat.
  - now rewrite rotation_undone.
  - rewrite land_63. apply Z.mod_pos_bound. lia.
Qed.

(* ------------------------------------------------------------------ *)
(** ** Base64: what [b64encode] emits and what [b64decode] accepts *)

Ltac byte_arith :=
  unfold is_byte, is_sextet in *; Z.div_mod_to_equations; lia.

Lemma sextets_range (b : list Z) :
  bytes_ok b -> Forall is_sextet (sextets b).
Proof.
  unfold bytes_ok.
  induction b as [|x|x y|x y z b IH] using list_ind3; intros Hb; simpl.
  - constructor.
  - inversion_clear Hb. repeat constructor; byte_arith.
  - inversion_clear Hb as [|? ? Hx Hb']. inversion_clear Hb'.
    repeat constructor; byte_arith.
  - inversion_clear Hb as [|? ? Hx Hb1]. inversion_clear Hb1 as [|? ? Hy Hb2].
    inversion_clear Hb2 as [|? ? Hz Hb3].
    repeat (constructor; [byte_arith|]). now apply IH.
Qed.

Lemma b2a_not_pad (v : Z) :
  is_sextet v -> Ascii.eqb (Base64.b2a v) "="%char = false.
Proof.
  intros Hv. apply negb_true_iff.
  apply (range_forallb 64 (fun v => negb (Ascii.eqb (Base64.b2a v) "="%char))).
  - vm_compute. reflexivity.
  - exact Hv.
Qed.

Lemma a2b_b2a (v : Z) : is_sextet v -> Base64.a2b (Base64.b2a v) = Some v.
Proof.
  intros Hv.
  assert (H : match Base64.a2b (Base64.b2a v) with
              | Some x => x =? v | None => false end = true).
  { apply (range_forallb 64 (fun v => match Base64.a2b (Base64.b2a v) with
                                      | Some x => x =? v | None => false end)).
    - vm_compute. reflexivity.
    - exact Hv. }
  destruct (Base64.a2b (Base64.b2a v)); [|discriminate].
  apply Z.eqb_eq in H. now subst.
Qed.

Lemma rstrip_b64encode (b : list Z) :
  bytes_ok b ->
  rstrip Ascii.eqb "="%char (Base64.b64encode b) = map Base64.b2a (sextets b).
Proof.
  intros Hb. pose proof (sextets_range b Hb) as Hs. clear Hb. revert Hs.
  induction b as [|x|x y|x y z b IH] using list_ind3; simpl; intros Hs.
  - reflexivity.
  - inversion_clear Hs as [|? ? H1 Hs1]. inversion_clear Hs1 as [|? ? H2 _].
    rewrite (b2a_not_pad _ H2). reflexivity.
  - inversion_clear Hs as [|? ? H1 Hs1]. inversion_clear Hs1 as [|? ? H2 Hs2].
    inversion_clear Hs2 as [|? ? H3 _].
    rewrite (b2a_not_pad _ H3). reflexivity.
  - inversion_clear Hs as [|? ? H1 Hs1]. inversion_clear Hs1 as [|? ? H2 Hs2].
    inversion_clear Hs2 as [|? ? H3 Hs3]. inversion_clear Hs3 as [|? ? H4 Hs4].
    specialize (IH Hs4).
    change (rstrip Ascii.eqb "="%char
              (Base64.b2a (x / 4) :: Base64.b2a (x mod 4 * 16 + y / 16)
               :: Base64.b2a (y mod 16 * 4 + z / 64) :: Base64.b2a (z mod 64)
               :: Base64.b64encode b)
            = Base64.b2a (x / 4) :: Base64.b2a (x mod 4 * 16 + y / 16)
              :: Base64.b2a (y mod 16 * 4 + z / 64) :: Base64.b2a (z mod 64)
              :: map Base64.b2a (sextets b)).
    rewrite !rstrip_cons_neq by (now apply b2a_not_pad).
    now rewrite IH.
Qed.

Lemma urlsafe_of_standard (vs : list Z) :
  Forall is_sextet vs ->
  replace "/"%char "_"%char (replace "+"%char "-"%char (map Base64.b2a vs))
  = map base64_value_to_char vs.
Proof.
  intros Hs. unfold replace. rewrite !map_map. apply map_ext_in.
  intros v Hin. rewrite Forall_forall in Hs. pose proof (Hs v Hin) as Hv.
  apply Ascii.eqb_eq.
  apply (range_forallb 64
           (fun v => Ascii.eqb
              (if Ascii.eqb (if Ascii.eqb (Base64.b2a v) "+"%char
                             then "-"%char else Base64.b2a v) "/"%char
               then "_"%char
               else if Ascii.eqb (Base64.b2a v) "+"%char
                    then "-"%char else Base64.b2a v)
              (base64_value_to_char v))).
  - vm_compute. reflexivity.
  - exact Hv.
Qed.

Lemma standard_of_urlsafe (vs : list Z) :
  Forall is_sextet vs ->
  replace "_"%char "/"%char
    (replace "-"%char "+"%char (map base64_value_to_char vs))
  = map Base64.b2a vs.
Proof.
  intros Hs. unfold replace. rewrite !map_map. apply map_ext_in.
  intros v Hin. rewrite Forall_forall in Hs. pose proof (Hs v Hin) as Hv.
  apply Ascii.eqb_eq.
  apply (range_forallb 64
           (fun v => Ascii.eqb
              (if Ascii.eqb (if Ascii.eqb (base64_value_to_char v) "-"%char
                             then "+"%char else base64_value_to_char v) "_"%char
               then "/"%char
               else if Ascii.eqb (base64_value_to_char v) "-"%char
                    then "+"%char else base64_value_to_char v)
              (Base64.b2a v))).
  - vm_compute. reflexivity.
  - exact Hv.
Qed.

(** One step of the decoding loop on a character of the alphabet. *)
Lemma a2b_loop_symbol (v : Z) (s : list ascii) (quad_pos leftchar pads : Z)
      (out : list Z) :
  is_sextet v ->
  Base64.a2b_loop (Base64.b2a v :: s) quad_pos leftchar pads out =
  if quad_pos =? 0 then Base64.a2b_loop s 1 v 0 out
  else if quad_pos =? 1 then
    Base64.a2b_loop s 2 (v mod 16) 0 (out ++ [leftchar * 4 + v / 16])
  else if quad_pos =? 2 then
    Base64.a2b_loop s 3 (v mod 4) 0 (out ++ [leftchar * 16 + v / 4])
  else Base64.a2b_loop s 0 0 0 (out ++ [leftchar * 64 + v]).
Proof.
  intros Hv. simpl. rewrite (b2a_not_pad v Hv), (a2b_b2a v Hv). reflexivity.
Qed.

Lemma a2b_loop_quad (v0 v1 v2 v3 : Z) (s : list ascii) (leftchar pads : Z)
      (out : list Z) :
  is_sextet v0 -> is_sextet v1 -> is_sextet v2 -> is_sextet v3 ->
  Base64.a2b_loop
    (Base64.b2a v0 :: Base64.b2a v1 :: Base64.b2a v2 :: Base64.b2a v3 :: s)
    0 leftchar pads out
  = Base64.a2b_loop s 0 0 0
      (out ++ [v0 * 4 + v1 / 16; v1 mod 16 * 16 + v2 / 4; v2 mod 4 * 64 + v3]).
Proof.
  intros H0 H1 H2 H3.
  rewrite (a2b_loop_symbol v0) by assumption. cbn [Z.eqb].
  rewrite (a2b_loop_symbol v1) by assumption. cbn [Z.eqb Pos.eqb].
  rewrite (a2b_loop_symbol v2) by assumption. cbn [Z.eqb Pos.eqb].
  rewrite (a2b_loop_symbol v3) by assumption. cbn [Z.eqb Pos.eqb].
  rewrite <- !app_assoc. reflexivity.
Qed.

Lemma b64decode_sextets (b : list Z) :
  bytes_ok b ->
  forall leftchar pads out,
    Base64.a2b_loop (map Base64.b2a (sextets b) ++ str "==") 0 leftchar pads out
    = Ok (out ++ b).
Proof.
  unfold bytes_ok.
  induction b as [|x|x y|x y z b IH] using list_ind3; intros Hb lc pads out.
  - simpl. now rewrite app_nil_r.
  - inversion_clear Hb as [|? ? Hx _].
    cbn [sextets map app].
    rewrite !a2b_loop_symbol by byte_arith. simpl.
    repeat f_equal. byte_arith.
  - inversion_clear Hb as [|? ? Hx Hb1]. inversion_clear Hb1 as [|? ? Hy _].
    cbn [sextets map app].
    rewrite !a2b_loop_symbol by byte_arith. simpl.
    rewrite <- app_assoc. simpl. repeat f_equal; byte_arith.
  - inversion_clear Hb as [|? ? Hx Hb1]. inversion_clear Hb1 as [|? ? Hy Hb2].
    inversion_clear Hb2 as [|? ? Hz Hb3].
    cbn [sextets map app].
    rewrite a2b_loop_quad by byte_arith.
    rewrite IH by assumption.
    rewrite <- !app_assoc. simpl. repeat f_equal; byte_arith.
Qed.

(* ------------------------------------------------------------------ *)
(** ** The share code and its payload *)

Lemma slice_wrapped {A : Type} (pre mid : list A) (c : A) :
  List.length pre = 7%nat -> slice_neg 7 1 (pre ++ mid ++ [c]) = mid.
Proof.
  intros Hpre. unfold slice_neg.
  rewrite <- Hpre at 2. rewrite skipn_app, skipn_all, Nat.sub_diag.
  cbn [skipn app].
  rewrite !length_app, Hpre. cbn [List.length].
  replace (7 + (List.length mid + 1) - 1 - 7)%nat with (List.length mid) by lia.
  rewrite firstn_app, Nat.sub_diag, firstn_all. cbn [firstn]. apply app_nil_r.
Qed.

Lemma str_cons (c : ascii) (s : string) : str (String c s) = c :: str s.
Proof. reflexivity. Qed.

(** The characters of the share code produced for [full_data] under [key]. *)
Lemma encode_chars (full_data : list Z) (key : Z) :
  bytes_ok full_data ->
  str (CipherCodec.encode full_data key)
  = (str "[stgy:a"
     ++ (key_char_of key
         :: CipherCodec.encode_loop
              (map base64_value_to_char (sextets full_data)) 0 key)
     ++ [ "]"%char ])%list.
Proof.
  intros Hb. unfold CipherCodec.encode.
  rewrite rstrip_b64encode by assumption.
  rewrite urlsafe_of_standard by (now apply sextets_range).
  rewrite str_app.
  change (String ?c ?s ++ ?t)%string with (String c (s ++ t)%string).
  rewrite (str_cons _ (string_of_list_ascii _ ++ _)), str_app, str_of_list.
  reflexivity.
Qed.

Lemma decode_payload (key_char : ascii) (data1 : list ascii) (pre : list ascii)
      (c : ascii) :
  List.length pre = 7%nat ->
  forall s, str s = (pre ++ (key_char :: data1) ++ [c])%list ->
  CipherCodec.decode s =
  (k <- Struct.index DAT_1420cf520 (ord key_char) ;;
   Base64.b64decode
     (replace "_"%char "/"%char
        (replace "-"%char "+"%char
           (CipherCodec.decode_loop data1 0 (char_to_base64_value (chr k))))
      ++ str "==")).
Proof.
  intros Hpre s Hs. unfold CipherCodec.decode.
  rewrite Hs, slice_wrapped by assumption. reflexivity.
Qed.

Lemma cipher_roundtrip_any (b : list Z) (k : Z) :
  bytes_ok b -> 0 <= k < 64 ->
  CipherCodec.decode (CipherCodec.encode b k) = Ok b.
Proof.
  intros Hb Hk.
  rewrite (decode_payload _ _ (str "[stgy:a") "]"%char eq_refl _
             (encode_chars b k Hb)).
  pose proof (key_char_recovered k Hk) as Hkey. unfold key_of_char in Hkey.
  destruct (Struct.index DAT_1420cf520 (ord (key_char_of k))) as [k'|e];
    simpl in Hkey; [|discriminate].
  injection Hkey as Hkey. cbn [bind]. rewrite Hkey.
  rewrite decode_encode_loop by (apply sextets_range; assumption).
  rewrite standard_of_urlsafe by (now apply sextets_range).
  unfold Base64.b64decode. now rewrite b64decode_sextets.
Qed.

(** C2.  For every byte buffer [b] of length at least 6 and every key [k]
    in 0..63, decoding at the cipher level what the cipher level encoded
    from [b] under [k] gives back exactly [b]. *)
Theorem cipher_roundtrip (b : list Z) (k : Z) :
  bytes_ok b -> 6 <= len b -> 0 <= k < 64 ->
  CipherCodec.decode (CipherCodec.encode b k) = Ok b.
Proof.
  intros Hb _ Hk. now apply cipher_roundtrip_any.
Qed.

Lemma cipher_roundtrip_witness :
  CipherCodec.decode (CipherCodec.encode [120; 156; 3; 0; 0; 0; 0; 1] 37)
  = Ok [120; 156; 3; 0; 0; 0; 0; 1].
Proof.
  apply (cipher_roundtrip [120; 156; 3; 0; 0; 0; 0; 1] 37).
  - unfold bytes_ok, is_byte. repeat constructor; lia.
  - vm_compute. discriminate.
  - lia.
Defined.

(* ------------------------------------------------------------------ *)
(** ** The layout on concrete boards *)

Example build_tank_board :
  build_binary tank_board =
  Ok [2; 0; 0; 0; 100; 0; 0; 0; 0; 0; 0; 0; 0; 0; 0; 0; 0; 0; 88; 0; 0; 0;
      0; 0; 1; 0; 8; 0; 98; 111; 97; 114; 100; 0; 0; 0;
      2; 0; 47; 0;
      4; 0; 1; 0; 1; 0; 1; 0;
      5; 0; 3; 0; 1; 0; 0; 0; 0; 0;
      6; 0; 1; 0; 1; 0; 0; 0;
      7; 0; 0; 0; 1; 0; 100; 0;
      8; 0; 2; 0; 1; 0; 255; 255; 255; 0;
      10; 0; 1; 0; 1; 0; 0; 0;
      11; 0; 1; 0; 1; 0; 0; 0;
      12; 0; 1; 0; 1; 0; 0; 0;
      3; 0; 1; 0; 1; 0; 1; 0].
Proof. vm_compute. reflexivity. Qed.

Example parse_tank_board :
  (b <- build_binary tank_board ;; parse_binary decode_ascii b) = Ok tank_board.
Proof. vm_compute. reflexivity. Qed.

Example parse_empty_board :
  (b <- build_binary empty_board ;; parse_binary decode_ascii b) = Ok empty_board.
Proof. vm_compute. reflexivity. Qed.

Example roundtrip_tank_board :
  (s <- encode_stgy store_compress zero_crc32 tank_board 17 ;;
   decode_stgy store_decompress decode_ascii s) = Ok tank_board.
Proof. vm_compute. reflexivity. Qed.

(* ------------------------------------------------------------------ *)
(** ** The background tables *)

Ltac split_name nm :=
  repeat match goal with
         | |- context [String.eqb ?k nm] =>
             destruct (String.eqb_spec k nm) as [<-|?]
         end.

Ltac split_code c :=
  repeat match goal with
         | |- context [Z.eqb ?k c] => destruct (Z.eqb_spec k c) as [<-|?]
         | |- context [Z.eqb ?k (c + 1)] => destruct (Z.eqb_spec k (c + 1))
         end.

Lemma bg_map_footer_offset (nm : string) (c : Z) :
  sfind bg_map_object nm = Some c <-> sfind bg_map_footer nm = Some (c + 1).
Proof.
  unfold bg_map_object, bg_map_footer. cbn [sfind].
  split_name nm; cbn [String.eqb Ascii.eqb Bool.eqb];
    (split; intros H; [injection H as <-; reflexivity
                      | injection H as H; f_equal; lia])
    || (split; discriminate).
Qed.

Lemma bg_names_offset (nm : string) (c : Z) :
  zfind BACKGROUND_TYPES c = Some nm <-> zfind bg_names (c + 1) = Some nm.
Proof.
  unfold BACKGROUND_TYPES, bg_names. cbn [zfind].
  split_code c; try lia; try reflexivity.
Qed.

Lemma bg_map_object_inverse (nm : string) (c : Z) :
  sfind bg_map_object nm = Some c <-> zfind BACKGROUND_TYPES c = Some nm.
Proof.
  unfold bg_map_object, BACKGROUND_TYPES. cbn [sfind zfind].
  split_name nm; cbn [String.eqb Ascii.eqb Bool.eqb].
  all: split; intros H.
  all: try (injection H as <-; reflexivity).
  all: try discriminate.
  all: revert H; split_code c; intros H; try discriminate; try reflexivity.
  all: injection H as H; congruence.
Qed.


(* ------------------------------------------------------------------ *)
(** ** The icon registry *)

Lemma sfind_In {V : Type} (d : list (string * V)) (k : string) (v : V) :
  sfind d k = Some v -> In (k, v) d.
Proof.
  induction d as [|[k' v'] d IH]; simpl; [discriminate|].
  destruct (String.eqb_spec k' k) as [->|_].
  - intros H. injection H as ->. now left.
  - intros H. right. now apply IH.
Qed.

Lemma zfind_In {V : Type} (d : list (Z * V)) (k : Z) (v : V) :
  zfind d k = Some v -> In (k, v) d.
Proof.
  induction d as [|[k' v'] d IH]; simpl; [discriminate|].
  destruct (Z.eqb_spec k' k) as [->|_].
  - intros H. injection H as ->. now left.
  - intros H. right. now apply IH.
Qed.

Lemma known_name_roundtrip (name : string) (id : Z) :
  sfind ICON_TYPE_IDS name = Some id ->
  nameToId name = id /\ idToName id = name.
Proof.
  intros H. split; [unfold nameToId; now rewrite H|].
  apply sfind_In in H.
  assert (Hall : forallb (fun kv => String.eqb (idToName (snd kv)) (fst kv))
                         ICON_TYPE_IDS = true) by (vm_compute; reflexivity).
  rewrite forallb_forall in Hall. specialize (Hall _ H).
  now apply String.eqb_eq in Hall.
Qed.

Lemma known_id_roundtrip (id : Z) (name : string) :
  zfind ICON_TYPES id = Some name ->
  idToName id = name /\ nameToId name = id.
Proof.
  intros H. split; [unfold idToName; now rewrite H|].
  apply zfind_In in H.
  assert (Hall : forallb (fun kv => nameToId (snd kv) =? fst kv)
                         ICON_TYPES = true) by (vm_compute; reflexivity).
  rewrite forallb_forall in Hall. specialize (Hall _ H).
  now apply Z.eqb_eq in Hall.
Qed.

(** No name of the table starts with [unknown_]. *)
Lemma unknown_is_no_name (s : string) :
  sfind ICON_TYPE_IDS ("unknown_" ++ s) = None.
Proof. reflexivity. Qed.

Lemma nameToId_unknown (X : Z) : nameToId (unknown_ X) = 47.
Proof. unfold nameToId, unknown_. now rewrite unknown_is_no_name. Qed.

Lemma type_id_reported (n : Z) (st : locals) (i : nat) (X : Z) :
  Obj.type_id (build_object n st i X) = Some X
  /\ Obj.type (build_object n st i X) = Some (idToName X).
Proof. split; reflexivity. Qed.

Lemma icon_id_of_decoded (n : Z) (st : locals) (i : nat) (X : Z) :
  icon_id_of (build_object n st i X)
  = if X =? 0 then nameToId (idToName 0) else X.
Proof.
  unfold icon_id_of.
  destruct (type_id_reported n st i X) as [-> ->]. cbn [py_or get].
  destruct (Z.eqb_spec X 0) as [->|]; reflexivity.
Qed.

Lemma unknown_name_maps_to_tank :
  zfind ICON_TYPES 200 = None
  /\ idToName 200 = "unknown_200"%string
  /\ nameToId "unknown_200" = 47
  /\ nameToId "unknown_200" <> 200.
Proof.
  repeat split; try reflexivity. vm_compute. discriminate.
Qed.

(** C4 (amended).  A name of the table maps to its code and back.  A code
    [X] outside the table is reported under the synthetic name
    [unknown_X], but that name maps to 47 (the default, [tank]), not to
    [X]; the encoder recovers [X] from the [type_id] entry the decoder
    reports beside the name, which it prefers to the name whenever it is
    not 0. *)
Theorem icon_registry_roundtrip (name : string) (id X : Z) :
  sfind ICON_TYPE_IDS name = Some id ->
  zfind ICON_TYPES X = None ->
  X <> 0 ->
  idToName (nameToId name) = name
  /\ idToName X = unknown_ X
  /\ nameToId (unknown_ X) = 47
  /\ nameToId (unknown_ X) <> X
  /\ forall n st i, icon_id_of (build_object n st i X) = X.
Proof.
  intros Hname HX HX0.
  destruct (known_name_roundtrip name id Hname) as [Hid Hback].
  split; [now rewrite Hid|].
  split; [unfold idToName; now rewrite HX|].
  split; [apply nameToId_unknown|].
  split.
  - rewrite nameToId_unknown. intros <-. discriminate HX.
  - intros n st i. rewrite icon_id_of_decoded.
    destruct (Z.eqb_spec X 0); [contradiction|reflexivity].
Qed.

Lemma icon_registry_roundtrip_witness :
  idToName (nameToId "tank") = "tank"%string
  /\ idToName 200 = unknown_ 200
  /\ nameToId (unknown_ 200) = 47
  /\ nameToId (unknown_ 200) <> 200
  /\ forall n st i, icon_id_of (build_object n st i 200) = 200.
Proof.
  apply (icon_registry_roundtrip "tank" 47 200).
  - reflexivity.
  - reflexivity.
  - lia.
Defined.

(* ------------------------------------------------------------------ *)
(** ** The share code and the drawn key *)

Lemma key_char_of_injective (k1 k2 : Z) :
  0 <= k1 < 64 -> 0 <= k2 < 64 -> key_char_of k1 = key_char_of k2 -> k1 = k2.
Proof.
  intros H1 H2 Heq.
  pose proof (key_char_recovered k1 H1) as E1.
  pose proof (key_char_recovered k2 H2) as E2.
  rewrite Heq in E1. rewrite E1 in E2. now injection E2.
Qed.

(** The eighth character of a share code is the key character. *)
Lemma encode_key_char (full_data : list Z) (key : Z) :
  String.get 7 (CipherCodec.encode full_data key) = Some (key_char_of key).
Proof. reflexivity. Qed.

Lemma encode_key_injective (full_data : list Z) (k1 k2 : Z) :
  0 <= k1 < 64 -> 0 <= k2 < 64 ->
  CipherCodec.encode full_data k1 = CipherCodec.encode full_data k2 ->
  k1 = k2.
Proof.
  intros H1 H2 Heq. apply key_char_of_injective; try assumption.
  pose proof (encode_key_char full_data k1) as E1.
  rewrite Heq, encode_key_char in E1. now injection E1.
Qed.

Section ShareCode.

Variable zlib_compress : list Z -> Z -> list Z.
Variable zlib_crc32 : list Z -> Z.

(** What [encode_cipher] returns when it returns. *)
Lemma encode_cipher_code (binary_data : list Z) (key : option Z) (randint : Z)
      (code : string) :
  encode_cipher zlib_compress zlib_crc32 binary_data key randint = Ok code ->
  exists full_data,
    code = CipherCodec.encode full_data
             (match key with None => randint | Some key => key end)
    /\ skipn 6 full_data = zlib_compress binary_data 6
    /\ firstn 2 (skipn 4 full_data)
       = [len binary_data mod 256; len binary_data / 256]
    /\ 0 <= len binary_data < 65536.
Proof.
  unfold encode_cipher, Struct.pack_H, Struct.pack_I.
  destruct ((0 <=? len binary_data) && (len binary_data <? 65536)) eqn:Hlen;
    cbn [bind]; [|discriminate].
  match goal with
  | |- context [if ?c then _ else _] => destruct c; cbn [bind]; [|discriminate]
  end.
  intros H. injection H as <-. eexists. split; [reflexivity|].
  repeat split; try reflexivity; lia.
Qed.

Lemma two_draws_two_codes :
  encode_stgy store_compress zero_crc32 tank_board 0
  <> encode_stgy store_compress zero_crc32 tank_board 1.
Proof. vm_compute. discriminate. Qed.

(** C3 (amended).  The share code depends on the document and on the key
    [encode_cipher] draws with [random.randint(0, 63)]: two runs on the
    same document return the same share code exactly when they draw the
    same key. *)
Theorem share_code_fixed_by_key (data : Doc.t) (k1 k2 : Z) (c1 c2 : string) :
  0 <= k1 < 64 -> 0 <= k2 < 64 ->
  encode_stgy zlib_compress zlib_crc32 data k1 = Ok c1 ->
  encode_stgy zlib_compress zlib_crc32 data k2 = Ok c2 ->
  (c1 = c2 <-> k1 = k2).
Proof.
  intros H1 H2. unfold encode_stgy.
  destruct (build_binary data) as [binary|e]; cbn [bind]; [|discriminate].
  unfold encode_cipher, Struct.pack_H, Struct.pack_I.
  destruct ((0 <=? len binary) && (len binary <? 65536));
    cbn [bind]; [|discriminate].
  match goal with
  | |- context [if ?c then _ else _] => destruct c; cbn [bind]; [|discriminate]
  end.
  intros E1 E2. injection E1 as <-. injection E2 as <-. split.
  - now apply encode_key_injective.
  - now intros <-.
Qed.

End ShareCode.

Lemma share_code_fixed_by_key_witness :
  exists c1 c2,
    encode_stgy store_compress zero_crc32 tank_board 3 = Ok c1
    /\ encode_stgy store_compress zero_crc32 tank_board 5 = Ok c2
    /\ (c1 = c2 <-> 3 = 5).
Proof.
  eexists. eexists.
  split; [vm_compute; reflexivity|].
  split; [vm_compute; reflexivity|].
  apply (share_code_fixed_by_key store_compress zero_crc32 tank_board 3 5).
  - lia.
  - lia.
  - vm_compute. reflexivity.
  - vm_compute. reflexivity.
Defined.

(* ------------------------------------------------------------------ *)
(** ** When the cipher level fails *)

Lemma len_DAT_1420cf520 : len DAT_1420cf520 = 123.
Proof. reflexivity. Qed.

(** The decoder's loop emits characters of the URL-safe alphabet only. *)
Lemma decode_loop_values (cs : list ascii) :
  forall i key,
  exists vs, Forall is_sextet vs /\ List.length vs = List.length cs
             /\ CipherCodec.decode_loop cs i key = map base64_value_to_char vs.
Proof.
  induction cs as [|c cs IH]; intros i key.
  - exists []. repeat split. constructor.
  - destruct (IH (i + 1) key) as (vs & Hvs & Hlen & Heq).
    exists (Z.land (char_to_base64_value
                      (chr (dict_get INVERSE_DAT (ord c) 65)) - i - key) 63
            :: vs).
    split; [|split].
    + constructor; [|exact Hvs]. unfold is_sextet.
      rewrite land_63. apply Z.mod_pos_bound. lia.
    + simpl. now rewrite Hlen.
    + simpl. now rewrite Heq.
Qed.

Lemma a2b_loop_pad (s : list ascii) (quad_pos leftchar pads : Z)
      (out : list Z) :
  Base64.a2b_loop ("="%char :: s) quad_pos leftchar pads out =
  if 2 <=? quad_pos then
    if 4 <=? quad_pos + (pads + 1) then Ok out
    else Base64.a2b_loop s quad_pos leftchar (pads + 1) out
  else Base64.a2b_loop s quad_pos leftchar pads out.
Proof. reflexivity. Qed.

Lemma a2b_loop_end (quad_pos leftchar pads : Z) (out : list Z) :
  Base64.a2b_loop [] quad_pos leftchar pads out =
  if quad_pos =? 0 then Ok out else Raise binascii_Error.
Proof. reflexivity. Qed.

(** [b64decode] on alphabet characters followed by [==]: the quad position
    after the last character decides. *)
Lemma a2b_loop_padded (vs : list Z) :
  Forall is_sextet vs ->
  forall quad_pos leftchar pads out,
    0 <= quad_pos < 4 -> 0 <= pads ->
    if (quad_pos + len vs) mod 4 =? 1
    then Base64.a2b_loop (map Base64.b2a vs ++ str "==")
                         quad_pos leftchar pads out = Raise binascii_Error
    else exists b, Base64.a2b_loop (map Base64.b2a vs ++ str "==")
                                   quad_pos leftchar pads out = Ok b.
Proof.
  induction 1 as [|v vs Hv _ IH]; intros q lc pads out Hq Hpads.
  - change (len (@nil Z)) with 0. rewrite Z.add_0_r, Z.mod_small by lia.
    change (map Base64.b2a [] ++ str "==") with ["="%char; "="%char].
    rewrite !a2b_loop_pad, !a2b_loop_end.
    destruct (Z.eqb_spec q 1) as [->|Hq1]; [reflexivity|].
    destruct (Z.leb_spec 2 q).
    + destruct (4 <=? q + (pads + 1)); [now eexists|].
      destruct (Z.leb_spec 4 (q + (pads + 1 + 1))); [now eexists|lia].
    + destruct (Z.eqb_spec q 0); [now eexists|lia].
  - cbn [map app]. rewrite a2b_loop_symbol by assumption.
    replace (len (v :: vs)) with (1 + len vs) by (unfold len; cbn [List.length]; lia).
    assert (Hcases : q = 0 \/ q = 1 \/ q = 2 \/ q = 3) by lia.
    destruct Hcases as [-> | [-> | [-> | ->]]]; cbn [Z.eqb Pos.eqb].
    + specialize (IH 1 v 0 out). replace (0 + (1 + len vs)) with (1 + len vs) by lia.
      apply IH; lia.
    + specialize (IH 2 (v mod 16) 0 (out ++ [lc * 4 + v / 16])).
      replace (1 + (1 + len vs)) with (2 + len vs) by lia. apply IH; lia.
    + specialize (IH 3 (v mod 4) 0 (out ++ [lc * 16 + v / 4])).
      replace (2 + (1 + len vs)) with (3 + len vs) by lia. apply IH; lia.
    + specialize (IH 0 0 0 (out ++ [lc * 64 + v])).
      replace ((3 + (1 + len vs)) mod 4) with ((0 + len vs) mod 4).
      * apply IH; lia.
      * replace (3 + (1 + len vs)) with (len vs + 1 * 4) by lia.
        now rewrite Z.mod_add by lia.
Qed.

Lemma wrong_wrapper_accepted :
  CipherCodec.decode "not a share code" = Ok [48; 138; 167; 84; 170].
Proof. vm_compute. reflexivity. Qed.

(** C6 (amended).  The cipher level of [decode_cipher] never inspects the
    [[stgy:a] prefix or the closing bracket: it cuts the first seven and
    the last character off whatever it is given.  It fails in exactly
    three cases: nothing is left after the cut ([IndexError]), the key
    character has a code of 123 or more ([IndexError], the key table has
    123 entries), or the number of characters after the key character
    leaves a remainder of 1 modulo 4 ([binascii.Error]).  In every other
    case it returns bytes. *)
Theorem cipher_decode_failure_cases (stgy_string : string) :
  match slice_neg 7 1 (str stgy_string) with
  | [] => CipherCodec.decode stgy_string = Raise IndexError
  | key_char :: data1 =>
      if 123 <=? ord key_char
      then CipherCodec.decode stgy_string = Raise IndexError
      else if len data1 mod 4 =? 1
           then CipherCodec.decode stgy_string = Raise binascii_Error
           else exists b, CipherCodec.decode stgy_string = Ok b
  end.
Proof.
  unfold CipherCodec.decode.
  destruct (slice_neg 7 1 (str stgy_string)) as [|key_char data1];
    [reflexivity|].
  unfold Struct.index. rewrite len_DAT_1420cf520.
  pose proof (ord_range key_char) as Hord.
  destruct (Z.leb_spec 123 (ord key_char)) as [Hbig|Hsmall].
  - replace ((0 <=? ord key_char) && (ord key_char <? 123)) with false.
    + reflexivity.
    + symmetry. apply andb_false_iff. right. apply Z.ltb_ge. lia.
  - replace ((0 <=? ord key_char) && (ord key_char <? 123)) with true.
    + cbn [bind].
      destruct (decode_loop_values data1 0
                  (char_to_base64_value
                     (chr (nth (Z.to_nat (ord key_char)) DAT_1420cf520 0))))
        as (vs & Hvs & Hlen & ->).
      rewrite standard_of_urlsafe by assumption.
      pose proof (a2b_loop_padded vs Hvs 0 0 0 [] ltac:(lia) ltac:(lia)) as H.
      replace (len data1) with (0 + len vs) by (unfold len; lia).
      unfold Base64.b64decode. exact H.
    + symmetry. apply andb_true_iff. split; [apply Z.leb_le|apply Z.ltb_lt]; lia.
Qed.

(* ------------------------------------------------------------------ *)
(** ** [struct]: what is packed and what is read back *)

Lemma pack_B_spec (v : Z) :
  Struct.pack_B v = if u8 v then Ok [v] else Raise struct_error.
Proof. reflexivity. Qed.

Lemma pack_H_spec (v : Z) :
  Struct.pack_H v = if u16 v then Ok (le16 v) else Raise struct_error.
Proof. reflexivity. Qed.

Lemma pack_h_spec (v : Z) :
  Struct.pack_h v = if i16 v then Ok (le16s v) else Raise struct_error.
Proof. reflexivity. Qed.

Lemma pack_I_spec (v : Z) :
  Struct.pack_I v = if u32 v then Ok (le32 v) else Raise struct_error.
Proof. reflexivity. Qed.

Lemma u8_true (v : Z) : u8 v = true <-> 0 <= v < 256.
Proof. unfold u8. rewrite andb_true_iff, Z.leb_le, Z.ltb_lt. tauto. Qed.

Lemma u16_true (v : Z) : u16 v = true <-> 0 <= v < 65536.
Proof. unfold u16. rewrite andb_true_iff, Z.leb_le, Z.ltb_lt. tauto. Qed.

Lemma i16_true (v : Z) : i16 v = true <-> -32768 <= v < 32768.
Proof. unfold i16. rewrite andb_true_iff, Z.leb_le, Z.ltb_lt. tauto. Qed.

Lemma u32_true (v : Z) : u32 v = true <-> 0 <= v < 4294967296.
Proof. unfold u32. rewrite andb_true_iff, Z.leb_le, Z.ltb_lt. tauto. Qed.

Lemma extend_pack_H (result : list Z) (v : Z) :
  extend result (Struct.pack_H v)
  = if u16 v then Ok (result ++ le16 v) else Raise struct_error.
Proof. unfold extend. rewrite pack_H_spec. now destruct (u16 v). Qed.

Lemma extend_pack_h (result : list Z) (v : Z) :
  extend result (Struct.pack_h v)
  = if i16 v then Ok (result ++ le16s v) else Raise struct_error.
Proof. unfold extend. rewrite pack_h_spec. now destruct (i16 v). Qed.

Lemma extend_pack_B (result : list Z) (v : Z) :
  extend result (Struct.pack_B v)
  = if u8 v then Ok (result ++ [v]) else Raise struct_error.
Proof. unfold extend. rewrite pack_B_spec. now destruct (u8 v). Qed.

Lemma extend_const_H (result : list Z) (v : Z) :
  u16 v = true -> extend result (Struct.pack_H v) = Ok (result ++ le16 v).
Proof. intros H. now rewrite extend_pack_H, H. Qed.

Lemma extend_const_I (result : list Z) (v : Z) :
  u32 v = true -> extend result (Struct.pack_I v) = Ok (result ++ le32 v).
Proof. intros H. unfold extend. now rewrite pack_I_spec, H. Qed.

(** A loop whose body appends [f a] when [ok a] and raises otherwise. *)
Lemma for_each_spec {A : Type} (ok : A -> bool) (f : A -> list Z)
      (body : A -> list Z -> outcome (list Z)) :
  (forall a result,
      body a result = if ok a then Ok (result ++ f a) else Raise struct_error) ->
  forall l result,
    for_each l body result
    = if forallb ok l then Ok (result ++ flat_map f l) else Raise struct_error.
Proof.
  intros Hbody. induction l as [|a l IH]; intros result; simpl.
  - now rewrite app_nil_r.
  - rewrite Hbody. destruct (ok a); cbn [bind andb]; [|reflexivity].
    rewrite IH. destruct (forallb ok l); [|reflexivity].
    now rewrite <- app_assoc.
Qed.

Lemma forallb_const_true {A : Type} (l : list A) :
  forallb (fun _ => true) l = true.
Proof. induction l; simpl; auto. Qed.

Lemma len_nil_inv {A : Type} (l : list A) : len l = 0 -> l = [].
Proof. destruct l; [reflexivity|]. unfold len. simpl. lia. Qed.

Lemma len_one_inv {A : Type} (l : list A) : len l = 1 -> exists a, l = [a].
Proof.
  destruct l as [|a [|b l]]; unfold len; simpl; try lia.
  intros _. now exists a.
Qed.

(* ------------------------------------------------------------------ *)
(** ** [build_binary], stage by stage *)

Lemma icons_stage (objects : list Obj.t) (result : list Z) :
  for_each objects (fun obj result =>
    result <- extend result (Struct.pack_H 2) ;;
    let type_name := get (Obj.type obj) "tank"%string in
    let type_id := py_or (Obj.type_id obj) (nameToId type_name) in
    extend result (Struct.pack_H type_id)) result
  = if forallb (fun obj => u16 (icon_id_of obj)) objects
    then Ok (result ++ layout_icons objects) else Raise struct_error.
Proof.
  apply for_each_spec. intros obj r.
  rewrite extend_const_H by reflexivity. cbn [bind].
  rewrite extend_pack_H. fold (icon_id_of obj).
  destruct (u16 (icon_id_of obj)); [|reflexivity].
  now rewrite <- app_assoc.
Qed.

Lemma tag4_stage (objects : list Obj.t) (result : list Z) :
  (let n := len objects in
   if n =? 0 then Ok result
   else if n =? 1 then
     result <- extend result (Struct.pack_H 4) ;;
     result <- extend result (Struct.pack_H 1) ;;
     let obj := nth 0 objects Obj.empty in
     let flags :=
       if get (Obj.hidden obj) false then 0
       else if get (Obj.locked obj) false then 9
       else 1 in
     result <- extend result (Struct.pack_H 1) ;;
     extend result (Struct.pack_H flags)
   else
     result <- extend result (Struct.pack_H 4) ;;
     result <- extend result (Struct.pack_H 1) ;;
     result <- extend result (Struct.pack_H n) ;;
     for_each objects (fun _ result => extend result (Struct.pack_H 1))
              result)
  = if u16 (len objects) then Ok (result ++ layout_tag4 objects)
    else Raise struct_error.
Proof.
  cbv zeta. unfold layout_tag4.
  destruct (Z.eqb_spec (len objects) 0) as [E0|N0].
  - rewrite E0. now rewrite app_nil_r.
  - destruct (Z.eqb_spec (len objects) 1) as [E1|N1].
    + rewrite E1. change (u16 1) with true. cbv iota.
      rewrite !extend_const_H by reflexivity. cbn [bind].
      rewrite !extend_const_H by reflexivity. cbn [bind].
      rewrite !extend_const_H by reflexivity. cbn [bind].
      fold (flags_of (nth 0 objects Obj.empty)).
      rewrite extend_const_H
        by (unfold flags_of; now repeat destruct (get _ false)).
      now rewrite <- !app_assoc.
    + rewrite !extend_const_H by reflexivity. cbn [bind].
      rewrite !extend_const_H by reflexivity. cbn [bind].
      rewrite extend_pack_H.
      destruct (u16 (len objects)); [|reflexivity]. cbn [bind].
      rewrite (for_each_spec (fun _ => true) (fun _ => le16 1)).
      * rewrite forallb_const_true. now rewrite <- !app_assoc.
      * intros _ r. now rewrite extend_const_H.
Qed.

Ltac pack_consts :=
  repeat (rewrite extend_const_H by reflexivity; cbn [bind]).

Ltac use_bools :=
  repeat match goal with
         | H : _ = true |- _ => rewrite H
         | H : _ = false |- _ => rewrite H
         end.

Ltac split_forallb :=
  match goal with
  | |- context [bind (if forallb ?ok ?l then _ else _) _] =>
      destruct (forallb ok l) eqn:?
  | |- context [if forallb ?ok ?l then Ok _ else Raise _] =>
      destruct (forallb ok l) eqn:?
  end.

Lemma pad_if {A : Type} (c : bool) (l pad : list A) :
  (if c then l ++ pad else l) = l ++ (if c then pad else []).
Proof. destruct c; [reflexivity|now rewrite app_nil_r]. Qed.

Lemma positions_body (obj : Obj.t) (result : list Z) :
  (let x := py_int (get (Obj.x obj) 0 * 10)%Q in
   let y := py_int (get (Obj.y obj) 0 * 10)%Q in
   result <- extend result (Struct.pack_h x) ;;
   extend result (Struct.pack_h y))
  = if i16 (x_of obj) && i16 (y_of obj)
    then Ok (result ++ le16s (x_of obj) ++ le16s (y_of obj))
    else Raise struct_error.
Proof.
  cbv zeta. fold (x_of obj) (y_of obj). rewrite extend_pack_h.
  destruct (i16 (x_of obj)); cbn [bind andb]; [|reflexivity].
  rewrite extend_pack_h. destruct (i16 (y_of obj)); [|reflexivity].
  now rewrite <- app_assoc.
Qed.

Lemma colors_body (obj : Obj.t) (result : list Z) :
  (let r := get (Obj.color_r obj) 255 in
   let g := get (Obj.color_g obj) 255 in
   let b := get (Obj.color_b obj) 255 in
   let a := get (Obj.transparency obj) 0 in
   result <- extend result (Struct.pack_B r) ;;
   result <- extend result (Struct.pack_B g) ;;
   result <- extend result (Struct.pack_B b) ;;
   extend result (Struct.pack_B a))
  = if u8 (r_of obj) && u8 (g_of obj) && u8 (b_of obj) && u8 (a_of obj)
    then Ok (result ++ [r_of obj; g_of obj; b_of obj; a_of obj])
    else Raise struct_error.
Proof.
  cbv zeta. fold (r_of obj) (g_of obj) (b_of obj) (a_of obj).
  rewrite extend_pack_B.
  destruct (u8 (r_of obj)); cbn [bind andb]; [|reflexivity].
  rewrite extend_pack_B.
  destruct (u8 (g_of obj)); cbn [bind andb]; [|reflexivity].
  rewrite extend_pack_B.
  destruct (u8 (b_of obj)); cbn [bind andb]; [|reflexivity].
  rewrite extend_pack_B.
  destruct (u8 (a_of obj)); cbn [bind andb]; [|reflexivity].
  now rewrite <- !app_assoc.
Qed.

Lemma size_is_byte (obj : Obj.t) : u8 (size_of obj) = true.
Proof.
  apply u8_true. unfold size_of. change 255 with (Z.ones 8).
  rewrite Z.land_ones by lia. apply Z.mod_pos_bound. lia.
Qed.

Lemma properties_stage (objects : list Obj.t) (result : list Z) :
  (let n := len objects in
   if n >? 0 then
     result <- extend result (Struct.pack_H 5) ;;
     result <- extend result (Struct.pack_H 3) ;;
     result <- extend result (Struct.pack_H n) ;;
     result <- for_each objects (fun obj result =>
       let x := py_int (get (Obj.x obj) 0 * 10)%Q in
       let y := py_int (get (Obj.y obj) 0 * 10)%Q in
       result <- extend result (Struct.pack_h x) ;;
       extend result (Struct.pack_h y)) result ;;
     result <- extend result (Struct.pack_H 6) ;;
     result <- extend result (Struct.pack_H 1) ;;
     result <- extend result (Struct.pack_H n) ;;
     result <- for_each objects (fun obj result =>
       let bg := get (Obj.background obj) (JInt 0) in
       let bg := match bg with
                 | JStr s => get (sfind bg_map_object s) 0
                 | JInt z => z
                 end in
       extend result (Struct.pack_H bg)) result ;;
     result <- extend result (Struct.pack_H 7) ;;
     result <- extend result (Struct.pack_H 0) ;;
     result <- extend result (Struct.pack_H n) ;;
     result <- for_each objects (fun obj result =>
       let size := Z.land (get (Obj.size obj) 100) 255 in
       extend result (Struct.pack_B size)) result ;;
     let result := if n mod 2 =? 1 then result ++ [0] else result in
     result <- extend result (Struct.pack_H 8) ;;
     result <- extend result (Struct.pack_H 2) ;;
     result <- extend result (Struct.pack_H n) ;;
     result <- for_each objects (fun obj result =>
       let r := get (Obj.color_r obj) 255 in
       let g := get (Obj.color_g obj) 255 in
       let b := get (Obj.color_b obj) 255 in
       let a := get (Obj.transparency obj) 0 in
       result <- extend result (Struct.pack_B r) ;;
       result <- extend result (Struct.pack_B g) ;;
       result <- extend result (Struct.pack_B b) ;;
       extend result (Struct.pack_B a)) result ;;
     result <- extend result (Struct.pack_H 10) ;;
     result <- extend result (Struct.pack_H 1) ;;
     result <- extend result (Struct.pack_H n) ;;
     result <- for_each objects (fun obj result =>
       let arc := get (Obj.arc_angle obj) 0 in
       extend result (Struct.pack_H arc)) result ;;
     result <- extend result (Struct.pack_H 11) ;;
     result <- extend result (Struct.pack_H 1) ;;
     result <- extend result (Struct.pack_H n) ;;
     result <- for_each objects (fun obj result =>
       let radius :=
         get (Obj.donut_radius obj)
             (get (Obj.knockback_horizontal obj) 0) in
       extend result (Struct.pack_H radius)) result ;;
     result <- extend result (Struct.pack_H 12) ;;
     result <- extend result (Struct.pack_H 1) ;;
     result <- extend result (Struct.pack_H n) ;;
     for_each objects (fun _ result => extend result (Struct.pack_H 0))
              result
   else Ok result)
  = if u16 (len objects) && properties_fit objects
    then Ok (result ++ layout_properties objects) else Raise struct_error.
Proof.
  cbv zeta. unfold layout_properties.
  destruct (Z.gtb_spec (len objects) 0) as [Hpos|Hzero].
  2:{ rewrite (len_nil_inv objects) by (pose proof (len_nonneg objects); lia).
      now rewrite app_nil_r. }
  pack_consts. rewrite extend_pack_H.
  destruct (u16 (len objects)) eqn:Hn; cbn [bind andb]; [|reflexivity].
  unfold properties_fit.
  (* tag 5 *)
  rewrite (for_each_spec (fun obj => i16 (x_of obj) && i16 (y_of obj))
             (fun obj => le16s (x_of obj) ++ le16s (y_of obj)))
    by (intros; apply positions_body).
  split_forallb; cbn [bind andb]; [|reflexivity].
  (* tag 6 *)
  pack_consts. rewrite extend_pack_H, Hn. cbn [bind].
  rewrite (for_each_spec (fun obj => u16 (bg_of obj))
             (fun obj => le16 (bg_of obj)))
    by (intros; cbv zeta; apply extend_pack_H).
  split_forallb; cbn [bind andb]; [|reflexivity].
  (* tag 7 *)
  pack_consts. rewrite extend_pack_H, Hn. cbn [bind].
  rewrite (for_each_spec (fun _ => true) (fun obj => [size_of obj]))
    by (intros obj r; cbv zeta; fold (size_of obj);
        now rewrite extend_pack_B, size_is_byte).
  rewrite forallb_const_true. cbn [bind].
  rewrite pad_if.
  (* tag 8 *)
  pack_consts. rewrite extend_pack_H, Hn. cbn [bind].
  rewrite (for_each_spec
             (fun obj => u8 (r_of obj) && u8 (g_of obj) && u8 (b_of obj)
                         && u8 (a_of obj))
             (fun obj => [r_of obj; g_of obj; b_of obj; a_of obj]))
    by (intros; apply colors_body).
  split_forallb; cbn [bind andb]; [|reflexivity].
  (* tag 10 *)
  pack_consts. rewrite extend_pack_H, Hn. cbn [bind].
  rewrite (for_each_spec (fun obj => u16 (arc_of obj))
             (fun obj => le16 (arc_of obj)))
    by (intros; cbv zeta; apply extend_pack_H).
  split_forallb; cbn [bind andb]; [|reflexivity].
  (* tag 11 *)
  pack_consts. rewrite extend_pack_H, Hn. cbn [bind].
  rewrite (for_each_spec (fun obj => u16 (radius_of obj))
             (fun obj => le16 (radius_of obj)))
    by (intros; cbv zeta; apply extend_pack_H).
  split_forallb; cbn [bind andb]; [|reflexivity].
  (* tag 12 *)
  pack_consts. rewrite extend_pack_H, Hn. cbn [bind].
  rewrite (for_each_spec (fun _ => true) (fun _ => le16 0))
    by (intros _ r; now rewrite extend_const_H).
  rewrite forallb_const_true.
  unfold layout_positions, layout_backgrounds, layout_sizes, layout_colors,
    layout_arc_angles, layout_donut_radii, layout_reserved.
  now rewrite <- !app_assoc.
Qed.

Lemma pack_into_I_spec (data : list Z) (pos v : Z) :
  Struct.pack_into_I data pos v
  = if u32 v && ((0 <=? pos) && (pos + 4 <=? len data))
    then Ok (Struct.overwrite data pos (le32 v)) else Raise struct_error.
Proof.
  unfold Struct.pack_into_I. rewrite pack_I_spec.
  destruct (u32 v); cbn [bind andb]; reflexivity.
Qed.

Lemma len_overwrite (data : list Z) (pos : Z) (bs : list Z) :
  0 <= pos -> pos + len bs <= len data ->
  len (Struct.overwrite data pos bs) = len data.
Proof.
  intros Hpos Hfit. unfold Struct.overwrite, len in *.
  rewrite !length_app, length_firstn, length_skipn. lia.
Qed.

Lemma len_flat_map {A : Type} (f : A -> list Z) (k : Z) (l : list A) :
  (forall a, len (f a) = k) -> len (flat_map f l) = k * len l.
Proof.
  intros Hf. induction l as [|a l IH]; simpl.
  - unfold len. simpl. lia.
  - rewrite len_app, IH, Hf. unfold len. cbn [List.length]. lia.
Qed.

Lemma len_le16 (v : Z) : len (le16 v) = 2.
Proof. reflexivity. Qed.

Lemma len_le32 (v : Z) : len (le32 v) = 4.
Proof. reflexivity. Qed.

Lemma len_name_bytes (data : Doc.t) : len (name_bytes data) = 8.
Proof.
  unfold name_bytes, ljust, len.
  rewrite length_app, repeat_length, length_firstn. lia.
Qed.

Lemma len_layout_header (data : Doc.t) : len (layout_header data) = 36.
Proof.
  unfold layout_header. rewrite !len_app, len_name_bytes. reflexivity.
Qed.

Lemma len_layout_icons (objects : list Obj.t) :
  len (layout_icons objects) = 4 * len objects.
Proof. apply len_flat_map. reflexivity. Qed.

Lemma len_layout_tag4 (objects : list Obj.t) :
  len (layout_tag4 objects)
  = if len objects =? 0 then 0
    else if len objects =? 1 then 8 else 6 + 2 * len objects.
Proof.
  unfold layout_tag4.
  destruct (len objects =? 0); [reflexivity|].
  destruct (len objects =? 1); [reflexivity|].
  rewrite !len_app, (len_flat_map _ 2) by reflexivity.
  rewrite !len_le16. lia.
Qed.

Lemma len_layout_properties (objects : list Obj.t) :
  len (layout_properties objects)
  = if len objects =? 0 then 0
    else 42 + 17 * len objects + len objects mod 2.
Proof.
  unfold layout_properties. pose proof (len_nonneg objects) as Hn.
  destruct (Z.gtb_spec (len objects) 0) as [Hpos|Hzero];
    destruct (Z.eqb_spec (len objects) 0); try lia; [|reflexivity].
  unfold layout_positions, layout_backgrounds, layout_sizes, layout_colors,
    layout_arc_angles, layout_donut_radii, layout_reserved.
  rewrite !len_app.
  repeat match goal with
         | |- context [len (flat_map ?f objects)] =>
             first [ rewrite (len_flat_map f 4 objects) by reflexivity
                   | rewrite (len_flat_map f 2 objects) by reflexivity
                   | rewrite (len_flat_map f 1 objects) by reflexivity ]
         end.
  rewrite !len_le16.
  assert (Hpad : len (if len objects mod 2 =? 1 then [0] else [])
                 = len objects mod 2).
  { destruct (Z.eqb_spec (len objects mod 2) 1) as [->|Hne]; [reflexivity|].
    change (len (@nil Z)) with 0.
    pose proof (Z.mod_pos_bound (len objects) 2). lia. }
  rewrite Hpad. lia.
Qed.

(** The length of the binary: 44 bytes for an empty board, and
    [92 + 23 n] bytes, plus one pad byte when [n] is odd, for [n] objects. *)
Lemma len_layout (data : Doc.t) :
  len (layout data)
  = let n := len (get (Doc.objects data) []) in
    if n =? 0 then 44 else 92 + 23 * n + n mod 2.
Proof.
  unfold layout. cbv zeta.
  rewrite !len_app, len_layout_header, len_layout_icons, len_layout_tag4,
    len_layout_properties.
  change (len (layout_footer data)) with 8.
  set (n := len (get (Doc.objects data) [])).
  destruct (Z.eqb_spec n 0) as [->|]; [reflexivity|].
  destruct (Z.eqb_spec n 1) as [->|]; [reflexivity|]. lia.
Qed.

Lemma len_layout_bounds (data : Doc.t) :
  u16 (len (get (Doc.objects data) [])) = true ->
  44 <= len (layout data) < 4294967296.
Proof.
  intros Hn. apply u16_true in Hn. rewrite len_layout. cbv zeta.
  set (n := len (get (Doc.objects data) [])) in *.
  pose proof (Z.mod_pos_bound n 2).
  destruct (Z.eqb_spec n 0); lia.
Qed.

(** [build_binary] raises [struct.error] when a value does not fit its
    format, and otherwise returns the layout with its two header fields
    updated. *)
Lemma build_binary_spec (data : Doc.t) :
  build_binary data
  = if fits data then Ok (patch (layout data)) else Raise struct_error.
Proof.
  unfold build_binary, fits. cbv zeta.
  repeat (first [ rewrite extend_const_I by reflexivity
                | rewrite extend_const_H by reflexivity ]; cbn [bind]).
  rewrite icons_stage.
  split_forallb; cbn [bind andb]; [|reflexivity].
  match goal with
  | |- context [extend ?r (Struct.pack_H 4)] =>
      pose proof (tag4_stage (get (Doc.objects data) []) r) as H4;
      cbv zeta in H4; rewrite H4; clear H4
  end.
  destruct (u16 (len (get (Doc.objects data) []))) eqn:Hn;
    cbn [bind andb]; [|reflexivity].
  match goal with
  | |- context [extend ?r (Struct.pack_H 5)] =>
      pose proof (properties_stage (get (Doc.objects data) []) r) as H5;
      cbv zeta in H5; rewrite H5; clear H5
  end.
  rewrite Hn. cbn [andb].
  destruct (properties_fit (get (Doc.objects data) [])) eqn:Hp;
    cbn [bind andb]; [|reflexivity].
  fold (board_bg_of data).
  pack_consts. rewrite extend_pack_H.
  destruct (u16 (board_bg_of data)) eqn:Hbg; cbn [bind]; [|reflexivity].
  match goal with
  | |- context [Struct.pack_into_I ?r 18 _] =>
      assert (Hr : r = layout data)
  end.
  { unfold layout, layout_header, layout_footer, name_bytes. cbv zeta.
    rewrite <- !app_assoc. reflexivity. }
  rewrite Hr. clear Hr.
  pose proof (len_layout_bounds data Hn) as HL.
  rewrite pack_into_I_spec.
  replace (u32 (len (layout data) - 28)) with true
    by (symmetry; apply u32_true; lia).
  replace ((0 <=? 18) && (18 + 4 <=? len (layout data))) with true
    by (symmetry; apply andb_true_iff; split; [reflexivity|apply Z.leb_le; lia]).
  cbn [andb bind].
  rewrite pack_into_I_spec.
  rewrite len_overwrite by (rewrite ?len_le32; lia).
  replace (u32 (len (layout data) - 16)) with true
    by (symmetry; apply u32_true; lia).
  replace ((0 <=? 4) && (4 + 4 <=? len (layout data))) with true
    by (symmetry; apply andb_true_iff; split; [reflexivity|apply Z.leb_le; lia]).
  cbn [andb bind]. unfold patch. cbv zeta.
  rewrite len_overwrite by (rewrite ?len_le32; lia).
  reflexivity.
Qed.

(* ------------------------------------------------------------------ *)
(** ** Reading a buffer at the end of a known prefix *)

Lemma byte_at_app (pre l : list Z) (pos i : Z) :
  len pre = pos -> 0 <= i ->
  Struct.byte_at (pre ++ l) (pos + i) = Struct.byte_at l i.
Proof.
  intros <- Hi. unfold Struct.byte_at, len.
  rewrite app_nth2 by lia. f_equal. lia.
Qed.

Lemma byte_at_app0 (pre l : list Z) (pos : Z) :
  len pre = pos -> Struct.byte_at (pre ++ l) pos = Struct.byte_at l 0.
Proof.
  intros H. rewrite <- (Z.add_0_r pos). now apply byte_at_app.
Qed.

Lemma le16_value (v : Z) : v mod 256 + 256 * (v / 256) = v.
Proof. pose proof (Z.div_mod v 256). lia. Qed.

Lemma le32_value (v : Z) :
  v mod 256 + 256 * ((v / 256) mod 256) + 65536 * ((v / 65536) mod 256)
  + 16777216 * (v / 16777216) = v.
Proof.
  replace (v / 65536) with (v / 256 / 256)
    by (rewrite Z.div_div by lia; reflexivity).
  replace (v / 16777216) with (v / 256 / 256 / 256)
    by (rewrite !Z.div_div by lia; reflexivity).
  pose proof (Z.div_mod v 256).
  pose proof (Z.div_mod (v / 256) 256).
  pose proof (Z.div_mod (v / 256 / 256) 256).
  lia.
Qed.

Lemma le16s_value (v : Z) :
  v mod 256 + 256 * (v mod 65536 / 256) = v mod 65536.
Proof.
  rewrite <- (le16_value (v mod 65536)) at 2. f_equal.
  Z.div_mod_to_equations. lia.
Qed.

Lemma unpack_H_at (pre post : list Z) (pos v : Z) :
  len pre = pos -> u16 v = true ->
  Struct.unpack_from_H (pre ++ le16 v ++ post) pos = Ok v.
Proof.
  intros Hpos Hv. unfold Struct.unpack_from_H.
  pose proof (len_nonneg pre). pose proof (len_nonneg post).
  replace ((0 <=? pos) && (pos + 2 <=? len (pre ++ le16 v ++ post))) with true.
  - rewrite byte_at_app0, (byte_at_app pre _ pos 1) by (assumption || lia).
    cbn [le16 app Struct.byte_at Z.to_nat Pos.to_nat Pos.iter_op nth Nat.add].
    now rewrite le16_value.
  - symmetry. rewrite !len_app, len_le16.
    apply andb_true_iff. split; [apply Z.leb_le|apply Z.leb_le]; lia.
Qed.

Lemma unpack_h_at (pre post : list Z) (pos v : Z) :
  len pre = pos -> i16 v = true ->
  Struct.unpack_from_h (pre ++ le16s v ++ post) pos = Ok v.
Proof.
  intros Hpos Hv. unfold Struct.unpack_from_h, Struct.unpack_from_H.
  pose proof (len_nonneg pre). pose proof (len_nonneg post).
  replace ((0 <=? pos) && (pos + 2 <=? len (pre ++ le16s v ++ post))) with true.
  - rewrite byte_at_app0, (byte_at_app pre _ pos 1) by (assumption || lia).
    cbn [le16s app Struct.byte_at Z.to_nat Pos.to_nat Pos.iter_op nth Nat.add
         bind].
    apply i16_true in Hv. f_equal. rewrite le16s_value.
    destruct (Z.ltb_spec (v mod 65536) 32768);
      Z.div_mod_to_equations; lia.
  - symmetry. rewrite !len_app. change (len (le16s v)) with 2.
    apply andb_true_iff. split; [apply Z.leb_le|apply Z.leb_le]; lia.
Qed.

Lemma unpack_I_at (pre post : list Z) (pos v : Z) :
  len pre = pos ->
  Struct.unpack_from_I (pre ++ le32 v ++ post) pos = Ok v.
Proof.
  intros Hpos. unfold Struct.unpack_from_I.
  pose proof (len_nonneg pre). pose proof (len_nonneg post).
  replace ((0 <=? pos) && (pos + 4 <=? len (pre ++ le32 v ++ post))) with true.
  - rewrite byte_at_app0, (byte_at_app pre _ pos 1),
      (byte_at_app pre _ pos 2), (byte_at_app pre _ pos 3)
      by (assumption || lia).
    cbn [le32 app Struct.byte_at Z.to_nat Pos.to_nat Pos.iter_op nth Nat.add].
    now rewrite le32_value.
  - symmetry. rewrite !len_app, len_le32.
    apply andb_true_iff. split; [apply Z.leb_le|apply Z.leb_le]; lia.
Qed.

Lemma index_at (pre post : list Z) (pos x : Z) :
  len pre = pos -> Struct.index (pre ++ x :: post) pos = Ok x.
Proof.
  intros Hpos. unfold Struct.index.
  pose proof (len_nonneg pre). pose proof (len_nonneg post).
  replace ((0 <=? pos) && (pos <? len (pre ++ x :: post))) with true.
  - f_equal. change (nth (Z.to_nat pos) (pre ++ x :: post) 0)
      with (Struct.byte_at (pre ++ x :: post) pos).
    now rewrite byte_at_app0.
  - symmetry. rewrite len_app.
    replace (len (x :: post)) with (1 + len post)
      by (unfold len; cbn [List.length]; lia).
    apply andb_true_iff. split; [apply Z.leb_le|apply Z.ltb_lt]; lia.
Qed.

Lemma overwrite_app (pre old new post : list Z) (pos : Z) :
  len pre = pos -> List.length old = List.length new ->
  Struct.overwrite (pre ++ old ++ post) pos new = pre ++ new ++ post.
Proof.
  intros <- Hlen. unfold Struct.overwrite, len.
  rewrite Nat2Z.id, firstn_app, Nat.sub_diag, firstn_all. cbn [firstn].
  rewrite app_nil_r. f_equal. f_equal.
  rewrite skipn_app, (@skipn_all2 _ _ pre) by lia. cbn [app].
  replace (List.length pre + List.length new - List.length pre)%nat
    with (List.length old) by lia.
  rewrite skipn_app, skipn_all, Nat.sub_diag. reflexivity.
Qed.

(** The two updated fields, in place. *)
Lemma patch_fields (h0 f04 mid f12 rest : list Z) :
  List.length h0 = 4%nat -> List.length f04 = 4%nat ->
  List.length mid = 10%nat -> List.length f12 = 4%nat ->
  patch (h0 ++ f04 ++ mid ++ f12 ++ rest)
  = h0 ++ le32 (len (h0 ++ f04 ++ mid ++ f12 ++ rest) - 16) ++ mid
    ++ le32 (len (h0 ++ f04 ++ mid ++ f12 ++ rest) - 28) ++ rest.
Proof.
  intros H0 H04 Hmid H12. unfold patch. cbv zeta.
  set (L := len (h0 ++ f04 ++ mid ++ f12 ++ rest)).
  replace (h0 ++ f04 ++ mid ++ f12 ++ rest)
    with ((h0 ++ f04 ++ mid) ++ f12 ++ rest) by (now rewrite <- !app_assoc).
  rewrite (overwrite_app _ f12 (le32 (L - 28)))
    by (unfold len; rewrite ?length_app; cbn [List.length le32]; lia).
  replace (len ((h0 ++ f04 ++ mid) ++ le32 (L - 28) ++ rest)) with L
    by (unfold L, len; rewrite !length_app; cbn [List.length le32]; lia).
  rewrite <- !app_assoc.
  rewrite (overwrite_app h0 f04 (le32 (L - 16)))
    by (unfold len; cbn [List.length le32]; lia).
  reflexivity.
Qed.

Lemma patched_layout (data : Doc.t) :
  patch (layout data)
  = [2; 0; 0; 0] ++ le32 (len (layout data) - 16) ++ repeat 0 10
    ++ le32 (len (layout data) - 28) ++ [0; 0] ++ [1; 0] ++ [8; 0]
    ++ name_bytes data
    ++ layout_icons (get (Doc.objects data) [])
    ++ layout_tag4 (get (Doc.objects data) [])
    ++ layout_properties (get (Doc.objects data) [])
    ++ layout_footer data.
Proof.
  assert (E : layout data
              = [2; 0; 0; 0] ++ [0; 0; 0; 0] ++ repeat 0 10 ++ [0; 0; 0; 0]
                ++ ([0; 0] ++ [1; 0] ++ [8; 0] ++ name_bytes data
                    ++ layout_icons (get (Doc.objects data) [])
                    ++ layout_tag4 (get (Doc.objects data) [])
                    ++ layout_properties (get (Doc.objects data) [])
                    ++ layout_footer data)).
  { unfold layout, layout_header. cbv zeta. now rewrite <- !app_assoc. }
  rewrite E at 1. rewrite patch_fields by reflexivity. rewrite <- E.
  reflexivity.
Qed.

Lemma len_patch_layout (data : Doc.t) :
  len (patch (layout data)) = len (layout data).
Proof.
  rewrite patched_layout. unfold layout, layout_header. cbv zeta.
  rewrite !len_app, !len_le32.
  change (len [0; 0; 0; 0]) with 4. lia.
Qed.

(** What a successful [build_binary] returned. *)
Lemma build_binary_ok (data : Doc.t) (buf : list Z) :
  build_binary data = Ok buf -> fits data = true /\ buf = patch (layout data).
Proof.
  rewrite build_binary_spec. destruct (fits data); [|discriminate].
  intros H. injection H as <-. now split.
Qed.

Lemma tank_board_binary :
  exists buf, build_binary tank_board = Ok buf /\ len buf = 116.
Proof. eexists. split; [vm_compute; reflexivity|reflexivity]. Qed.

(** C8.  In the buffer [build_binary] returns, of total length [L], the
    32-bit field at offset 0x12 holds [L - 0x1C] and the 32-bit field at
    offset 0x04 holds [L - 16]. *)
Theorem build_binary_backpatch (data : Doc.t) (buf : list Z) :
  build_binary data = Ok buf ->
  Struct.unpack_from_I buf 18 = Ok (len buf - 28)
  /\ Struct.unpack_from_I buf 4 = Ok (len buf - 16).
Proof.
  intros H. apply build_binary_ok in H. destruct H as [_ ->].
  rewrite len_patch_layout, patched_layout.
  set (L := len (layout data)). split.
  - match goal with
    | |- context [?a ++ ?b ++ ?c ++ le32 (L - 28) ++ ?rest] =>
        replace (a ++ b ++ c ++ le32 (L - 28) ++ rest)
          with ((a ++ b ++ c) ++ le32 (L - 28) ++ rest)
          by (now rewrite <- !app_assoc)
    end.
    apply unpack_I_at. reflexivity.
  - apply (unpack_I_at [2; 0; 0; 0]). reflexivity.
Qed.

Lemma build_binary_backpatch_witness :
  exists buf,
    build_binary tank_board = Ok buf
    /\ Struct.unpack_from_I buf 18 = Ok (len buf - 28)
    /\ Struct.unpack_from_I buf 4 = Ok (len buf - 16).
Proof.
  eexists. split; [vm_compute; reflexivity|].
  apply (build_binary_backpatch tank_board). vm_compute. reflexivity.
Defined.

(* ------------------------------------------------------------------ *)
(** ** [parse_binary]: guarded reads never fail *)

Lemma byte_at_range (data : list Z) (i : Z) :
  bytes_ok data -> 0 <= Struct.byte_at data i < 256.
Proof.
  intros Hb. unfold Struct.byte_at.
  destruct (nth_in_or_default (Z.to_nat i) data 0) as [Hin | ->]; [|lia].
  unfold bytes_ok in Hb. rewrite Forall_forall in Hb. now apply Hb.
Qed.

Lemma unpack_H_guarded (data : list Z) (pos : Z) :
  0 <= pos -> pos + 2 <= len data ->
  Struct.unpack_from_H data pos
  = Ok (Struct.byte_at data pos + 256 * Struct.byte_at data (pos + 1)).
Proof.
  intros H0 H2. unfold Struct.unpack_from_H.
  replace ((0 <=? pos) && (pos + 2 <=? len data)) with true; [reflexivity|].
  symmetry. apply andb_true_iff. split; apply Z.leb_le; lia.
Qed.

Lemma unpack_H_range (data : list Z) (pos v : Z) :
  bytes_ok data -> Struct.unpack_from_H data pos = Ok v -> 0 <= v < 65536.
Proof.
  intros Hb. unfold Struct.unpack_from_H.
  destruct ((0 <=? pos) && (pos + 2 <=? len data)); [|discriminate].
  intros H.
  assert (v = Struct.byte_at data pos + 256 * Struct.byte_at data (pos + 1))
    as -> by congruence.
  pose proof (byte_at_range data pos Hb).
  pose proof (byte_at_range data (pos + 1) Hb). lia.
Qed.

Lemma unpack_h_guarded (data : list Z) (pos : Z) :
  0 <= pos -> pos + 2 <= len data ->
  exists v, Struct.unpack_from_h data pos = Ok v.
Proof.
  intros H0 H2. unfold Struct.unpack_from_h.
  rewrite unpack_H_guarded by assumption. cbn [bind]. now eexists.
Qed.

Lemma index_guarded (data : list Z) (pos : Z) :
  0 <= pos -> pos < len data ->
  Struct.index data pos = Ok (Struct.byte_at data pos).
Proof.
  intros H0 H1. unfold Struct.index.
  replace ((0 <=? pos) && (pos <? len data)) with true; [reflexivity|].
  symmetry. apply andb_true_iff. split; [apply Z.leb_le|apply Z.ltb_lt]; lia.
Qed.

(** The inner loops return, and never move backwards. *)
Lemma read_positions_total (count : nat) (data : list Z) :
  forall pos acc, 0 <= pos ->
  exists pos' acc',
    read_positions count data pos acc = Ok (pos', acc') /\ pos <= pos'.
Proof.
  induction count as [|count IH]; intros pos acc Hpos; simpl.
  - exists pos, acc. split; [reflexivity|lia].
  - destruct (Z.gtb_spec (pos + 4) (len data)) as [Hend|Hin].
    + exists pos, acc. split; [reflexivity|lia].
    + destruct (unpack_h_guarded data pos) as [x ->]; try lia.
      destruct (unpack_h_guarded data (pos + 2)) as [y ->]; try lia.
      cbn [bind].
      destruct (IH (pos + 4) (acc ++ [(div10 x, div10 y)])) as (p & a & -> & Hp);
        [lia|].
      exists p, a. split; [reflexivity|lia].
Qed.

Lemma read_H_values_total (count : nat) (data : list Z) :
  forall pos acc, 0 <= pos ->
  exists pos' acc',
    read_H_values count data pos acc = Ok (pos', acc') /\ pos <= pos'.
Proof.
  induction count as [|count IH]; intros pos acc Hpos; simpl.
  - exists pos, acc. split; [reflexivity|lia].
  - destruct (Z.gtb_spec (pos + 2) (len data)) as [Hend|Hin].
    + exists pos, acc. split; [reflexivity|lia].
    + rewrite unpack_H_guarded by lia. cbn [bind].
      match goal with
      | |- context [read_H_values count data (pos + 2) ?a] =>
          destruct (IH (pos + 2) a) as (p & a' & -> & Hp); [lia|]
      end.
      exists p, a'. split; [reflexivity|lia].
Qed.

Lemma read_sizes_total (count : nat) (data : list Z) :
  forall pos acc, 0 <= pos ->
  exists pos' acc',
    read_sizes count data pos acc = Ok (pos', acc') /\ pos <= pos'.
Proof.
  induction count as [|count IH]; intros pos acc Hpos; simpl.
  - exists pos, acc. split; [reflexivity|lia].
  - destruct (Z.geb_spec pos (len data)) as [Hend|Hin].
    + exists pos, acc. split; [reflexivity|lia].
    + rewrite index_guarded by lia. cbn [bind].
      match goal with
      | |- context [read_sizes count data (pos + 1) ?a] =>
          destruct (IH (pos + 1) a) as (p & a' & -> & Hp); [lia|]
      end.
      exists p, a'. split; [reflexivity|lia].
Qed.

Lemma read_colors_total (count : nat) (data : list Z) :
  forall pos acc, 0 <= pos ->
  exists pos' acc',
    read_colors count data pos acc = Ok (pos', acc') /\ pos <= pos'.
Proof.
  induction count as [|count IH]; intros pos acc Hpos; simpl.
  - exists pos, acc. split; [reflexivity|lia].
  - destruct (Z.gtb_spec (pos + 4) (len data)) as [Hend|Hin].
    + exists pos, acc. split; [reflexivity|lia].
    + rewrite !index_guarded by lia. cbn [bind].
      match goal with
      | |- context [read_colors count data (pos + 4) ?a] =>
          destruct (IH (pos + 4) a) as (p & a' & -> & Hp); [lia|]
      end.
      exists p, a'. split; [reflexivity|lia].
Qed.

(** The icon loop returns when its fuel covers the buffer. *)
Lemma parse_icons_total (fuel : nat) (data : list Z) :
  forall pos icons,
    0 <= pos -> Z.max 0 (len data - pos) < Z.of_nat fuel ->
    exists pos' icons',
      parse_icons fuel data pos icons = Ok (pos', icons') /\ pos <= pos'.
Proof.
  induction fuel as [|fuel IH]; intros pos icons Hpos Hfuel; [lia|].
  cbn [parse_icons].
  destruct (Z.ltb_spec pos (len data - 4)) as [Hin|Hend].
  - rewrite unpack_H_guarded by lia. cbn [bind].
    destruct (negb _).
    + exists pos, icons. split; [reflexivity|lia].
    + rewrite unpack_H_guarded by lia. cbn [bind].
      match goal with
      | |- context [parse_icons fuel data (pos + 4) ?a] =>
          destruct (IH (pos + 4) a) as (p & a' & -> & Hp); [lia|lia|]
      end.
      exists p, a'. split; [reflexivity|lia].
  - exists pos, icons. split; [reflexivity|lia].
Qed.

Lemma unpack_H_past_end (data : list Z) (pos : Z) :
  len data < pos + 2 -> Struct.unpack_from_H data pos = Raise struct_error.
Proof.
  intros H. unfold Struct.unpack_from_H.
  replace ((0 <=? pos) && (pos + 2 <=? len data)) with false; [reflexivity|].
  symmetry. apply andb_false_iff. right. apply Z.leb_gt. lia.
Qed.

(** The tag loop returns a state or raises [struct.error]; it raises only
    at a tag-4 word with fewer than 8 bytes from it to the end. *)
Lemma parse_tags_outcome (fuel : nat) (data : list Z) :
  bytes_ok data ->
  forall st,
    0 <= pos st -> Z.max 0 (len data - pos st) < Z.of_nat fuel ->
    match parse_tags fuel data st with
    | Ok _ => True
    | Raise e =>
        e = struct_error
        /\ exists p, len data < p + 8 /\ Struct.unpack_from_H data p = Ok 4
    end.
Proof.
  intros Hb. induction fuel as [|fuel IH]; intros st Hpos Hfuel; [lia|].
  cbn [parse_tags].
  destruct (Z.ltb_spec (pos st) (len data - 2)) as [Hin|Hend]; [|exact I].
  pose proof (unpack_H_guarded data (pos st) Hpos ltac:(lia)) as Htag.
  rewrite Htag. cbn [bind].
  set (tag := Struct.byte_at data (pos st)
              + 256 * Struct.byte_at data (pos st + 1)) in *.
  destruct (Z.eqb_spec tag 4) as [E4|_].
  { rewrite E4 in Htag.
    destruct (Z.le_gt_cases (pos st + 6) (len data)) as [H6|H6].
    - rewrite (unpack_H_guarded data (pos st + 4)) by lia. cbn [bind].
      destruct (_ >? 1).
      + apply IH; cbn [pos set_pos]; lia.
      + destruct (Z.le_gt_cases (pos st + 8) (len data)) as [H8|H8].
        * rewrite (unpack_H_guarded data (pos st + 6)) by lia. cbn [bind].
          apply IH; cbn [pos]; lia.
        * rewrite (unpack_H_past_end data (pos st + 6)) by lia. cbn [bind].
          split; [reflexivity|]. exists (pos st). split; [lia|exact Htag].
    - rewrite (unpack_H_past_end data (pos st + 4)) by lia. cbn [bind].
      split; [reflexivity|]. exists (pos st). split; [lia|exact Htag]. }
  destruct (tag =? 5).
  { destruct (Z.gtb_spec (pos st + 6) (len data)); [exact I|].
    rewrite (unpack_H_guarded data (pos st + 4)) by lia. cbn [bind].
    match goal with
    | |- context [read_positions ?c data ?p ?a] =>
        destruct (read_positions_total c data p a) as (p' & a' & -> & Hp');
          [lia|]
    end.
    cbn [bind fst snd]. apply IH; cbn [pos]; lia. }
  destruct (tag =? 6).
  { destruct (Z.gtb_spec (pos st + 6) (len data)); [exact I|].
    rewrite (unpack_H_guarded data (pos st + 4)) by lia. cbn [bind].
    match goal with
    | |- context [read_H_values ?c data ?p ?a] =>
        destruct (read_H_values_total c data p a) as (p' & a' & -> & Hp');
          [lia|]
    end.
    cbn [bind fst snd]. apply IH; cbn [pos]; lia. }
  destruct (tag =? 7).
  { destruct (Z.gtb_spec (pos st + 6) (len data)); [exact I|].
    rewrite (unpack_H_guarded data (pos st + 4)) by lia. cbn [bind].
    match goal with
    | |- context [read_sizes ?c data ?p ?a] =>
        destruct (read_sizes_total c data p a) as (p' & a' & -> & Hp');
          [lia|]
    end.
    cbn [bind fst snd].
    destruct (_ mod 2 =? 1); apply IH; cbn [pos]; lia. }
  destruct (tag =? 8).
  { destruct (Z.gtb_spec (pos st + 6) (len data)); [exact I|].
    rewrite (unpack_H_guarded data (pos st + 4)) by lia. cbn [bind].
    match goal with
    | |- context [read_colors ?c data ?p ?a] =>
        destruct (read_colors_total c data p a) as (p' & a' & -> & Hp');
          [lia|]
    end.
    cbn [bind fst snd]. apply IH; cbn [pos]; lia. }
  destruct (tag =? 10).
  { destruct (Z.gtb_spec (pos st + 6) (len data)); [exact I|].
    rewrite (unpack_H_guarded data (pos st + 4)) by lia. cbn [bind].
    match goal with
    | |- context [read_H_values ?c data ?p ?a] =>
        destruct (read_H_values_total c data p a) as (p' & a' & -> & Hp');
          [lia|]
    end.
    cbn [bind fst snd]. apply IH; cbn [pos]; lia. }
  destruct (tag =? 11).
  { destruct (Z.gtb_spec (pos st + 6) (len data)); [exact I|].
    rewrite (unpack_H_guarded data (pos st + 4)) by lia. cbn [bind].
    match goal with
    | |- context [read_H_values ?c data ?p ?a] =>
        destruct (read_H_values_total c data p a) as (p' & a' & -> & Hp');
          [lia|]
    end.
    cbn [bind fst snd]. apply IH; cbn [pos]; lia. }
  destruct (tag =? 12).
  { destruct (Z.gtb_spec (pos st + 6) (len data)); [exact I|].
    pose proof (unpack_H_guarded data (pos st + 4) ltac:(lia) ltac:(lia))
      as Hcount.
    pose proof (unpack_H_range data _ _ Hb Hcount) as Hrange.
    rewrite Hcount. cbn [bind]. apply IH; cbn [pos set_pos]; lia. }
  destruct (tag =? 3).
  { destruct (Z.leb_spec (pos st + 8) (len data)); [|exact I].
    rewrite (unpack_H_guarded data (pos st + 6)) by lia. exact I. }
  apply IH; cbn [pos set_pos]; lia.
Qed.

Lemma unpack_I_guarded (data : list Z) (pos : Z) :
  0 <= pos -> pos + 4 <= len data ->
  exists v, Struct.unpack_from_I data pos = Ok v.
Proof.
  intros H0 H4. unfold Struct.unpack_from_I.
  replace ((0 <=? pos) && (pos + 4 <=? len data)) with true; [now eexists|].
  symmetry. apply andb_true_iff. split; apply Z.leb_le; lia.
Qed.

Lemma unpack_I_short (data : list Z) :
  len data < 4 -> Struct.unpack_from_I data 0 = Raise struct_error.
Proof.
  intros H. unfold Struct.unpack_from_I.
  replace ((0 <=? 0) && (0 + 4 <=? len data)) with false; [reflexivity|].
  symmetry. apply andb_false_iff. right. apply Z.leb_gt. lia.
Qed.

Lemma fuel_covers (data : list Z) (pos : Z) :
  0 <= pos -> Z.max 0 (len data - pos) < Z.of_nat (S (List.length data)).
Proof. unfold len. lia. Qed.

Section Tolerance.

Variable utf8_decode : list Z -> string.

Lemma parse_binary_outcome (data : list Z) :
  bytes_ok data ->
  match parse_binary utf8_decode data with
  | Ok _ => True
  | Raise e =>
      e = struct_error
      /\ (len data < 4
          \/ exists p, len data < p + 8 /\ Struct.unpack_from_H data p = Ok 4)
  end.
Proof.
  intros Hb. unfold parse_binary.
  destruct (Z.lt_ge_cases (len data) 4) as [Hshort|Hlong].
  - rewrite unpack_I_short by assumption. cbn [bind]. split; [reflexivity|].
    now left.
  - destruct (unpack_I_guarded data 0) as [version ->]; try lia. cbn [bind].
    destruct (parse_icons_total (S (List.length data)) data 36 [])
      as (p & icons & -> & Hp); [lia|apply fuel_covers; lia|].
    cbn [bind fst snd].
    match goal with
    | |- context [parse_tags ?f data ?st] =>
        pose proof (parse_tags_outcome f data Hb st) as Htags
    end.
    cbn [pos] in Htags.
    specialize (Htags ltac:(lia) (fuel_covers data p ltac:(lia))).
    destruct (parse_tags _ data _) as [st|e]; cbn [bind]; [exact I|].
    destruct Htags as [-> Hp4]. split; [reflexivity|now right].
Qed.

Lemma truncation_and_mismatch_accepted :
  (exists doc, parse_binary decode_ascii truncated_tank = Ok doc
               /\ option_map (@List.length Obj.t) (Doc.objects doc) = Some 1%nat
               /\ Doc.board_background doc = None)
  /\ (exists doc, parse_binary decode_ascii mismatched_tank = Ok doc
                  /\ option_map (map Obj.color) (Doc.objects doc)
                     = Some [None]).
Proof.
  split; eexists; (split; [vm_compute; reflexivity|]); repeat split.
Qed.

(** C7 (amended).  [parse_binary] does not reject a truncated buffer or a
    section whose count differs from the number of objects: every read of
    a section is guarded and ends the loop, and entries that are missing
    get their defaults.  On a byte buffer it returns a Document or raises
    [struct.error]; it returns a Document whenever the buffer has at least
    4 bytes and no tag-4 word starts within its last 7 bytes (the two
    reads after a tag 4 are the only unguarded ones). *)
Theorem parse_binary_tolerant (data : list Z) :
  bytes_ok data ->
  4 <= len data ->
  (forall p, len data < p + 8 -> Struct.unpack_from_H data p <> Ok 4) ->
  exists doc, parse_binary utf8_decode data = Ok doc.
Proof.
  intros Hb Hlen Hno4. pose proof (parse_binary_outcome data Hb) as H.
  destruct (parse_binary utf8_decode data) as [doc|e]; [now exists doc|].
  destruct H as [_ [Hshort|(p & Hp & Hp4)]]; [lia|].
  exfalso. exact (Hno4 p Hp Hp4).
Qed.

End Tolerance.

Lemma truncated_tank_no_late_tag4 (p : Z) :
  len truncated_tank < p + 8 -> Struct.unpack_from_H truncated_tank p <> Ok 4.
Proof.
  change (len truncated_tank) with 52. intros Hp.
  destruct (Z.le_gt_cases (p + 2) 52) as [Hin|Hout].
  - assert (Hcases : p = 45 \/ p = 46 \/ p = 47 \/ p = 48 \/ p = 49 \/ p = 50)
      by lia.
    destruct Hcases as [-> | [-> | [-> | [-> | [-> | ->]]]]];
      vm_compute; discriminate.
  - rewrite unpack_H_past_end by (change (len truncated_tank) with 52; lia).
    discriminate.
Qed.

Lemma parse_binary_tolerant_witness :
  exists doc, parse_binary decode_ascii truncated_tank = Ok doc.
Proof.
  apply (parse_binary_tolerant decode_ascii truncated_tank).
  - unfold bytes_ok, truncated_tank, is_byte. repeat constructor; lia.
  - vm_compute. discriminate.
  - exact truncated_tank_no_late_tag4.
Defined.

(* ------------------------------------------------------------------ *)
(** ** The size the decoder reports *)

Lemma build_object_size (n : Z) (st : locals) (i : nat) (icon_id : Z) :
  exists v, Obj.size (build_object n st i icon_id) = Some v /\ 1 <= v.
Proof.
  unfold build_object. cbn [Obj.size].
  destruct (nth_error (sizes st) i) as [s|].
  - destruct (Z.gtb_spec s 0); eexists; (split; [reflexivity|lia]).
  - eexists. split; [reflexivity|lia].
Qed.

Lemma build_objects_sizes (n : Z) (st : locals) (icons : list Z) :
  forall i,
    Forall (fun o => exists v, Obj.size o = Some v /\ 1 <= v)
           (build_objects n st i icons).
Proof.
  induction icons as [|icon_id icons IH]; intros i; simpl; constructor.
  - apply build_object_size.
  - apply IH.
Qed.

Lemma zero_size_reads_100 (n : Z) (st : locals) (i : nat) (icon_id : Z) :
  nth_error (sizes st) i = None \/ nth_error (sizes st) i = Some 0
  \/ nth_error (sizes st) i = Some 100 ->
  Obj.size (build_object n st i icon_id) = Some 100.
Proof.
  unfold build_object. cbn [Obj.size].
  intros [-> | [-> | ->]]; reflexivity.
Qed.

Section DecodedSize.

Variable zlib_decompress : list Z -> outcome (list Z).
Variable utf8_decode : list Z -> string.

Lemma parse_binary_objects (data : list Z) (doc : Doc.t) :
  parse_binary utf8_decode data = Ok doc ->
  exists n st icons, Doc.objects doc = Some (build_objects n st 0 icons).
Proof.
  unfold parse_binary.
  destruct (Struct.unpack_from_I data 0); cbn [bind]; [|discriminate].
  destruct (parse_icons _ data 36 []) as [r|]; cbn [bind]; [|discriminate].
  destruct (parse_tags _ data _) as [st|]; cbn [bind]; [|discriminate].
  intros H. injection H as <-. cbn [Doc.objects]. now eexists _, _, _.
Qed.

(** C10.  Every object of every Document [decode_stgy] returns has a size
    of at least 1; a size byte of 0 and a missing size entry are both
    reported as 100, the value a stored 100 is reported as. *)
Theorem decoded_size_positive (stgy_string : string) (doc : Doc.t)
        (n : Z) (st : locals) (i : nat) (icon_id : Z) :
  decode_stgy zlib_decompress utf8_decode stgy_string = Ok doc ->
  (exists objects,
      Doc.objects doc = Some objects
      /\ Forall (fun o => exists v, Obj.size o = Some v /\ 1 <= v) objects)
  /\ (nth_error (sizes st) i = None \/ nth_error (sizes st) i = Some 0
      \/ nth_error (sizes st) i = Some 100 ->
      Obj.size (build_object n st i icon_id) = Some 100).
Proof.
  intros H. split; [|apply zero_size_reads_100].
  unfold decode_stgy in H.
  destruct (decode_cipher zlib_decompress stgy_string) as [data|];
    cbn [bind] in H; [|discriminate].
  destruct (parse_binary_objects data doc H) as (n' & st' & icons & Hobjs).
  eexists. split; [exact Hobjs|]. apply build_objects_sizes.
Qed.

End DecodedSize.

Lemma decoded_size_positive_witness :
  (exists objects,
      Doc.objects tank_board = Some objects
      /\ Forall (fun o => exists v, Obj.size o = Some v /\ 1 <= v) objects)
  /\ (nth_error [0] 0 = None \/ nth_error [0] 0 = Some 0
      \/ nth_error [0] 0 = Some 100 ->
      Obj.size (build_object 1 (mk_locals 0 [] [] [0] [] [] [] None None)
                             0 47) = Some 100).
Proof.
  apply (decoded_size_positive store_decompress decode_ascii tank_code
           tank_board 1 (mk_locals 0 [] [] [0] [] [] [] None None) 0%nat 47).
  vm_compute. reflexivity.
Defined.

(* ------------------------------------------------------------------ *)
(** ** The header slot at 0x18 *)

Section Frame.

(** Two buffers of one length that agree from offset 28 on. *)
Variables data data' : list Z.
Hypothesis Hbytes : bytes_ok data.
Hypothesis Hlen : len data' = len data.
Hypothesis Hsame : forall i, 28 <= i ->
  Struct.byte_at data' i = Struct.byte_at data i.

Lemma unpack_H_frame (pos : Z) :
  28 <= pos -> Struct.unpack_from_H data' pos = Struct.unpack_from_H data pos.
Proof.
  intros Hpos. unfold Struct.unpack_from_H.
  now rewrite Hlen, !Hsame by lia.
Qed.

Lemma unpack_h_frame (pos : Z) :
  28 <= pos -> Struct.unpack_from_h data' pos = Struct.unpack_from_h data pos.
Proof.
  intros Hpos. unfold Struct.unpack_from_h. now rewrite unpack_H_frame.
Qed.

Lemma index_frame (pos : Z) :
  28 <= pos -> Struct.index data' pos = Struct.index data pos.
Proof.
  intros Hpos. unfold Struct.index. rewrite Hlen.
  change (nth (Z.to_nat pos) data' 0) with (Struct.byte_at data' pos).
  now rewrite Hsame.
Qed.

Lemma read_positions_frame (count : nat) :
  forall pos acc, 28 <= pos ->
    read_positions count data' pos acc = read_positions count data pos acc.
Proof.
  induction count as [|count IH]; intros pos acc Hpos; simpl; [reflexivity|].
  rewrite Hlen, !unpack_h_frame by lia.
  destruct (pos + 4 >? len data); [reflexivity|].
  destruct (Struct.unpack_from_h data pos); cbn [bind]; [|reflexivity].
  destruct (Struct.unpack_from_h data (pos + 2)); cbn [bind]; [|reflexivity].
  apply IH. lia.
Qed.

Lemma read_H_values_frame (count : nat) :
  forall pos acc, 28 <= pos ->
    read_H_values count data' pos acc = read_H_values count data pos acc.
Proof.
  induction count as [|count IH]; intros pos acc Hpos; simpl; [reflexivity|].
  rewrite Hlen, !unpack_H_frame by lia.
  destruct (pos + 2 >? len data); [reflexivity|].
  destruct (Struct.unpack_from_H data pos); cbn [bind]; [|reflexivity].
  apply IH. lia.
Qed.

Lemma read_sizes_frame (count : nat) :
  forall pos acc, 28 <= pos ->
    read_sizes count data' pos acc = read_sizes count data pos acc.
Proof.
  induction count as [|count IH]; intros pos acc Hpos; simpl; [reflexivity|].
  rewrite Hlen, !index_frame by lia.
  destruct (pos >=? len data); [reflexivity|].
  destruct (Struct.index data pos); cbn [bind]; [|reflexivity].
  apply IH. lia.
Qed.

Lemma read_colors_frame (count : nat) :
  forall pos acc, 28 <= pos ->
    read_colors count data' pos acc = read_colors count data pos acc.
Proof.
  induction count as [|count IH]; intros pos acc Hpos; simpl; [reflexivity|].
  rewrite Hlen, !index_frame by lia.
  destruct (pos + 4 >? len data); [reflexivity|].
  destruct (Struct.index data pos); cbn [bind]; [|reflexivity].
  destruct (Struct.index data (pos + 1)); cbn [bind]; [|reflexivity].
  destruct (Struct.index data (pos + 2)); cbn [bind]; [|reflexivity].
  destruct (Struct.index data (pos + 3)); cbn [bind]; [|reflexivity].
  apply IH. lia.
Qed.

Lemma parse_icons_frame (fuel : nat) :
  forall pos icons, 28 <= pos ->
    parse_icons fuel data' pos icons = parse_icons fuel data pos icons.
Proof.
  induction fuel as [|fuel IH]; intros pos icons Hpos; [reflexivity|].
  cbn [parse_icons]. rewrite Hlen, !unpack_H_frame by lia.
  destruct (pos <? len data - 4); [|reflexivity].
  destruct (Struct.unpack_from_H data pos); cbn [bind]; [|reflexivity].
  destruct (negb _); [reflexivity|].
  destruct (Struct.unpack_from_H data (pos + 2)); cbn [bind]; [|reflexivity].
  apply IH. lia.
Qed.

Ltac frame_section total frame IH :=
  destruct (_ + 6 >? len data); [reflexivity|];
  rewrite unpack_H_frame by lia;
  destruct (Struct.unpack_from_H data _) as [count|]; cbn [bind];
    [|reflexivity];
  rewrite frame by lia;
  match goal with
  | |- context [bind (?read ?c data ?p ?a) _] =>
      destruct (total c data p a) as (p' & a' & -> & Hp'); [lia|]
  end;
  cbn [bind fst snd]; try destruct (_ mod 2 =? 1); apply IH; cbn [pos]; lia.

Lemma parse_tags_frame (fuel : nat) :
  forall st, 28 <= pos st -> parse_tags fuel data' st = parse_tags fuel data st.
Proof.
  induction fuel as [|fuel IH]; intros st Hpos; [reflexivity|].
  cbn [parse_tags]. rewrite Hlen.
  destruct (pos st <? len data - 2); [|reflexivity].
  rewrite unpack_H_frame by lia.
  destruct (Struct.unpack_from_H data (pos st)) as [tag|]; cbn [bind];
    [|reflexivity].
  destruct (tag =? 4).
  { rewrite unpack_H_frame by lia.
    destruct (Struct.unpack_from_H data (pos st + 4)) as [count_val|];
      cbn [bind]; [|reflexivity].
    destruct (count_val >? 1); [apply IH; cbn [pos set_pos]; lia|].
    rewrite unpack_H_frame by lia.
    destruct (Struct.unpack_from_H data (pos st + 6)); cbn [bind];
      [|reflexivity].
    apply IH. cbn [pos]. lia. }
  destruct (tag =? 5);
    [frame_section read_positions_total read_positions_frame IH|].
  destruct (tag =? 6);
    [frame_section read_H_values_total read_H_values_frame IH|].
  destruct (tag =? 7);
    [frame_section read_sizes_total read_sizes_frame IH|].
  destruct (tag =? 8);
    [frame_section read_colors_total read_colors_frame IH|].
  destruct (tag =? 10);
    [frame_section read_H_values_total read_H_values_frame IH|].
  destruct (tag =? 11);
    [frame_section read_H_values_total read_H_values_frame IH|].
  destruct (tag =? 12).
  { destruct (_ + 6 >? len data); [reflexivity|].
    rewrite unpack_H_frame by lia.
    destruct (Struct.unpack_from_H data (pos st + 4)) as [count|] eqn:Hcount;
      cbn [bind]; [|reflexivity].
    pose proof (unpack_H_range data _ _ Hbytes Hcount).
    apply IH. cbn [pos set_pos]. lia. }
  destruct (tag =? 3).
  { destruct (_ + 8 <=? len data); [|reflexivity].
    now rewrite unpack_H_frame by lia. }
  apply IH. cbn [pos set_pos]. lia.
Qed.

End Frame.

Lemma overwrite_slot (data : list Z) (a b : Z) :
  Struct.overwrite data 24 [a; b] = firstn 24 data ++ a :: b :: skipn 26 data.
Proof. reflexivity. Qed.

Lemma len_firstn_24 (data : list Z) :
  26 <= len data -> List.length (firstn 24 data) = 24%nat.
Proof. unfold len. intros H. rewrite length_firstn. lia. Qed.

Lemma byte_at_overwrite_slot_after (data : list Z) (a b i : Z) :
  26 <= len data -> 26 <= i ->
  Struct.byte_at (Struct.overwrite data 24 [a; b]) i = Struct.byte_at data i.
Proof.
  intros Hlen Hi. rewrite overwrite_slot. unfold Struct.byte_at.
  rewrite app_nth2; rewrite len_firstn_24 by assumption; [|lia].
  replace (Z.to_nat i - 24)%nat with (S (S (Z.to_nat i - 26))) by lia.
  cbn [nth]. rewrite nth_skipn. f_equal. lia.
Qed.

Lemma byte_at_overwrite_slot_before (data : list Z) (a b i : Z) :
  26 <= len data -> 0 <= i < 24 ->
  Struct.byte_at (Struct.overwrite data 24 [a; b]) i = Struct.byte_at data i.
Proof.
  intros Hlen Hi. rewrite overwrite_slot. unfold Struct.byte_at.
  rewrite app_nth1 by (rewrite len_firstn_24 by assumption; lia).
  rewrite nth_firstn.
  destruct (Nat.ltb_spec (Z.to_nat i) 24); [reflexivity|lia].
Qed.

Lemma name_field_overwrite_slot (data : list Z) (a b : Z) :
  26 <= len data ->
  skipn 28 (Struct.overwrite data 24 [a; b]) = skipn 28 data.
Proof.
  intros Hlen. rewrite overwrite_slot.
  rewrite skipn_app, len_firstn_24 by assumption.
  rewrite skipn_all2 by (rewrite len_firstn_24 by assumption; lia).
  cbn [app]. change (28 - 24)%nat with 4%nat.
  rewrite !skipn_cons. now rewrite skipn_skipn.
Qed.

(* ------------------------------------------------------------------ *)
(** ** The built buffer is a byte string *)

Lemma bytes_ok_app (a b : list Z) :
  bytes_ok a -> bytes_ok b -> bytes_ok (a ++ b).
Proof. intros Ha Hb. apply Forall_app. now split. Qed.

Lemma bytes_ok_le16 (v : Z) : u16 v = true -> bytes_ok (le16 v).
Proof.
  intros H. apply u16_true in H. unfold le16, bytes_ok.
  repeat constructor; byte_arith.
Qed.

Lemma bytes_ok_le16s (v : Z) : bytes_ok (le16s v).
Proof. unfold le16s, bytes_ok. repeat constructor; byte_arith. Qed.

Lemma bytes_ok_le32 (v : Z) : u32 v = true -> bytes_ok (le32 v).
Proof.
  intros H. apply u32_true in H. unfold le32, bytes_ok.
  repeat constructor; byte_arith.
Qed.

Lemma bytes_ok_flat_map {A : Type} (ok : A -> bool) (f : A -> list Z)
      (l : list A) :
  (forall a, ok a = true -> bytes_ok (f a)) ->
  forallb ok l = true -> bytes_ok (flat_map f l).
Proof.
  intros Hf. induction l as [|a l IH]; simpl; [constructor|].
  intros H. apply andb_true_iff in H. destruct H as [Ha Hl].
  apply bytes_ok_app; auto.
Qed.

Lemma bytes_ok_utf8_encode (s : list ascii) : bytes_ok (utf8_encode s).
Proof.
  unfold utf8_encode. induction s as [|c s IH]; cbn [flat_map]; [constructor|].
  apply bytes_ok_app; [|exact IH].
  pose proof (ord_range c).
  destruct (Z.ltb_spec (ord c) 128); unfold bytes_ok;
    repeat (apply Forall_cons || apply Forall_nil); unfold is_byte;
    Z.div_mod_to_equations; lia.
Qed.

Lemma bytes_ok_firstn (n : nat) (b : list Z) : bytes_ok b -> bytes_ok (firstn n b).
Proof.
  unfold bytes_ok. revert b.
  induction n as [|n IH]; intros [|x b] H; cbn [firstn]; try constructor.
  - now inversion H.
  - apply IH. now inversion H.
Qed.

Lemma bytes_ok_repeat_0 (n : nat) : bytes_ok (repeat 0 n).
Proof.
  unfold bytes_ok. apply Forall_forall. intros x Hx.
  apply repeat_spec in Hx. subst x. unfold is_byte. lia.
Qed.

Lemma bytes_ok_name_bytes (data : Doc.t) : bytes_ok (name_bytes data).
Proof.
  unfold name_bytes, ljust. apply bytes_ok_app.
  - apply bytes_ok_firstn, bytes_ok_utf8_encode.
  - apply bytes_ok_repeat_0.
Qed.

Lemma bytes_ok_layout_tail (data : Doc.t) :
  fits data = true ->
  bytes_ok (layout_icons (get (Doc.objects data) [])
            ++ layout_tag4 (get (Doc.objects data) [])
            ++ layout_properties (get (Doc.objects data) [])
            ++ layout_footer data).
Proof.
  unfold fits. cbv zeta. set (objects := get (Doc.objects data) []).
  unfold properties_fit. rewrite !andb_true_iff.
  intros [[[Hicons Hn] [[[[Hpos Hbg] Hcol] Harc] Hrad]] Hfoot].
  assert (Hc : forall v, u16 v = true -> bytes_ok (le16 v))
    by apply bytes_ok_le16.
  apply bytes_ok_app; [|apply bytes_ok_app; [|apply bytes_ok_app]].
  - unfold layout_icons.
    apply (bytes_ok_flat_map (fun obj => u16 (icon_id_of obj))); [|exact Hicons].
    intros obj Hobj. apply bytes_ok_app; auto.
  - unfold layout_tag4.
    destruct (len objects =? 0); [constructor|].
    destruct (len objects =? 1).
    + repeat apply bytes_ok_app; auto. apply Hc. unfold flags_of.
      now repeat destruct (get _ false).
    + repeat apply bytes_ok_app; auto.
      apply (bytes_ok_flat_map (fun _ => true)); [auto|].
      apply forallb_const_true.
  - unfold layout_properties. destruct (len objects >? 0); [|constructor].
    unfold layout_positions, layout_backgrounds, layout_sizes, layout_colors,
      layout_arc_angles, layout_donut_radii, layout_reserved.
    repeat apply bytes_ok_app; auto.
    + apply (bytes_ok_flat_map _ _ _ (fun obj _ =>
               bytes_ok_app _ _ (bytes_ok_le16s (x_of obj))
                            (bytes_ok_le16s (y_of obj))) Hpos).
    + apply (bytes_ok_flat_map (fun obj => u16 (bg_of obj))); auto.
    + apply (bytes_ok_flat_map (fun _ => true)); [|apply forallb_const_true].
      intros obj _. pose proof (size_is_byte obj) as Hs. apply u8_true in Hs.
      constructor; [exact Hs|constructor].
    + destruct (_ mod 2 =? 1); repeat constructor; unfold is_byte; lia.
    + apply (bytes_ok_flat_map
               (fun obj => u8 (r_of obj) && u8 (g_of obj) && u8 (b_of obj)
                           && u8 (a_of obj))); [|exact Hcol].
      intros obj Hobj. rewrite !andb_true_iff, !u8_true in Hobj.
      destruct Hobj as [[[Hr Hg] Hbl] Ha]. repeat constructor; lia.
    + apply (bytes_ok_flat_map (fun obj => u16 (arc_of obj))); auto.
    + apply (bytes_ok_flat_map (fun obj => u16 (radius_of obj))); auto.
    + apply (bytes_ok_flat_map (fun _ => true)); [auto|].
      apply forallb_const_true.
  - unfold layout_footer. repeat apply bytes_ok_app; auto.
Qed.

Lemma fits_count (data : Doc.t) :
  fits data = true -> u16 (len (get (Doc.objects data) [])) = true.
Proof.
  unfold fits. cbv zeta. rewrite !andb_true_iff. tauto.
Qed.

(** A buffer [build_binary] returns holds bytes only. *)
Lemma bytes_ok_patch_layout (data : Doc.t) :
  fits data = true -> bytes_ok (patch (layout data)).
Proof.
  intros Hfits. rewrite patched_layout.
  pose proof (len_layout_bounds data (fits_count data Hfits)) as HL.
  assert (Hconst : forall x y, is_byte x -> is_byte y -> bytes_ok [x; y])
    by (intros x y Hx Hy; constructor;
        [exact Hx|constructor; [exact Hy|constructor]]).
  apply bytes_ok_app;
    [unfold bytes_ok, is_byte; repeat constructor; lia|].
  apply bytes_ok_app; [apply bytes_ok_le32, u32_true; lia|].
  apply bytes_ok_app; [apply bytes_ok_repeat_0|].
  apply bytes_ok_app; [apply bytes_ok_le32, u32_true; lia|].
  do 3 (apply bytes_ok_app; [apply Hconst; unfold is_byte; lia|]).
  apply bytes_ok_app; [apply bytes_ok_name_bytes|].
  now apply bytes_ok_layout_tail.
Qed.

Section CountSlot.

Variable utf8_decode : list Z -> string.

(** [parse_binary] does not read the two bytes at offset 0x18. *)
Lemma parse_binary_ignores_slot (data : list Z) (a b : Z) :
  bytes_ok data -> 26 <= len data ->
  parse_binary utf8_decode (Struct.overwrite data 24 [a; b])
  = parse_binary utf8_decode data.
Proof.
  intros Hb Hlen.
  set (data' := Struct.overwrite data 24 [a; b]).
  assert (Hlen' : len data' = len data)
    by (apply len_overwrite; [lia|change (len [a; b]) with 2; lia]).
  assert (Hsame : forall i, 28 <= i ->
            Struct.byte_at data' i = Struct.byte_at data i)
    by (intros i Hi; apply byte_at_overwrite_slot_after; lia).
  unfold parse_binary.
  assert (Hv : Struct.unpack_from_I data' 0 = Struct.unpack_from_I data 0).
  { unfold Struct.unpack_from_I. rewrite Hlen'. unfold data'.
    now rewrite !byte_at_overwrite_slot_before by lia. }
  rewrite Hv.
  destruct (Struct.unpack_from_I data 0) as [version|]; cbn [bind];
    [|reflexivity].
  assert (Hl : List.length data' = List.length data)
    by (unfold len in Hlen'; lia).
  rewrite Hl.
  rewrite (parse_icons_frame data data' Hlen' Hsame) by lia.
  destruct (parse_icons _ data 36 []) as [[p icons]|] eqn:Hicons;
    cbn [bind fst snd]; [|reflexivity].
  destruct (parse_icons_total (S (List.length data)) data 36 [])
    as (p' & icons' & Hicons' & Hp'); [lia|apply fuel_covers; lia|].
  rewrite Hicons in Hicons'. injection Hicons' as <- <-.
  rewrite (parse_tags_frame data data' Hb Hlen' Hsame) by (cbn [pos]; lia).
  destruct (parse_tags _ data _) as [st|]; cbn [bind]; [|reflexivity].
  unfold data'. now rewrite name_field_overwrite_slot.
Qed.

Lemma empty_board_count_slot :
  exists buf,
    build_binary empty_board = Ok buf
    /\ Struct.unpack_from_H buf 24 = Ok 1
    /\ len (get (Doc.objects empty_board) []) = 0.
Proof.
  eexists. split; [vm_compute; reflexivity|]. split; reflexivity.
Qed.

(** C5 (amended).  In every buffer [build_binary] returns, the 16-bit slot
    at offset 0x18 holds the constant 1, whatever the number of objects (so
    also 1 for an empty board).  [parse_binary] never reads the slot:
    overwriting it with any two bytes leaves the result unchanged. *)
Theorem count_slot_constant (data : Doc.t) (buf : list Z) (a b : Z) :
  build_binary data = Ok buf ->
  Struct.unpack_from_H buf 24 = Ok 1
  /\ parse_binary utf8_decode (Struct.overwrite buf 24 [a; b])
     = parse_binary utf8_decode buf.
Proof.
  intros H. apply build_binary_ok in H. destruct H as [Hfits ->].
  split.
  - rewrite patched_layout.
    match goal with
    | |- context [?h ++ ?f ++ ?z ++ ?p ++ [0; 0] ++ [1; 0] ++ ?rest] =>
        replace (h ++ f ++ z ++ p ++ [0; 0] ++ [1; 0] ++ rest)
          with ((h ++ f ++ z ++ p ++ [0; 0]) ++ le16 1 ++ rest)
          by (now rewrite <- !app_assoc)
    end.
    apply unpack_H_at; reflexivity.
  - apply parse_binary_ignores_slot.
    + now apply bytes_ok_patch_layout.
    + rewrite len_patch_layout.
      pose proof (len_layout_bounds data (fits_count data Hfits)). lia.
Qed.

End CountSlot.

Lemma count_slot_constant_witness :
  exists buf,
    build_binary tank_board = Ok buf
    /\ Struct.unpack_from_H buf 24 = Ok 1
    /\ parse_binary decode_ascii (Struct.overwrite buf 24 [7; 7])
       = parse_binary decode_ascii buf.
Proof.
  eexists. split; [vm_compute; reflexivity|].
  apply (count_slot_constant decode_ascii tank_board _ 7 7).
  vm_compute. reflexivity.
Defined.

(* ------------------------------------------------------------------ *)
(** ** Reading back the sections [build_binary] wrote *)

Lemma len_cons {A : Type} (a : A) (l : list A) : len (a :: l) = 1 + len l.
Proof. unfold len. cbn [List.length]. lia. Qed.

Lemma to_nat_len {A : Type} (l : list A) : Z.to_nat (len l) = List.length l.
Proof. unfold len. lia. Qed.

Lemma len_le16s (v : Z) : len (le16s v) = 2.
Proof. reflexivity. Qed.

Lemma len_nil {A : Type} : len (@nil A) = 0.
Proof. reflexivity. Qed.

Create Rewrite HintDb lens.
#[local] Hint Rewrite @len_app @len_cons @len_nil len_le16 len_le16s len_le32
  : lens.

Ltac len_simpl := autorewrite with lens in *.

Ltac guard_false :=
  match goal with
  | |- context [?a >? ?b] =>
      destruct (Z.gtb_spec a b); [exfalso; len_simpl; lia|]
  end.

Lemma read_H_values_at (f : Obj.t -> Z) (objects : list Obj.t) :
  forall pre post acc,
    forallb (fun obj => u16 (f obj)) objects = true ->
    read_H_values (List.length objects)
      (pre ++ flat_map (fun obj => le16 (f obj)) objects ++ post)
      (len pre) acc
    = Ok (len pre + 2 * len objects, acc ++ map f objects).
Proof.
  induction objects as [|obj objects IH]; intros pre post acc Hok.
  - cbn [read_H_values List.length map]. rewrite app_nil_r.
    change (len (@nil Obj.t)) with 0. now rewrite Z.mul_0_r, Z.add_0_r.
  - cbn [forallb] in Hok. apply andb_true_iff in Hok. destruct Hok as [Hv Hok].
    cbn [read_H_values List.length flat_map map]. rewrite <- !app_assoc.
    pose proof (len_nonneg pre). pose proof (len_nonneg post).
    pose proof (len_nonneg (flat_map (fun obj => le16 (f obj)) objects)).
    guard_false.
    rewrite unpack_H_at by (reflexivity || assumption). cbn [bind].
    rewrite (app_assoc pre (le16 (f obj))).
    replace (len pre + 2) with (len (pre ++ le16 (f obj)))
      by (len_simpl; lia).
    rewrite IH by assumption. len_simpl.
    rewrite <- app_assoc. cbn [app]. f_equal. f_equal. lia.
Qed.

Lemma read_positions_at (objects : list Obj.t) :
  forall pre post acc,
    forallb (fun obj => i16 (x_of obj) && i16 (y_of obj)) objects = true ->
    read_positions (List.length objects)
      (pre ++ flat_map (fun obj => le16s (x_of obj) ++ le16s (y_of obj)) objects
           ++ post)
      (len pre) acc
    = Ok (len pre + 4 * len objects,
          acc ++ map (fun obj => (div10 (x_of obj), div10 (y_of obj))) objects).
Proof.
  induction objects as [|obj objects IH]; intros pre post acc Hok.
  - cbn [read_positions List.length map]. rewrite app_nil_r.
    change (len (@nil Obj.t)) with 0. now rewrite Z.mul_0_r, Z.add_0_r.
  - cbn [forallb] in Hok. apply andb_true_iff in Hok.
    destruct Hok as [Hv Hok]. apply andb_true_iff in Hv. destruct Hv as [Hx Hy].
    cbn [read_positions List.length flat_map map]. rewrite <- !app_assoc.
    pose proof (len_nonneg pre). pose proof (len_nonneg post).
    pose proof (len_nonneg
                  (flat_map (fun obj => le16s (x_of obj) ++ le16s (y_of obj))
                            objects)).
    guard_false.
    rewrite unpack_h_at by (reflexivity || assumption). cbn [bind].
    rewrite (app_assoc pre (le16s (x_of obj))).
    rewrite (unpack_h_at (pre ++ le16s (x_of obj)))
      by (assumption || (len_simpl; lia)).
    cbn [bind].
    rewrite (app_assoc (pre ++ le16s (x_of obj)) (le16s (y_of obj))).
    replace (len pre + 4)
      with (len ((pre ++ le16s (x_of obj)) ++ le16s (y_of obj)))
      by (len_simpl; lia).
    rewrite IH by assumption. len_simpl.
    rewrite <- app_assoc. cbn [app]. f_equal. f_equal. lia.
Qed.

Lemma read_sizes_at (objects : list Obj.t) :
  forall pre post acc,
    read_sizes (List.length objects)
      (pre ++ flat_map (fun obj => [size_of obj]) objects ++ post)
      (len pre) acc
    = Ok (len pre + len objects, acc ++ map size_of objects).
Proof.
  induction objects as [|obj objects IH]; intros pre post acc.
  - cbn [read_sizes List.length map]. rewrite app_nil_r.
    change (len (@nil Obj.t)) with 0. now rewrite Z.add_0_r.
  - cbn [read_sizes List.length flat_map map]. rewrite <- !app_assoc.
    pose proof (len_nonneg pre). pose proof (len_nonneg post).
    pose proof (len_nonneg (flat_map (fun obj => [size_of obj]) objects)).
    match goal with
    | |- context [?a >=? ?b] =>
        destruct (Z.geb_spec a b); [exfalso; len_simpl; lia|]
    end.
    cbn [app]. rewrite index_at by reflexivity. cbn [bind].
    change (pre ++ size_of obj :: ?l) with (pre ++ [size_of obj] ++ l).
    rewrite (app_assoc pre [size_of obj]).
    replace (len pre + 1) with (len (pre ++ [size_of obj]))
      by (len_simpl; change (len (@nil Z)) with 0; lia).
    rewrite IH. len_simpl. change (len (@nil Z)) with 0.
    rewrite <- app_assoc. cbn [app]. f_equal. f_equal. lia.
Qed.

Lemma index_app (pre l : list Z) (pos i : Z) :
  len pre = pos -> 0 <= i < len l ->
  Struct.index (pre ++ l) (pos + i) = Ok (Struct.byte_at l i).
Proof.
  intros Hpos Hi. pose proof (len_nonneg pre).
  rewrite index_guarded by (rewrite ?len_app; lia).
  now rewrite byte_at_app.
Qed.

Lemma read_colors_at (objects : list Obj.t) :
  forall pre post acc,
    read_colors (List.length objects)
      (pre ++ flat_map (fun obj => [r_of obj; g_of obj; b_of obj; a_of obj])
                       objects ++ post)
      (len pre) acc
    = Ok (len pre + 4 * len objects,
          acc ++ map (fun obj => (r_of obj, g_of obj, b_of obj, a_of obj))
                     objects).
Proof.
  induction objects as [|obj objects IH]; intros pre post acc.
  - cbn [read_colors List.length map]. rewrite app_nil_r.
    change (len (@nil Obj.t)) with 0. now rewrite Z.mul_0_r, Z.add_0_r.
  - cbn [read_colors List.length flat_map map]. rewrite <- !app_assoc.
    pose proof (len_nonneg pre). pose proof (len_nonneg post).
    pose proof (len_nonneg
                  (flat_map (fun obj => [r_of obj; g_of obj; b_of obj; a_of obj])
                            objects)).
    guard_false.
    rewrite <- (Z.add_0_r (len pre)) at 1.
    rewrite !index_app by (reflexivity || (len_simpl; lia)).
    cbn [bind Struct.byte_at Z.to_nat Pos.to_nat Pos.iter_op Nat.add nth app].
    change (pre ++ r_of obj :: g_of obj :: b_of obj :: a_of obj :: ?l)
      with (pre ++ [r_of obj; g_of obj; b_of obj; a_of obj] ++ l).
    rewrite (app_assoc pre [r_of obj; g_of obj; b_of obj; a_of obj]).
    replace (len pre + 4)
      with (len (pre ++ [r_of obj; g_of obj; b_of obj; a_of obj]))
      by (len_simpl; lia).
    rewrite IH. len_simpl.
    rewrite <- app_assoc. cbn [app]. f_equal. f_equal. lia.
Qed.

(** The icon loop on the pairs [build_binary] wrote, followed by a word
    other than 2. *)
Lemma parse_icons_at (objects : list Obj.t) :
  forall fuel pre post acc tag,
    (List.length objects < fuel)%nat ->
    forallb (fun obj => u16 (icon_id_of obj)) objects = true ->
    u16 tag = true -> tag <> 2 ->
    parse_icons fuel (pre ++ layout_icons objects ++ le16 tag ++ post)
                (len pre) acc
    = Ok (len pre + 4 * len objects, acc ++ map icon_id_of objects).
Proof.
  unfold layout_icons.
  induction objects as [|obj objects IH];
    intros fuel pre post acc tag Hfuel Hok Htag Hne.
  - destruct fuel as [|fuel]; [cbn [List.length] in Hfuel; lia|].
    cbn [parse_icons flat_map app map]. rewrite app_nil_r.
    change (len (@nil Obj.t)) with 0. rewrite Z.mul_0_r, Z.add_0_r.
    destruct (len pre <? _); [|reflexivity].
    rewrite unpack_H_at by (reflexivity || assumption). cbn [bind].
    destruct (Z.eqb_spec tag 2); [contradiction|reflexivity].
  - destruct fuel as [|fuel]; [cbn [List.length] in Hfuel; lia|].
    cbn [forallb] in Hok. apply andb_true_iff in Hok. destruct Hok as [Hv Hok].
    cbn [parse_icons flat_map map]. rewrite <- !app_assoc.
    pose proof (len_nonneg pre). pose proof (len_nonneg post).
    pose proof (len_nonneg
                  (flat_map (fun obj => le16 2 ++ le16 (icon_id_of obj))
                            objects)).
    match goal with
    | |- context [?a <? ?b] =>
        destruct (Z.ltb_spec a b); [|exfalso; len_simpl; lia]
    end.
    rewrite unpack_H_at by reflexivity. cbn [bind negb Z.eqb Pos.eqb].
    rewrite (app_assoc pre (le16 2)).
    rewrite (unpack_H_at (pre ++ le16 2)) by (assumption || (len_simpl; lia)).
    cbn [bind].
    rewrite (app_assoc (pre ++ le16 2) (le16 (icon_id_of obj))).
    replace (len pre + 4)
      with (len ((pre ++ le16 2) ++ le16 (icon_id_of obj)))
      by (len_simpl; lia).
    rewrite IH by (assumption || (cbn [List.length] in Hfuel; lia)).
    len_simpl. rewrite <- app_assoc. cbn [app]. f_equal. f_equal. lia.
Qed.

(* ------------------------------------------------------------------ *)
(** ** The tag loop, one section at a time *)

Lemma tag_header_reads (pre rest : list Z) (tag kind n : Z) :
  u16 tag = true -> u16 n = true ->
  Struct.unpack_from_H (pre ++ le16 tag ++ le16 kind ++ le16 n ++ rest) (len pre)
  = Ok tag
  /\ Struct.unpack_from_H (pre ++ le16 tag ++ le16 kind ++ le16 n ++ rest)
                          (len pre + 4) = Ok n
  /\ (len pre <? len (pre ++ le16 tag ++ le16 kind ++ le16 n ++ rest) - 2) = true
  /\ (len pre + 6 >? len (pre ++ le16 tag ++ le16 kind ++ le16 n ++ rest))
     = false.
Proof.
  intros Htag Hn. pose proof (len_nonneg pre). pose proof (len_nonneg rest).
  split; [now apply unpack_H_at|]. split; [|split].
  - replace (pre ++ le16 tag ++ le16 kind ++ le16 n ++ rest)
      with ((pre ++ le16 tag ++ le16 kind) ++ le16 n ++ rest)
      by (now rewrite <- !app_assoc).
    apply unpack_H_at; [len_simpl; lia|assumption].
  - apply Z.ltb_lt. len_simpl. lia.
  - rewrite Z.gtb_ltb. apply Z.ltb_ge. len_simpl. lia.
Qed.

Ltac len_flat :=
  repeat match goal with
         | |- context [len (flat_map ?f ?l)] =>
             first [ rewrite (len_flat_map f 4 l) by reflexivity
                   | rewrite (len_flat_map f 2 l) by reflexivity
                   | rewrite (len_flat_map f 1 l) by reflexivity ]
         end.

(** Put the three header words of a section into the prefix. *)
Ltac reassoc_header pre :=
  match goal with
  | |- context [pre ++ le16 ?t ++ le16 ?k ++ le16 ?n ++ ?body ++ ?post] =>
      replace (pre ++ le16 t ++ le16 k ++ le16 n ++ body ++ post)
        with ((pre ++ le16 t ++ le16 k ++ le16 n) ++ body ++ post)
        by (now rewrite <- !app_assoc);
      replace (len pre + 6) with (len (pre ++ le16 t ++ le16 k ++ le16 n))
        by (len_simpl; lia)
  end.

Lemma step_positions (fuel : nat) (pre post : list Z) (st : locals)
      (objects : list Obj.t) :
  pos st = len pre -> u16 (len objects) = true ->
  forallb (fun obj => i16 (x_of obj) && i16 (y_of obj)) objects = true ->
  parse_tags (S fuel) (pre ++ layout_positions objects ++ post) st
  = parse_tags fuel (pre ++ layout_positions objects ++ post)
      (mk_locals (len (pre ++ layout_positions objects))
         (positions st
          ++ map (fun obj => (div10 (x_of obj), div10 (y_of obj))) objects)
         (backgrounds st) (sizes st) (colors st) (arc_angles st)
         (donut_radii st) (_flags st) (board_background st)).
Proof.
  intros Hpos Hn Hok. cbn [parse_tags]. rewrite Hpos.
  unfold layout_positions. rewrite <- !app_assoc.
  match goal with
  | |- context [pre ++ le16 ?t ++ le16 ?k ++ le16 ?n ++ ?rest] =>
      destruct (tag_header_reads pre rest t k n eq_refl Hn)
        as (Htag & Hcount & Hloop & Hguard)
  end.
  rewrite Hloop, Htag. cbn [bind Z.eqb Pos.eqb].
  rewrite Hguard, Hcount. cbn [bind]. rewrite to_nat_len.
  match goal with
  | |- context [read_positions ?c ?d ?p ?a] =>
      assert (Hread : read_positions c d p a
                      = Ok (len pre + 6 + 4 * len objects,
                            a ++ map (fun obj => (div10 (x_of obj),
                                                  div10 (y_of obj))) objects))
  end.
  { reassoc_header pre. now rewrite read_positions_at by assumption. }
  rewrite Hread. cbn [bind fst snd].
  f_equal. f_equal. len_simpl. len_flat. lia.
Qed.

Ltac open_section pre Hpos Hn :=
  let Htag := fresh "Htag" in
  let Hcount := fresh "Hcount" in
  let Hloop := fresh "Hloop" in
  let Hguard := fresh "Hguard" in
  cbn [parse_tags]; rewrite Hpos; rewrite <- !app_assoc;
  match goal with
  | |- context [pre ++ le16 ?t ++ le16 ?k ++ le16 ?n ++ ?rest] =>
      destruct (tag_header_reads pre rest t k n eq_refl Hn)
        as (Htag & Hcount & Hloop & Hguard)
  end;
  rewrite Hloop, Htag; cbn [bind Z.eqb Pos.eqb];
  rewrite Hguard, Hcount; cbn [bind]; rewrite ?to_nat_len.

Lemma step_backgrounds (fuel : nat) (pre post : list Z) (st : locals)
      (objects : list Obj.t) :
  pos st = len pre -> u16 (len objects) = true ->
  forallb (fun obj => u16 (bg_of obj)) objects = true ->
  parse_tags (S fuel) (pre ++ layout_backgrounds objects ++ post) st
  = parse_tags fuel (pre ++ layout_backgrounds objects ++ post)
      (mk_locals (len (pre ++ layout_backgrounds objects))
         (positions st) (backgrounds st ++ map bg_of objects) (sizes st)
         (colors st) (arc_angles st) (donut_radii st) (_flags st)
         (board_background st)).
Proof.
  intros Hpos Hn Hok. unfold layout_backgrounds. open_section pre Hpos Hn.
  match goal with
  | |- context [read_H_values ?c ?d ?p ?a] =>
      assert (Hread : read_H_values c d p a
                      = Ok (len pre + 6 + 2 * len objects,
                            a ++ map bg_of objects))
  end.
  { reassoc_header pre. now rewrite read_H_values_at by assumption. }
  rewrite Hread. cbn [bind fst snd].
  f_equal. f_equal. len_simpl. len_flat. lia.
Qed.

Lemma step_arc_angles (fuel : nat) (pre post : list Z) (st : locals)
      (objects : list Obj.t) :
  pos st = len pre -> u16 (len objects) = true ->
  forallb (fun obj => u16 (arc_of obj)) objects = true ->
  parse_tags (S fuel) (pre ++ layout_arc_angles objects ++ post) st
  = parse_tags fuel (pre ++ layout_arc_angles objects ++ post)
      (mk_locals (len (pre ++ layout_arc_angles objects))
         (positions st) (backgrounds st) (sizes st) (colors st)
         (arc_angles st ++ map arc_of objects) (donut_radii st) (_flags st)
         (board_background st)).
Proof.
  intros Hpos Hn Hok. unfold layout_arc_angles. open_section pre Hpos Hn.
  match goal with
  | |- context [read_H_values ?c ?d ?p ?a] =>
      assert (Hread : read_H_values c d p a
                      = Ok (len pre + 6 + 2 * len objects,
                            a ++ map arc_of objects))
  end.
  { reassoc_header pre. now rewrite read_H_values_at by assumption. }
  rewrite Hread. cbn [bind fst snd].
  f_equal. f_equal. len_simpl. len_flat. lia.
Qed.

Lemma step_donut_radii (fuel : nat) (pre post : list Z) (st : locals)
      (objects : list Obj.t) :
  pos st = len pre -> u16 (len objects) = true ->
  forallb (fun obj => u16 (radius_of obj)) objects = true ->
  parse_tags (S fuel) (pre ++ layout_donut_radii objects ++ post) st
  = parse_tags fuel (pre ++ layout_donut_radii objects ++ post)
      (mk_locals (len (pre ++ layout_donut_radii objects))
         (positions st) (backgrounds st) (sizes st) (colors st)
         (arc_angles st) (donut_radii st ++ map radius_of objects) (_flags st)
         (board_background st)).
Proof.
  intros Hpos Hn Hok. unfold layout_donut_radii. open_section pre Hpos Hn.
  match goal with
  | |- context [read_H_values ?c ?d ?p ?a] =>
      assert (Hread : read_H_values c d p a
                      = Ok (len pre + 6 + 2 * len objects,
                            a ++ map radius_of objects))
  end.
  { reassoc_header pre. now rewrite read_H_values_at by assumption. }
  rewrite Hread. cbn [bind fst snd].
  f_equal. f_equal. len_simpl. len_flat. lia.
Qed.

Lemma step_colors (fuel : nat) (pre post : list Z) (st : locals)
      (objects : list Obj.t) :
  pos st = len pre -> u16 (len objects) = true ->
  parse_tags (S fuel) (pre ++ layout_colors objects ++ post) st
  = parse_tags fuel (pre ++ layout_colors objects ++ post)
      (mk_locals (len (pre ++ layout_colors objects))
         (positions st) (backgrounds st) (sizes st)
         (colors st
          ++ map (fun obj => (r_of obj, g_of obj, b_of obj, a_of obj)) objects)
         (arc_angles st) (donut_radii st) (_flags st) (board_background st)).
Proof.
  intros Hpos Hn. unfold layout_colors. open_section pre Hpos Hn.
  match goal with
  | |- context [read_colors ?c ?d ?p ?a] =>
      assert (Hread : read_colors c d p a
                      = Ok (len pre + 6 + 4 * len objects,
                            a ++ map (fun obj => (r_of obj, g_of obj, b_of obj,
                                                  a_of obj)) objects))
  end.
  { reassoc_header pre. now rewrite read_colors_at. }
  rewrite Hread. cbn [bind fst snd].
  f_equal. f_equal. len_simpl. len_flat. lia.
Qed.

Lemma step_sizes (fuel : nat) (pre post : list Z) (st : locals)
      (objects : list Obj.t) :
  pos st = len pre -> u16 (len objects) = true ->
  parse_tags (S fuel) (pre ++ layout_sizes objects ++ post) st
  = parse_tags fuel (pre ++ layout_sizes objects ++ post)
      (mk_locals (len (pre ++ layout_sizes objects))
         (positions st) (backgrounds st) (sizes st ++ map size_of objects)
         (colors st) (arc_angles st) (donut_radii st) (_flags st)
         (board_background st)).
Proof.
  intros Hpos Hn. unfold layout_sizes. open_section pre Hpos Hn.
  match goal with
  | |- context [read_sizes ?c ?d ?p ?a] =>
      assert (Hread : read_sizes c d p a
                      = Ok (len pre + 6 + len objects, a ++ map size_of objects))
  end.
  { reassoc_header pre. now rewrite read_sizes_at. }
  rewrite Hread. cbn [bind fst snd].
  f_equal. f_equal. len_simpl. len_flat.
  destruct (len objects mod 2 =? 1); len_simpl; lia.
Qed.

Lemma step_reserved (fuel : nat) (pre post : list Z) (st : locals)
      (objects : list Obj.t) :
  pos st = len pre -> u16 (len objects) = true ->
  parse_tags (S fuel) (pre ++ layout_reserved objects ++ post) st
  = parse_tags fuel (pre ++ layout_reserved objects ++ post)
      (mk_locals (len (pre ++ layout_reserved objects))
         (positions st) (backgrounds st) (sizes st) (colors st)
         (arc_angles st) (donut_radii st) (_flags st) (board_background st)).
Proof.
  intros Hpos Hn. unfold layout_reserved. open_section pre Hpos Hn.
  unfold set_pos. f_equal. f_equal. len_simpl. len_flat. lia.
Qed.

Lemma flags_of_u16 (obj : Obj.t) : u16 (flags_of obj) = true.
Proof. unfold flags_of. now repeat destruct (get _ false). Qed.

(** Tag 4 of a board with one object: the flags word is kept. *)
Lemma step_tag4_single (fuel : nat) (pre post : list Z) (st : locals)
      (obj : Obj.t) :
  pos st = len pre ->
  parse_tags (S fuel) (pre ++ layout_tag4 [obj] ++ post) st
  = parse_tags fuel (pre ++ layout_tag4 [obj] ++ post)
      (mk_locals (len (pre ++ layout_tag4 [obj]))
         (positions st) (backgrounds st) (sizes st) (colors st)
         (arc_angles st) (donut_radii st) (Some (flags_of obj))
         (board_background st)).
Proof.
  intros Hpos.
  change (layout_tag4 [obj])
    with (le16 4 ++ le16 1 ++ le16 1 ++ le16 (flags_of obj)).
  cbn [parse_tags]. rewrite Hpos. rewrite <- !app_assoc.
  destruct (tag_header_reads pre (le16 (flags_of obj) ++ post) 4 1 1
              eq_refl eq_refl) as (Htag & Hcount & Hloop & _).
  rewrite Hloop, Htag. cbn [bind Z.eqb Pos.eqb]. rewrite Hcount.
  cbn [bind Z.gtb Z.compare Pos.compare Pos.compare_cont].
  replace (pre ++ le16 4 ++ le16 1 ++ le16 1 ++ le16 (flags_of obj) ++ post)
    with ((pre ++ le16 4 ++ le16 1 ++ le16 1) ++ le16 (flags_of obj) ++ post)
    by (now rewrite <- !app_assoc).
  rewrite unpack_H_at by (apply flags_of_u16 || (len_simpl; lia)).
  cbn [bind]. f_equal. f_equal. len_simpl. lia.
Qed.

(** A word that is no tag is skipped. *)
Lemma step_skip_ones (objects : list Obj.t) :
  forall fuel pre post st,
    pos st = len pre -> 0 < len post ->
    parse_tags (List.length objects + fuel)
               (pre ++ flat_map (fun _ => le16 1) objects ++ post) st
    = parse_tags fuel (pre ++ flat_map (fun _ => le16 1) objects ++ post)
        (set_pos st (len (pre ++ flat_map (fun _ => le16 1) objects))).
Proof.
  induction objects as [|obj objects IH]; intros fuel pre post st Hpos Hpost.
  - cbn [List.length flat_map Nat.add app]. rewrite app_nil_r.
    rewrite <- Hpos. now destruct st.
  - cbn [List.length flat_map Nat.add]. rewrite <- !app_assoc.
    pose proof (len_nonneg pre).
    pose proof (len_nonneg (flat_map (fun _ : Obj.t => le16 1) objects)).
    cbn [parse_tags]. rewrite Hpos.
    match goal with
    | |- context [?a <? ?b] =>
        destruct (Z.ltb_spec a b); [|exfalso; len_simpl; lia]
    end.
    rewrite unpack_H_at by reflexivity. cbn [bind Z.eqb Pos.eqb].
    rewrite (app_assoc pre (le16 1)).
    rewrite IH by (cbn [pos set_pos]; len_simpl; lia || assumption).
    unfold set_pos. cbn [positions backgrounds sizes colors arc_angles
                         donut_radii _flags board_background].
    now rewrite <- !app_assoc.
Qed.

(** Tag 4 of a board with two or more objects: the loop jumps 10 bytes
    ahead and skips the remaining words. *)
Lemma step_tag4_multi (fuel : nat) (pre post : list Z) (st : locals)
      (o1 o2 : Obj.t) (objects : list Obj.t) :
  pos st = len pre -> u16 (len (o1 :: o2 :: objects)) = true ->
  0 < len post ->
  parse_tags (S (List.length objects + fuel))
             (pre ++ layout_tag4 (o1 :: o2 :: objects) ++ post) st
  = parse_tags fuel (pre ++ layout_tag4 (o1 :: o2 :: objects) ++ post)
      (set_pos st (len (pre ++ layout_tag4 (o1 :: o2 :: objects)))).
Proof.
  intros Hpos Hn Hpost. set (n := len (o1 :: o2 :: objects)) in *.
  assert (Hn2 : 2 <= n)
    by (unfold n; len_simpl; pose proof (len_nonneg objects); lia).
  assert (Hlayout : layout_tag4 (o1 :: o2 :: objects)
                    = le16 4 ++ le16 1 ++ le16 n
                      ++ (le16 1 ++ le16 1)
                      ++ flat_map (fun _ => le16 1) objects).
  { unfold layout_tag4. fold n.
    destruct (Z.eqb_spec n 0); [lia|]. destruct (Z.eqb_spec n 1); [lia|].
    cbn [flat_map]. now rewrite <- !app_assoc. }
  rewrite Hlayout. cbn [parse_tags]. rewrite Hpos. rewrite <- !app_assoc.
  match goal with
  | |- context [pre ++ le16 4 ++ le16 1 ++ le16 n ++ ?rest] =>
      destruct (tag_header_reads pre rest 4 1 n eq_refl Hn)
        as (Htag & Hcount & Hloop & _)
  end.
  rewrite Hloop, Htag. cbn [bind Z.eqb Pos.eqb]. rewrite Hcount. cbn [bind].
  destruct (Z.gtb_spec n 1); [|lia].
  replace (pre ++ le16 4 ++ le16 1 ++ le16 n ++ le16 1 ++ le16 1
               ++ flat_map (fun _ : Obj.t => le16 1) objects ++ post)
    with ((pre ++ le16 4 ++ le16 1 ++ le16 n ++ le16 1 ++ le16 1)
            ++ flat_map (fun _ : Obj.t => le16 1) objects ++ post)
    by (now rewrite <- !app_assoc).
  rewrite step_skip_ones by (assumption || (cbn [pos set_pos]; len_simpl; lia)).
  unfold set_pos. cbn [positions backgrounds sizes colors arc_angles
                       donut_radii _flags board_background].
  now rewrite <- !app_assoc.
Qed.

(** The footer ends the loop. *)
Lemma step_footer (fuel : nat) (pre : list Z) (st : locals) (data : Doc.t) :
  pos st = len pre -> u16 (board_bg_of data) = true ->
  parse_tags (S fuel) (pre ++ layout_footer data) st
  = Ok (mk_locals (pos st) (positions st) (backgrounds st) (sizes st)
          (colors st) (arc_angles st) (donut_radii st) (_flags st)
          (Some (get (zfind bg_names (board_bg_of data))
                     (unknown_ (board_bg_of data))))).
Proof.
  intros Hpos Hbg. unfold layout_footer. cbn [parse_tags]. rewrite Hpos.
  destruct (tag_header_reads pre (le16 (board_bg_of data)) 3 1 1
              eq_refl eq_refl) as (Htag & _ & Hloop & _).
  rewrite Hloop, Htag. cbn [bind Z.eqb Pos.eqb].
  pose proof (len_nonneg pre).
  match goal with
  | |- context [?a <=? ?b] =>
      destruct (Z.leb_spec a b); [|exfalso; len_simpl; lia]
  end.
  replace (pre ++ le16 3 ++ le16 1 ++ le16 1 ++ le16 (board_bg_of data))
    with ((pre ++ le16 3 ++ le16 1 ++ le16 1) ++ le16 (board_bg_of data) ++ [])
    by (now rewrite <- !app_assoc, app_nil_r).
  rewrite unpack_H_at by (assumption || (len_simpl; lia)).
  reflexivity.
Qed.

Ltac flat_state :=
  cbn [pos positions backgrounds sizes colors arc_angles donut_radii _flags
       board_background].

(** The seven property sections and the footer. *)
Lemma parse_properties (fuel : nat) (pre : list Z) (st : locals)
      (data : Doc.t) (objects : list Obj.t) :
  pos st = len pre -> 0 < len objects -> u16 (len objects) = true ->
  properties_fit objects = true -> u16 (board_bg_of data) = true ->
  exists p,
    parse_tags (8 + fuel)
               (pre ++ layout_properties objects ++ layout_footer data) st
    = Ok (mk_locals p
            (positions st
             ++ map (fun obj => (div10 (x_of obj), div10 (y_of obj))) objects)
            (backgrounds st ++ map bg_of objects)
            (sizes st ++ map size_of objects)
            (colors st
             ++ map (fun obj => (r_of obj, g_of obj, b_of obj, a_of obj))
                    objects)
            (arc_angles st ++ map arc_of objects)
            (donut_radii st ++ map radius_of objects)
            (_flags st)
            (Some (get (zfind bg_names (board_bg_of data))
                       (unknown_ (board_bg_of data))))).
Proof.
  intros Hpos Hpos_n Hn Hfit Hbg.
  unfold properties_fit in Hfit. rewrite !andb_true_iff in Hfit.
  destruct Hfit as [[[[H5 H6] H8] H10] H11].
  unfold layout_properties.
  destruct (Z.gtb_spec (len objects) 0) as [_|]; [|lia].
  rewrite <- !app_assoc. cbn [Nat.add].
  rewrite step_positions by assumption. flat_state.
  rewrite (app_assoc pre).
  rewrite step_backgrounds by (assumption || reflexivity). flat_state.
  rewrite (app_assoc (pre ++ _)).
  rewrite step_sizes by (assumption || reflexivity). flat_state.
  rewrite (app_assoc ((pre ++ _) ++ _)).
  rewrite step_colors by (assumption || reflexivity). flat_state.
  rewrite (app_assoc (((pre ++ _) ++ _) ++ _)).
  rewrite step_arc_angles by (assumption || reflexivity). flat_state.
  rewrite (app_assoc ((((pre ++ _) ++ _) ++ _) ++ _)).
  rewrite step_donut_radii by (assumption || reflexivity). flat_state.
  rewrite (app_assoc (((((pre ++ _) ++ _) ++ _) ++ _) ++ _)).
  rewrite step_reserved by (assumption || reflexivity). flat_state.
  rewrite (app_assoc ((((((pre ++ _) ++ _) ++ _) ++ _) ++ _) ++ _)).
  rewrite step_footer by (assumption || reflexivity). flat_state.
  now eexists.
Qed.

Lemma fits_parts (data : Doc.t) :
  fits data = true ->
  forallb (fun obj => u16 (icon_id_of obj)) (get (Doc.objects data) []) = true
  /\ u16 (len (get (Doc.objects data) [])) = true
  /\ properties_fit (get (Doc.objects data) []) = true
  /\ u16 (board_bg_of data) = true.
Proof. unfold fits. cbv zeta. rewrite !andb_true_iff. tauto. Qed.

(** The tag loop on everything [build_binary] wrote after the icon list. *)
Lemma parse_tags_layout (data : Doc.t) (pre : list Z) (fuel : nat) :
  fits data = true ->
  (List.length (get (Doc.objects data) []) + 9 <= fuel)%nat ->
  exists p,
    parse_tags fuel
      (pre ++ layout_tag4 (get (Doc.objects data) [])
           ++ layout_properties (get (Doc.objects data) [])
           ++ layout_footer data)
      (mk_locals (len pre) [] [] [] [] [] [] None None)
    = Ok (parsed_state data p).
Proof.
  intros Hfits Hfuel. unfold parsed_state. cbv zeta.
  destruct (fits_parts data Hfits) as (_ & Hn & Hprops & Hbg).
  destruct (get (Doc.objects data) []) as [|o1 [|o2 objects]] eqn:Hobjs.
  - destruct fuel as [|fuel]; [lia|].
    change (layout_tag4 []) with (@nil Z).
    change (layout_properties []) with (@nil Z). cbn [app].
    rewrite step_footer by (assumption || reflexivity). flat_state.
    now eexists.
  - replace fuel with (S (8 + (fuel - 9)))%nat by (cbn [List.length] in Hfuel; lia).
    rewrite step_tag4_single by reflexivity. flat_state.
    rewrite (app_assoc pre).
    destruct (parse_properties (fuel - 9) (pre ++ layout_tag4 [o1])
                (mk_locals (len (pre ++ layout_tag4 [o1])) [] [] [] [] [] []
                           (Some (flags_of o1)) None)
                data [o1] eq_refl ltac:(reflexivity) Hn Hprops Hbg)
      as (p & Hp).
    rewrite Hp. flat_state. cbn [app]. now exists p.
  - replace fuel with (S (List.length objects + (8 + (fuel - 9 - List.length objects))))%nat
      by (cbn [List.length] in Hfuel; lia).
    assert (Hpost : 0 < len (layout_properties (o1 :: o2 :: objects)
                             ++ layout_footer data)).
    { rewrite len_app. change (len (layout_footer data)) with 8.
      pose proof (len_nonneg (layout_properties (o1 :: o2 :: objects))). lia. }
    rewrite step_tag4_multi by (assumption || reflexivity).
    unfold set_pos. flat_state.
    rewrite (app_assoc pre).
    assert (Hpos_n : 0 < len (o1 :: o2 :: objects))
      by (len_simpl; pose proof (len_nonneg objects); lia).
    destruct (parse_properties (fuel - 9 - List.length objects)
                (pre ++ layout_tag4 (o1 :: o2 :: objects))
                (mk_locals (len (pre ++ layout_tag4 (o1 :: o2 :: objects)))
                           [] [] [] [] [] [] None None)
                data (o1 :: o2 :: objects) eq_refl Hpos_n Hn Hprops Hbg)
      as (p & Hp).
    rewrite Hp. flat_state. cbn [app].
    destruct (Z.eqb_spec (len (o1 :: o2 :: objects)) 1) as [E|_];
      [len_simpl; pose proof (len_nonneg objects); lia|].
    now exists p.
Qed.

(* ------------------------------------------------------------------ *)
(** ** The objects and the name the decoder reports *)

Lemma nth_error_map_mid {A B : Type} (f : A -> B) (done rest : list A) (a : A) :
  nth_error (map f (done ++ a :: rest)) (List.length done) = Some (f a).
Proof.
  rewrite map_app, nth_error_app2 by (rewrite length_map; lia).
  rewrite length_map, Nat.sub_diag. reflexivity.
Qed.

Lemma flags_hidden (obj : Obj.t) :
  (flags_of obj =? 0) = get (Obj.hidden obj) false.
Proof. unfold flags_of. now repeat destruct (get _ false). Qed.

Lemma flags_locked (obj : Obj.t) :
  negb (flags_of obj =? 0)
  && ((flags_of obj =? 9) || negb (Z.land (flags_of obj) 8 =? 0))
  = negb (get (Obj.hidden obj) false) && get (Obj.locked obj) false.
Proof. unfold flags_of. now repeat destruct (get _ false). Qed.

Lemma build_object_parsed (data : Doc.t) (p : Z) (done rest : list Obj.t)
      (obj : Obj.t) :
  get (Doc.objects data) [] = done ++ obj :: rest ->
  build_object (len (done ++ obj :: rest)) (parsed_state data p)
               (List.length done) (icon_id_of obj)
  = canon_obj (len (done ++ obj :: rest)) obj.
Proof.
  intros Hobjs. unfold build_object, parsed_state, canon_obj. cbv zeta.
  flat_state. rewrite Hobjs. rewrite !nth_error_map_mid.
  f_equal.
  - destruct (Z.eqb_spec (len (done ++ obj :: rest)) 1) as [E|_];
      [|reflexivity].
    destruct done as [|d done];
      [|exfalso; len_simpl; pose proof (len_nonneg done);
        pose proof (len_nonneg rest); lia].
    cbn [app nth andb]. now rewrite flags_hidden.
  - destruct (Z.eqb_spec (len (done ++ obj :: rest)) 1) as [E|_];
      [|reflexivity].
    destruct done as [|d done];
      [|exfalso; len_simpl; pose proof (len_nonneg done);
        pose proof (len_nonneg rest); lia].
    cbn [app nth andb]. now rewrite flags_locked.
Qed.

Lemma build_objects_parsed_from (data : Doc.t) (p : Z) (rest : list Obj.t) :
  forall done,
    get (Doc.objects data) [] = done ++ rest ->
    build_objects (len (done ++ rest)) (parsed_state data p)
                  (List.length done) (map icon_id_of rest)
    = map (canon_obj (len (done ++ rest))) rest.
Proof.
  induction rest as [|obj rest IH]; intros done Hobjs; [reflexivity|].
  cbn [map build_objects]. f_equal.
  - now apply build_object_parsed.
  - specialize (IH (done ++ [obj])).
    rewrite <- app_assoc in IH. cbn [app] in IH.
    rewrite length_app in IH. cbn [List.length] in IH.
    rewrite Nat.add_1_r in IH. now apply IH.
Qed.

Lemma build_objects_parsed (data : Doc.t) (p : Z) :
  build_objects (len (get (Doc.objects data) [])) (parsed_state data p) 0
                (map icon_id_of (get (Doc.objects data) []))
  = map (canon_obj (len (get (Doc.objects data) [])))
        (get (Doc.objects data) []).
Proof. now apply (build_objects_parsed_from data p _ []). Qed.

Lemma rstrip_clean {A : Type} (eqb : A -> A -> bool) (x : A) (l : list A) :
  (forall c, In c l -> eqb c x = false) -> rstrip eqb x l = l.
Proof.
  induction l as [|c l IH]; intros Hl; [reflexivity|].
  cbn [rstrip]. rewrite IH by (intros; apply Hl; now right).
  destruct l; [|reflexivity]. now rewrite Hl by now left.
Qed.

Lemma rstrip_padding {A : Type} (eqb : A -> A -> bool) (x : A) (k : nat) :
  eqb x x = true -> rstrip eqb x (repeat x k) = [].
Proof.
  intros Hx. induction k as [|k IH]; [reflexivity|].
  cbn [repeat rstrip]. now rewrite IH, Hx.
Qed.

Lemma rstrip_padded {A : Type} (eqb : A -> A -> bool) (x : A) (l : list A)
      (k : nat) :
  eqb x x = true -> (forall c, In c l -> eqb c x = false) ->
  rstrip eqb x (l ++ repeat x k) = l.
Proof.
  intros Hx. induction l as [|c l IH]; intros Hl.
  - now apply rstrip_padding.
  - cbn [app rstrip]. rewrite IH by (intros; apply Hl; now right).
    destruct l; [|reflexivity]. now rewrite Hl by now left.
Qed.

Lemma lstrip_clean {A : Type} (eqb : A -> A -> bool) (x : A) (l : list A) :
  (forall c, In c l -> eqb c x = false) -> lstrip eqb x l = l.
Proof.
  destruct l as [|c l]; intros Hl; [reflexivity|].
  cbn [lstrip]. now rewrite Hl by now left.
Qed.

Lemma In_firstn {A : Type} (n : nat) (l : list A) (a : A) :
  In a (firstn n l) -> In a l.
Proof.
  revert l. induction n as [|n IH]; intros [|x l]; cbn [firstn In]; try tauto.
  intros [->|H]; [now left|right; now apply IH].
Qed.

Lemma utf8_encode_ascii (cs : list ascii) :
  (forall c, In c cs -> ord c < 128) -> utf8_encode cs = map ord cs.
Proof.
  unfold utf8_encode. induction cs as [|c cs IH]; intros H; [reflexivity|].
  cbn [flat_map map].
  destruct (Z.ltb_spec (ord c) 128);
    [|exfalso; pose proof (H c ltac:(now left)); lia].
  cbn [app]. rewrite IH by (intros; apply H; now right). reflexivity.
Qed.

Section NameField.

Variable utf8_decode : list Z -> string.

(** On ASCII bytes other than NUL the decoder is the identity. *)
Hypothesis utf8_decode_ascii : forall b,
  Forall (fun x => 0 < x < 128) b ->
  utf8_decode b = string_of_list_ascii (map chr b).

Lemma name_read_back (data : Doc.t) :
  name_plain data = true ->
  strip_nul (utf8_decode (rstrip Z.eqb 0 (name_bytes data)))
  = string_of_list_ascii
      (firstn 7 (str (get (Doc.name data) "board"%string))).
Proof.
  unfold name_plain, name_bytes. intros Hplain.
  rewrite forallb_forall in Hplain.
  set (cs := firstn 7 (str (get (Doc.name data) "board"%string))).
  assert (Hcs : forall c, In c cs -> 1 <= ord c < 128).
  { intros c Hc. apply In_firstn in Hc. specialize (Hplain c Hc).
    apply andb_true_iff in Hplain. destruct Hplain as [H1 H2].
    apply Z.leb_le in H1. apply Z.ltb_lt in H2. lia. }
  rewrite utf8_encode_ascii by (intros c Hc; specialize (Hcs c Hc); lia).
  rewrite firstn_all2
    by (rewrite length_map; unfold cs; rewrite length_firstn; lia).
  unfold ljust. rewrite rstrip_padded.
  - rewrite utf8_decode_ascii.
    + rewrite map_map. rewrite (map_ext _ (fun c => c)) by apply chr_ord.
      rewrite map_id. unfold strip_nul. rewrite str_of_list.
      assert (Hnz : forall c, In c cs -> Ascii.eqb c zero = false).
      { intros c Hc. apply Ascii.eqb_neq. intros ->.
        specialize (Hcs _ Hc). change (ord zero) with 0 in Hcs. lia. }
      now rewrite lstrip_clean, rstrip_clean.
    + apply Forall_forall. intros x Hx. apply in_map_iff in Hx.
      destruct Hx as (c & <- & Hc). specialize (Hcs c Hc). lia.
  - reflexivity.
  - intros x Hx. apply in_map_iff in Hx. destruct Hx as (c & <- & Hc).
    specialize (Hcs c Hc). apply Z.eqb_neq. lia.
Qed.

End NameField.

(** The first word after the icon list is a tag, never the marker 2. *)
Lemma after_icons (data : Doc.t) :
  exists tag rest,
    layout_tag4 (get (Doc.objects data) [])
    ++ layout_properties (get (Doc.objects data) []) ++ layout_footer data
    = le16 tag ++ rest
    /\ u16 tag = true /\ tag <> 2.
Proof.
  set (objects := get (Doc.objects data) []).
  unfold layout_tag4. pose proof (len_nonneg objects).
  destruct (Z.eqb_spec (len objects) 0) as [E|N].
  - exists 3. eexists. split; [|split; [reflexivity|lia]].
    unfold layout_properties. destruct (Z.gtb_spec (len objects) 0); [lia|].
    unfold layout_footer. reflexivity.
  - exists 4.
    destruct (len objects =? 1); eexists;
      (split; [|split; [reflexivity|lia]]);
      rewrite <- !app_assoc; reflexivity.
Qed.

Section ParseBuilt.

Variable utf8_decode : list Z -> string.

Hypothesis utf8_decode_ascii : forall b,
  Forall (fun x => 0 < x < 128) b ->
  utf8_decode b = string_of_list_ascii (map chr b).

(** [parse_binary] on what [build_binary] returned. *)
Lemma parse_patched_layout (data : Doc.t) :
  fits data = true -> name_plain data = true ->
  parse_binary utf8_decode (patch (layout data)) = Ok (canon data).
Proof.
  intros Hfits Hplain.
  destruct (fits_parts data Hfits) as (Hicons & Hn & _ & _).
  pose proof (len_patch_layout data) as HL.
  pose proof (len_layout data) as HL'. cbv zeta in HL'.
  rewrite patched_layout in *.
  set (objects := get (Doc.objects data) []) in *.
  set (f04 := le32 (len (layout data) - 16)) in *.
  set (f12 := le32 (len (layout data) - 28)) in *.
  unfold parse_binary.
  (* the version *)
  match goal with
  | |- context [Struct.unpack_from_I ([2; 0; 0; 0] ++ ?rest) 0] =>
      change (Struct.unpack_from_I ([2; 0; 0; 0] ++ rest) 0)
        with (Struct.unpack_from_I ([] ++ le32 2 ++ rest) 0);
      rewrite (unpack_I_at [] rest 0 2 eq_refl)
  end.
  cbn [bind].
  (* the fuel covers every step *)
  match goal with
  | |- context [parse_icons (S (List.length ?d)) _ 36 []] =>
      assert (Hfuel : (List.length objects + 9 <= S (List.length d))%nat);
      [|set (fuel := S (List.length d)) in *]
  end.
  { pose proof (len_nonneg objects).
    pose proof (Z.mod_pos_bound (len objects) 2 ltac:(lia)).
    destruct (len objects =? 0) eqn:E0 in HL'.
    - apply Z.eqb_eq in E0. unfold len in *. lia.
    - unfold len in *. lia. }
  (* the icon list *)
  match goal with
  | |- context [parse_icons ?fuel ?d 36 []] =>
      assert (Hicons_read :
                parse_icons fuel d 36 []
                = Ok (len ([2; 0; 0; 0] ++ f04 ++ repeat 0 10 ++ f12 ++ [0; 0]
                           ++ [1; 0] ++ [8; 0] ++ name_bytes data
                           ++ layout_icons objects),
                      map icon_id_of objects))
  end.
  { destruct (after_icons data) as (tag & rest & Hrest & Htag & Hne).
    fold objects in Hrest. rewrite Hrest.
    replace ([2; 0; 0; 0] ++ f04 ++ repeat 0 10 ++ f12 ++ [0; 0] ++ [1; 0]
             ++ [8; 0] ++ name_bytes data ++ layout_icons objects
             ++ le16 tag ++ rest)
      with (([2; 0; 0; 0] ++ f04 ++ repeat 0 10 ++ f12 ++ [0; 0] ++ [1; 0]
             ++ [8; 0] ++ name_bytes data) ++ layout_icons objects
            ++ le16 tag ++ rest)
      by (now rewrite <- !app_assoc).
    replace 36
      with (len ([2; 0; 0; 0] ++ f04 ++ repeat 0 10 ++ f12 ++ [0; 0] ++ [1; 0]
                 ++ [8; 0] ++ name_bytes data))
      by (rewrite !len_app, len_name_bytes; reflexivity).
    rewrite parse_icons_at; try assumption.
    - f_equal. f_equal. rewrite !len_app, len_layout_icons. lia.
    - lia. }
  rewrite Hicons_read. cbn [bind fst snd]. clear Hicons_read.
  (* the sections *)
  match goal with
  | |- context [parse_tags ?fuel ?d ?st] =>
      assert (Htags : exists p, parse_tags fuel d st = Ok (parsed_state data p))
  end.
  { replace ([2; 0; 0; 0] ++ f04 ++ repeat 0 10 ++ f12 ++ [0; 0] ++ [1; 0]
             ++ [8; 0] ++ name_bytes data ++ layout_icons objects
             ++ layout_tag4 objects ++ layout_properties objects
             ++ layout_footer data)
      with (([2; 0; 0; 0] ++ f04 ++ repeat 0 10 ++ f12 ++ [0; 0] ++ [1; 0]
             ++ [8; 0] ++ name_bytes data ++ layout_icons objects)
            ++ layout_tag4 objects ++ layout_properties objects
            ++ layout_footer data)
      by (now rewrite <- !app_assoc).
    apply parse_tags_layout; [assumption|]. exact Hfuel. }
  destruct Htags as (p & ->). cbn [bind].
  (* the document *)
  unfold canon. cbv zeta. fold objects. f_equal. f_equal.
  - f_equal. change (firstn 8 (skipn 28 ?l))
      with (firstn 8 (skipn 28 l)).
    assert (Hname : firstn 8 (skipn 28
                ([2; 0; 0; 0] ++ f04 ++ repeat 0 10 ++ f12 ++ [0; 0]
                 ++ [1; 0] ++ [8; 0] ++ name_bytes data
                 ++ layout_icons objects ++ layout_tag4 objects
                 ++ layout_properties objects ++ layout_footer data))
                    = name_bytes data).
    { replace ([2; 0; 0; 0] ++ f04 ++ repeat 0 10 ++ f12 ++ [0; 0] ++ [1; 0]
               ++ [8; 0] ++ name_bytes data ++ layout_icons objects
               ++ layout_tag4 objects ++ layout_properties objects
               ++ layout_footer data)
        with (([2; 0; 0; 0] ++ f04 ++ repeat 0 10 ++ f12 ++ [0; 0] ++ [1; 0]
               ++ [8; 0]) ++ name_bytes data
              ++ (layout_icons objects ++ layout_tag4 objects
                  ++ layout_properties objects ++ layout_footer data))
        by (now rewrite <- !app_assoc).
      rewrite skipn_app, skipn_all2 by (cbn; lia).
      change (28 - List.length _)%nat with 0%nat. cbn [skipn app].
      rewrite firstn_app.
      pose proof (len_name_bytes data) as Hlen. unfold len in Hlen.
      rewrite firstn_all2 by lia.
      replace (8 - List.length (name_bytes data))%nat with 0%nat by lia.
      cbn [firstn]. apply app_nil_r. }
    rewrite Hname. now apply name_read_back.
  - f_equal. unfold len. rewrite length_map. apply build_objects_parsed.
Qed.

End ParseBuilt.

(* ------------------------------------------------------------------ *)
(** ** Encoding, then decoding *)

Lemma decode_ascii_spec (b : list Z) :
  Forall (fun x => 0 < x < 128) b ->
  decode_ascii b = string_of_list_ascii (map chr b).
Proof.
  intros Hb. unfold decode_ascii. f_equal. apply map_ext_in.
  intros x Hx. rewrite Forall_forall in Hb. specialize (Hb x Hx).
  destruct (Z.ltb_spec x 128); [reflexivity|lia].
Qed.

Lemma land_u32 (x : Z) : u32 (Z.land x 4294967295) = true.
Proof.
  apply u32_true. change 4294967295 with (Z.ones 32).
  rewrite Z.land_ones by lia. apply Z.mod_pos_bound. lia.
Qed.


Section Roundtrip.

Variable zlib_compress : list Z -> Z -> list Z.
Variable zlib_crc32 : list Z -> Z.
Variable zlib_decompress : list Z -> outcome (list Z).
Variable utf8_decode : list Z -> string.

(** What the standard library is relied on for: decompression inverts
    compression, compression yields bytes, and decoding ASCII bytes other
    than NUL gives the characters with those codes. *)
Hypothesis zlib_inverse : forall b,
  bytes_ok b -> zlib_decompress (zlib_compress b 6) = Ok b.
Hypothesis zlib_bytes : forall b,
  bytes_ok b -> bytes_ok (zlib_compress b 6).
Hypothesis utf8_decode_ascii : forall b,
  Forall (fun x => 0 < x < 128) b ->
  utf8_decode b = string_of_list_ascii (map chr b).

(** The container level: what [encode_cipher] wraps, [decode_cipher]
    unwraps. *)
Lemma decode_encode_cipher (binary : list Z) (key : option Z) (randint : Z) :
  bytes_ok binary -> len binary < 65536 ->
  0 <= match key with None => randint | Some key => key end < 64 ->
  exists code,
    encode_cipher zlib_compress zlib_crc32 binary key randint = Ok code
    /\ decode_cipher zlib_decompress code = Ok binary.
Proof.
  intros Hb Hlen Hkey. unfold encode_cipher.
  pose proof (len_nonneg binary) as Hpos.
  rewrite pack_H_spec.
  replace (u16 (len binary)) with true by (symmetry; apply u16_true; lia).
  cbn [bind]. rewrite pack_I_spec, land_u32. cbn [bind].
  eexists. split; [reflexivity|].
  unfold decode_cipher. rewrite cipher_roundtrip_any.
  - cbn [bind]. rewrite <- app_assoc.
    change (skipn 6 (le32 ?c ++ le16 ?l ++ ?z)) with z.
    now apply zlib_inverse.
  - apply bytes_ok_app; [apply bytes_ok_app|].
    + apply bytes_ok_le32, land_u32.
    + apply bytes_ok_le16, u16_true. lia.
    + now apply zlib_bytes.
  - exact Hkey.
Qed.


End Roundtrip.


(** The decoder's own output for one tank is a fixed point. *)
Lemma canon_tank_board : canon tank_board = tank_board.
Proof. vm_compute. reflexivity. Qed.

(* ================================================================== *)
(** * Further properties of the encoder and the decoder *)

(* ------------------------------------------------------------------ *)
(** ** [build_binary] *)

(** The buffer [build_binary] returns has 44 bytes for an empty board and
    [92 + 23 n] bytes, plus one pad byte when [n] is odd, for a board of
    [n >= 1] objects. *)
Theorem build_binary_length (data : Doc.t) (buf : list Z) :
  build_binary data = Ok buf ->
  len buf = (let n := len (get (Doc.objects data) []) in
             if n =? 0 then 44 else 92 + 23 * n + n mod 2).
Proof.
  intros H. apply build_binary_ok in H. destruct H as [_ ->].
  rewrite len_patch_layout. apply len_layout.
Qed.

Lemma build_binary_length_witness :
  exists buf,
    build_binary tank_board = Ok buf
    /\ len buf = (let n := len (get (Doc.objects tank_board) []) in
                  if n =? 0 then 44 else 92 + 23 * n + n mod 2).
Proof.
  eexists. split; [vm_compute; reflexivity|].
  apply (build_binary_length tank_board). vm_compute. reflexivity.
Defined.


(** The header [build_binary] writes: version 2 at offset 0, a zero word
    at 0x16, the name length 8 at 0x1A, and at 0x1C the first 7 characters
    of the name, encoded and padded with NUL to 8 bytes. *)
Theorem build_binary_header (data : Doc.t) (buf : list Z) :
  build_binary data = Ok buf ->
  Struct.unpack_from_I buf 0 = Ok 2
  /\ Struct.unpack_from_H buf 22 = Ok 0
  /\ Struct.unpack_from_H buf 26 = Ok 8
  /\ firstn 8 (skipn 28 buf)
     = ljust 8 (firstn 8 (utf8_encode
          (firstn 7 (str (get (Doc.name data) "board"%string))))).
Proof.
  intros H. apply build_binary_ok in H. destruct H as [_ ->].
  rewrite patched_layout.
  set (f04 := le32 (len (layout data) - 16)).
  set (f12 := le32 (len (layout data) - 28)).
  set (body := layout_icons _ ++ _).
  split; [|split; [|split]].
  - apply (unpack_I_at [] _ 0 2). reflexivity.
  - replace ([2; 0; 0; 0] ++ f04 ++ repeat 0 10 ++ f12 ++ [0; 0] ++ [1; 0]
             ++ [8; 0] ++ name_bytes data ++ body)
      with (([2; 0; 0; 0] ++ f04 ++ repeat 0 10 ++ f12) ++ le16 0
            ++ ([1; 0] ++ [8; 0] ++ name_bytes data ++ body))
      by (now rewrite <- !app_assoc).
    apply unpack_H_at; reflexivity.
  - replace ([2; 0; 0; 0] ++ f04 ++ repeat 0 10 ++ f12 ++ [0; 0] ++ [1; 0]
             ++ [8; 0] ++ name_bytes data ++ body)
      with (([2; 0; 0; 0] ++ f04 ++ repeat 0 10 ++ f12 ++ [0; 0] ++ [1; 0])
            ++ le16 8 ++ (name_bytes data ++ body))
      by (now rewrite <- !app_assoc).
    apply unpack_H_at; reflexivity.
  - replace ([2; 0; 0; 0] ++ f04 ++ repeat 0 10 ++ f12 ++ [0; 0] ++ [1; 0]
             ++ [8; 0] ++ name_bytes data ++ body)
      with (([2; 0; 0; 0] ++ f04 ++ repeat 0 10 ++ f12 ++ [0; 0] ++ [1; 0]
             ++ [8; 0]) ++ name_bytes data ++ body)
      by (now rewrite <- !app_assoc).
    rewrite skipn_app, skipn_all2 by (cbn; lia).
    change (28 - List.length _)%nat with 0%nat. cbn [skipn app].
    rewrite firstn_app.
    pose proof (len_name_bytes data) as Hlen. unfold len in Hlen.
    rewrite firstn_all2 by lia.
    replace (8 - List.length (name_bytes data))%nat with 0%nat by lia.
    cbn [firstn]. apply app_nil_r.
Qed.

Lemma build_binary_header_witness :
  exists buf,
    build_binary named_board = Ok buf
    /\ Struct.unpack_from_I buf 0 = Ok 2
    /\ Struct.unpack_from_H buf 22 = Ok 0
    /\ Struct.unpack_from_H buf 26 = Ok 8
    /\ firstn 8 (skipn 28 buf)
       = ljust 8 (firstn 8 (utf8_encode
            (firstn 7 (str (get (Doc.name named_board) "board"%string))))).
Proof.
  eexists. split; [vm_compute; reflexivity|].
  apply (build_binary_header named_board). vm_compute. reflexivity.
Defined.

(** [build_binary] reads neither the [version] entry nor the name beyond
    its seventh character. *)
Theorem build_binary_ignores_version_and_long_name
        (version version' : option Z) (name : string)
        (board_background : option int_or_str)
        (objects : option (list Obj.t)) :
  build_binary (Doc.mk version (Some name) board_background objects)
  = build_binary
      (Doc.mk version'
              (Some (string_of_list_ascii (firstn 7 (str name))))
              board_background objects).
Proof.
  rewrite !build_binary_spec.
  assert (Hname : name_bytes (Doc.mk version (Some name) board_background
                                     objects)
                  = name_bytes
                      (Doc.mk version'
                         (Some (string_of_list_ascii (firstn 7 (str name))))
                         board_background objects)).
  { unfold name_bytes. cbn [Doc.name get]. rewrite str_of_list.
    now rewrite firstn_firstn. }
  unfold fits, layout, layout_header, layout_footer, board_bg_of. cbv zeta.
  cbn [Doc.objects Doc.board_background]. now rewrite Hname.
Qed.

(* ------------------------------------------------------------------ *)
(** ** [parse_binary] *)

Section ParseErrors.

Variable utf8_decode : list Z -> string.

(** On a byte buffer both loops of [parse_binary] end, and the only error
    it raises is [struct.error]: always when the buffer has fewer than 4
    bytes, and otherwise only at a tag-4 word that starts within the last
    7 bytes. *)
Theorem parse_binary_errors (data : list Z) (e : exn) :
  bytes_ok data ->
  (len data < 4 -> parse_binary utf8_decode data = Raise struct_error)
  /\ (parse_binary utf8_decode data = Raise e ->
      e = struct_error
      /\ (len data < 4
          \/ exists p, len data < p + 8
                       /\ Struct.unpack_from_H data p = Ok 4)).
Proof.
  intros Hb. split.
  - intros Hshort. unfold parse_binary. now rewrite unpack_I_short.
  - intros H. pose proof (parse_binary_outcome utf8_decode data Hb) as Hout.
    rewrite H in Hout. exact Hout.
Qed.

(** Every object [parse_binary] reports carries its icon code and the
    name of that code, a position and a size; it never carries the
    [color_r], [color_g], [color_b] or [knockback_horizontal] entries the
    encoder reads, and [hidden] and [locked] are never both set. *)
Theorem parsed_object_entries (data : list Z) (doc : Doc.t) :
  parse_binary utf8_decode data = Ok doc ->
  exists objects,
    Doc.objects doc = Some objects
    /\ Forall (fun o =>
         (exists icon_id, Obj.type_id o = Some icon_id
                          /\ Obj.type o = Some (idToName icon_id))
         /\ Obj.x o <> None /\ Obj.y o <> None /\ Obj.size o <> None
         /\ Obj.color_r o = None /\ Obj.color_g o = None
         /\ Obj.color_b o = None /\ Obj.knockback_horizontal o = None
         /\ Obj.hidden o <> Some false /\ Obj.locked o <> Some false
         /\ ~ (Obj.hidden o = Some true /\ Obj.locked o = Some true))
       objects.
Proof.
  intros H. destruct (parse_binary_objects utf8_decode data doc H)
    as (n & st & icons & Hobjs).
  exists (build_objects n st 0 icons). split; [exact Hobjs|].
  clear. generalize 0%nat as i. induction icons as [|icon_id icons IH];
    intros i; cbn [build_objects]; constructor; [|apply IH].
  unfold build_object.
  cbn [Obj.type_id Obj.type Obj.x Obj.y Obj.size Obj.color_r Obj.color_g
       Obj.color_b Obj.knockback_horizontal Obj.hidden Obj.locked].
  split; [now exists icon_id|].
  repeat (split; [discriminate || reflexivity|]).
  destruct (_flags st) as [flag_val|].
  - destruct (n =? 1), (flag_val =? 0); cbn [andb negb];
      repeat (split; [discriminate|]);
      try (intros [Hh Hl]; discriminate).
    all: destruct ((flag_val =? 9) || negb (Z.land flag_val 8 =? 0));
      repeat (split; [discriminate|]); intros [Hh Hl]; discriminate.
  - repeat (split; [discriminate|]). intros [Hh _]. discriminate.
Qed.

End ParseErrors.

Lemma parse_binary_errors_witness :
  (len [1; 2; 3] < 4 -> parse_binary decode_ascii [1; 2; 3] = Raise struct_error)
  /\ (parse_binary decode_ascii [1; 2; 3] = Raise struct_error ->
      struct_error = struct_error
      /\ (len [1; 2; 3] < 4
          \/ exists p, len [1; 2; 3] < p + 8
                       /\ Struct.unpack_from_H [1; 2; 3] p = Ok 4)).
Proof.
  apply (parse_binary_errors decode_ascii [1; 2; 3] struct_error).
  unfold bytes_ok, is_byte. repeat constructor; lia.
Defined.

Lemma parsed_object_entries_witness :
  exists objects,
    Doc.objects tank_board = Some objects
    /\ Forall (fun o =>
         (exists icon_id, Obj.type_id o = Some icon_id
                          /\ Obj.type o = Some (idToName icon_id))
         /\ Obj.x o <> None /\ Obj.y o <> None /\ Obj.size o <> None
         /\ Obj.color_r o = None /\ Obj.color_g o = None
         /\ Obj.color_b o = None /\ Obj.knockback_horizontal o = None
         /\ Obj.hidden o <> Some false /\ Obj.locked o <> Some false
         /\ ~ (Obj.hidden o = Some true /\ Obj.locked o = Some true))
       objects.
Proof.
  apply (parsed_object_entries decode_ascii
           (patch (layout tank_board)) tank_board).
  vm_compute. reflexivity.
Defined.

(* ------------------------------------------------------------------ *)
(** ** The container: [encode_cipher] and [decode_cipher] *)

Section Container.

Variable zlib_compress : list Z -> Z -> list Z.
Variable zlib_crc32 : list Z -> Z.

(** The only step of [encode_cipher] that can fail is packing the length. *)
Lemma encode_cipher_spec (binary_data : list Z) (key : option Z)
      (randint : Z) :
  encode_cipher zlib_compress zlib_crc32 binary_data key randint
  = if u16 (len binary_data)
    then Ok (CipherCodec.encode
               ((le32 (Z.land (zlib_crc32 (le16 (len binary_data)
                                           ++ zlib_compress binary_data 6))
                              4294967295)
                 ++ le16 (len binary_data))
                ++ zlib_compress binary_data 6)
               (match key with None => randint | Some key => key end))
    else Raise struct_error.
Proof.
  unfold encode_cipher. rewrite pack_H_spec.
  destruct (u16 (len binary_data)); [|reflexivity].
  cbn [bind]. now rewrite pack_I_spec, land_u32.
Qed.

Lemma u16_len (binary_data : list Z) :
  u16 (len binary_data) = (len binary_data <? 65536).
Proof.
  unfold u16. pose proof (len_nonneg binary_data) as H.
  apply Z.leb_le in H. now rewrite H.
Qed.

(** [encode_cipher] returns a share code exactly when the binary has at
    most 65535 bytes (its length is packed into 16 bits); otherwise it
    raises [struct.error]. *)
Theorem encode_cipher_length_limit (binary_data : list Z) (key : option Z)
        (randint : Z) :
  if len binary_data <? 65536
  then exists code,
         encode_cipher zlib_compress zlib_crc32 binary_data key randint
         = Ok code
  else encode_cipher zlib_compress zlib_crc32 binary_data key randint
       = Raise struct_error.
Proof.
  rewrite encode_cipher_spec, u16_len.
  destruct (len binary_data <? 65536); [|reflexivity].
  eexists. reflexivity.
Qed.


End Container.


Section ContainerRoundtrip.

Variable zlib_compress : list Z -> Z -> list Z.
Variable zlib_crc32 : list Z -> Z.
Variable zlib_decompress : list Z -> outcome (list Z).
Variable utf8_decode : list Z -> string.

Hypothesis zlib_inverse : forall b,
  bytes_ok b -> zlib_decompress (zlib_compress b 6) = Ok b.
Hypothesis zlib_bytes : forall b,
  bytes_ok b -> bytes_ok (zlib_compress b 6).
Hypothesis utf8_decode_ascii : forall b,
  Forall (fun x => 0 < x < 128) b ->
  utf8_decode b = string_of_list_ascii (map chr b).

(** For every byte string of at most 65535 bytes and every key in 0..63,
    given explicitly or drawn, [decode_cipher] returns what
    [encode_cipher] was given; the checksum field is not inspected. *)
Theorem container_roundtrip (binary_data : list Z) (key : option Z)
        (randint : Z) :
  bytes_ok binary_data -> len binary_data < 65536 ->
  0 <= match key with None => randint | Some key => key end < 64 ->
  exists code,
    encode_cipher zlib_compress zlib_crc32 binary_data key randint = Ok code
    /\ decode_cipher zlib_decompress code = Ok binary_data.
Proof.
  intros Hb Hlen Hkey.
  now apply (decode_encode_cipher zlib_compress zlib_crc32 zlib_decompress
               zlib_inverse zlib_bytes).
Qed.

(** The key does not matter to the decoder: the share codes of one
    document under any two keys decode to the same document. *)
Theorem decoding_independent_of_key (data : Doc.t) (k1 k2 : Z)
        (c1 c2 : string) :
  fits data = true ->
  0 <= k1 < 64 -> 0 <= k2 < 64 ->
  encode_stgy zlib_compress zlib_crc32 data k1 = Ok c1 ->
  encode_stgy zlib_compress zlib_crc32 data k2 = Ok c2 ->
  decode_stgy zlib_decompress utf8_decode c1
  = decode_stgy zlib_decompress utf8_decode c2.
Proof.
  intros Hfits Hk1 Hk2. unfold encode_stgy, decode_stgy.
  rewrite build_binary_spec, Hfits. cbn [bind]. intros E1 E2.
  pose proof (bytes_ok_patch_layout data Hfits) as Hb.
  assert (Hlen : len (patch (layout data)) < 65536).
  { rewrite encode_cipher_spec, u16_len in E1.
    destruct (Z.ltb_spec (len (patch (layout data))) 65536); [assumption|].
    discriminate. }
  destruct (decode_encode_cipher zlib_compress zlib_crc32 zlib_decompress
              zlib_inverse zlib_bytes (patch (layout data)) None k1 Hb Hlen Hk1)
    as (c1' & E1' & D1).
  destruct (decode_encode_cipher zlib_compress zlib_crc32 zlib_decompress
              zlib_inverse zlib_bytes (patch (layout data)) None k2 Hb Hlen Hk2)
    as (c2' & E2' & D2).
  rewrite E1 in E1'. injection E1' as <-.
  rewrite E2 in E2'. injection E2' as <-.
  now rewrite D1, D2.
Qed.

End ContainerRoundtrip.

Lemma container_roundtrip_witness :
  exists code,
    encode_cipher store_compress zero_crc32 [1; 2; 3] (Some 5) 0 = Ok code
    /\ decode_cipher store_decompress code = Ok [1; 2; 3].
Proof.
  apply (container_roundtrip store_compress zero_crc32 store_decompress).
  - intros b _. reflexivity.
  - intros b Hb. exact Hb.
  - unfold bytes_ok, is_byte. repeat constructor; lia.
  - vm_compute. reflexivity.
  - cbn. lia.
Defined.

Lemma decoding_independent_of_key_witness :
  decode_stgy store_decompress decode_ascii tank_code
  = decode_stgy store_decompress decode_ascii
      (match encode_stgy store_compress zero_crc32 tank_board 40 with
       | Ok code => code
       | Raise _ => EmptyString
       end).
Proof.
  apply (decoding_independent_of_key store_compress zero_crc32
           store_decompress decode_ascii
           (fun b _ => eq_refl) (fun b Hb => Hb)
           tank_board 17 40).
  - vm_compute. reflexivity.
  - lia.
  - lia.
  - vm_compute. reflexivity.
  - vm_compute. reflexivity.
Defined.

(* ------------------------------------------------------------------ *)
(** ** The cipher: alphabet, tables and wrapper *)

(** [char_to_base64_value] inverts [base64_value_to_char] on every
    integer: the character of [val] has the value [val mod 64]. *)
Theorem base64_value_of_char (val : Z) :
  char_to_base64_value (base64_value_to_char val) = val mod 64.
Proof.
  assert (Hmask : base64_value_to_char val = base64_value_to_char (val mod 64)).
  { unfold base64_value_to_char. rewrite !land_63.
    now rewrite Z.mod_mod by lia. }
  rewrite Hmask. apply value_of_char_of_value.
  apply Z.mod_pos_bound. lia.
Qed.

(** The two substitution tables are inverse to each other on the 64
    characters of the URL-safe alphabet, and each of these characters has
    an entry in [FORWARD_DAT], so the encoder never falls back to [A]. *)
Theorem substitution_tables_inverse (val : Z) :
  let c := ord (base64_value_to_char val) in
  exists s, dict_find FORWARD_DAT c = Some s
            /\ dict_find INVERSE_DAT s = Some c.
Proof.
  cbv zeta.
  assert (Hmask : base64_value_to_char val = base64_value_to_char (val mod 64)).
  { unfold base64_value_to_char. rewrite !land_63.
    now rewrite Z.mod_mod by lia. }
  rewrite Hmask.
  assert (Hall : forallb
            (fun v =>
               match dict_find FORWARD_DAT (ord (base64_value_to_char v)) with
               | Some s =>
                   match dict_find INVERSE_DAT s with
                   | Some c => c =? ord (base64_value_to_char v)
                   | None => false
                   end
               | None => false
               end) (range 64) = true) by (vm_compute; reflexivity).
  pose proof (range_forallb 64 _ Hall (val mod 64)
                (Z.mod_pos_bound val 64 ltac:(lia))) as H.
  cbv beta in H.
  destruct (dict_find FORWARD_DAT (ord (base64_value_to_char (val mod 64))))
    as [s|]; [|discriminate].
  exists s. split; [reflexivity|].
  destruct (dict_find INVERSE_DAT s) as [c|]; [|discriminate].
  apply Z.eqb_eq in H. now subst c.
Qed.

(** Every key in 0..63 has a key character of its own in [KEY_REVERSE],
    from which the decoder's table gives the key back. *)
Theorem key_character_roundtrip (key : Z) :
  0 <= key < 64 ->
  exists source k,
    dict_find KEY_REVERSE (ord (base64_value_to_char key)) = Some source
    /\ Struct.index DAT_1420cf520 (ord (chr source)) = Ok k
    /\ char_to_base64_value (chr k) = key.
Proof.
  intros Hkey.
  assert (Hall : forallb
            (fun key =>
               match dict_find KEY_REVERSE (ord (base64_value_to_char key)) with
               | Some source =>
                   match Struct.index DAT_1420cf520 (ord (chr source)) with
                   | Ok k => char_to_base64_value (chr k) =? key
                   | Raise _ => false
                   end
               | None => false
               end) (range 64) = true) by (vm_compute; reflexivity).
  pose proof (range_forallb 64 _ Hall key Hkey) as H. cbv beta in H.
  destruct (dict_find KEY_REVERSE (ord (base64_value_to_char key)))
    as [source|]; [|discriminate].
  destruct (Struct.index DAT_1420cf520 (ord (chr source))) as [k|] eqn:Hk;
    [|discriminate].
  exists source, k. split; [reflexivity|]. split; [exact Hk|].
  now apply Z.eqb_eq.
Qed.

Lemma key_character_roundtrip_witness :
  exists source k,
    dict_find KEY_REVERSE (ord (base64_value_to_char 37)) = Some source
    /\ Struct.index DAT_1420cf520 (ord (chr source)) = Ok k
    /\ char_to_base64_value (chr k) = 37.
Proof. apply (key_character_roundtrip 37). lia. Defined.

(** The cipher level of the decoder reads nothing of the wrapper: two
    strings with the same payload between any seven leading characters and
    any last character decode alike. *)
Theorem cipher_decode_ignores_wrapper (pre1 pre2 payload : list ascii)
        (c1 c2 : ascii) :
  List.length pre1 = 7%nat -> List.length pre2 = 7%nat ->
  CipherCodec.decode (string_of_list_ascii (pre1 ++ payload ++ [c1]))
  = CipherCodec.decode (string_of_list_ascii (pre2 ++ payload ++ [c2])).
Proof.
  intros H1 H2. unfold CipherCodec.decode.
  now rewrite !str_of_list, !slice_wrapped by assumption.
Qed.

Lemma cipher_decode_ignores_wrapper_witness :
  CipherCodec.decode
    (string_of_list_ascii (str "[stgy:a" ++ str "kAbc" ++ [ "]"%char ]))
  = CipherCodec.decode
      (string_of_list_ascii (str "0123456" ++ str "kAbc" ++ [ "?"%char ])).
Proof.
  apply (cipher_decode_ignores_wrapper (str "[stgy:a") (str "0123456")).
  - reflexivity.
  - reflexivity.
Defined.

(* ------------------------------------------------------------------ *)
(** ** The shape of a share code *)

Lemma len_sextets (b : list Z) : len (sextets b) = (4 * len b + 2) / 3.
Proof.
  induction b as [|x|x y|x y z b IH] using list_ind3.
  - reflexivity.
  - reflexivity.
  - reflexivity.
  - change (sextets (x :: y :: z :: b))
      with (x / 4 :: (x mod 4) * 16 + y / 16 :: (y mod 16) * 4 + z / 64
            :: z mod 64 :: sextets b).
    rewrite !len_cons, IH. Z.div_mod_to_equations. lia.
Qed.

Lemma len_map {A B : Type} (f : A -> B) (l : list A) :
  len (map f l) = len l.
Proof. unfold len. now rewrite length_map. Qed.

Lemma len_encode_loop (cs : list ascii) (i key : Z) :
  len (CipherCodec.encode_loop cs i key) = len cs.
Proof.
  revert i. induction cs as [|c cs IH]; intros i; [reflexivity|].
  cbn [CipherCodec.encode_loop]. now rewrite !len_cons, IH.
Qed.

Lemma masked_char (v : Z) :
  base64_value_to_char v = base64_value_to_char (v mod 64).
Proof.
  unfold base64_value_to_char. rewrite !land_63.
  now rewrite Z.mod_mod by lia.
Qed.

Lemma substituted_has_inverse (v : Z) :
  exists s,
    dict_find INVERSE_DAT
      (ord (chr (dict_get FORWARD_DAT (ord (base64_value_to_char v))
                          (ord "A"%char)))) = Some s.
Proof.
  rewrite masked_char.
  assert (Hall : forallb
            (fun v =>
               match dict_find INVERSE_DAT
                       (ord (chr (dict_get FORWARD_DAT
                                    (ord (base64_value_to_char v))
                                    (ord "A"%char)))) with
               | Some _ => true
               | None => false
               end) (range 64) = true) by (vm_compute; reflexivity).
  pose proof (range_forallb 64 _ Hall (v mod 64)
                (Z.mod_pos_bound v 64 ltac:(lia))) as H.
  cbv beta in H.
  destruct (dict_find INVERSE_DAT _) as [s|]; [|discriminate].
  now exists s.
Qed.

Lemma key_char_has_inverse (key : Z) :
  exists s, dict_find INVERSE_DAT (ord (key_char_of key)) = Some s.
Proof.
  unfold key_char_of. rewrite masked_char.
  assert (Hall : forallb
            (fun v =>
               match dict_find INVERSE_DAT
                       (ord (chr (dict_get KEY_REVERSE
                                    (ord (base64_value_to_char v))
                                    (ord "V"%char)))) with
               | Some _ => true
               | None => false
               end) (range 64) = true) by (vm_compute; reflexivity).
  pose proof (range_forallb 64 _ Hall (key mod 64)
                (Z.mod_pos_bound key 64 ltac:(lia))) as H.
  cbv beta in H.
  destruct (dict_find INVERSE_DAT _) as [s|]; [|discriminate].
  now exists s.
Qed.

Lemma encode_loop_has_inverse (cs : list ascii) (i key : Z) :
  Forall (fun c => exists s, dict_find INVERSE_DAT (ord c) = Some s)
         (CipherCodec.encode_loop cs i key).
Proof.
  revert i. induction cs as [|c cs IH]; intros i; cbn [CipherCodec.encode_loop].
  - constructor.
  - constructor; [apply substituted_has_inverse | apply IH].
Qed.

Section ShareCodeShape.

Variable zlib_compress : list Z -> Z -> list Z.
Variable zlib_crc32 : list Z -> Z.

(** A share code [encode_cipher] returns is [[stgy:a], a key character,
    the payload and []].  The payload has one character for every 6 bits
    of the 6-byte header and the compressed data (no padding character is
    left), and the key character and every payload character are among
    the 64 characters [INVERSE_DAT] has an entry for, so that the decoder
    never falls back to its default. *)
Theorem share_code_shape (binary_data : list Z) (key : option Z)
        (randint : Z) (code : string) :
  bytes_ok (zlib_compress binary_data 6) ->
  encode_cipher zlib_compress zlib_crc32 binary_data key randint = Ok code ->
  exists key_char payload,
    str code = (str "[stgy:a" ++ (key_char :: payload) ++ [ "]"%char ])%list
    /\ len payload = (4 * (6 + len (zlib_compress binary_data 6)) + 2) / 3
    /\ Forall (fun c => exists s, dict_find INVERSE_DAT (ord c) = Some s)
              (key_char :: payload).
Proof.
  intros Hz. rewrite encode_cipher_spec.
  destruct (u16 (len binary_data)) eqn:Hlen; [|discriminate].
  match goal with
  | |- Ok (CipherCodec.encode ?f _) = _ -> _ => set (full_data := f)
  end.
  assert (Hb : bytes_ok full_data).
  { apply bytes_ok_app; [apply bytes_ok_app|].
    - apply bytes_ok_le32, land_u32.
    - now apply bytes_ok_le16.
    - exact Hz. }
  assert (Hl : len full_data = 6 + len (zlib_compress binary_data 6)).
  { unfold full_data. rewrite !len_app, len_le32, len_le16. lia. }
  clearbody full_data. intros H. injection H as <-.
  rewrite encode_chars by assumption.
  eexists. eexists. split; [reflexivity|]. split.
  - now rewrite len_encode_loop, len_map, len_sextets, Hl.
  - constructor; [apply key_char_has_inverse | apply encode_loop_has_inverse].
Qed.

End ShareCodeShape.

Lemma share_code_shape_witness :
  exists key_char payload,
    str (tank_code)
    = (str "[stgy:a" ++ (key_char :: payload) ++ [ "]"%char ])%list
    /\ len payload
       = (4 * (6 + len (store_compress (patch (layout tank_board)) 6)) + 2) / 3
    /\ Forall (fun c => exists s, dict_find INVERSE_DAT (ord c) = Some s)
              (key_char :: payload).
Proof.
  apply (share_code_shape store_compress zero_crc32
           (patch (layout tank_board)) None 17 tank_code).
  - apply bytes_ok_patch_layout. vm_compute. reflexivity.
  - vm_compute. reflexivity.
Defined.

(* ------------------------------------------------------------------ *)
(** ** Encoding what the decoder reports *)

Lemma py_int_div10 (v : Z) : py_int (div10 v * 10)%Q = v.
Proof.
  unfold py_int, div10.
  pose proof (Qred_correct (v # 10)) as H. unfold Qeq in H.
  destruct (Qred (v # 10)) as [a b]. cbn in H |- *.
  replace (a * 10) with (v * Z.pos b) by lia.
  rewrite Pos.mul_1_r. apply Z.quot_mul. discriminate.
Qed.

Lemma unpack_h_range (data : list Z) (pos v : Z) :
  bytes_ok data -> Struct.unpack_from_h data pos = Ok v -> i16 v = true.
Proof.
  intros Hb. unfold Struct.unpack_from_h.
  destruct (Struct.unpack_from_H data pos) as [u|] eqn:Hu; [|discriminate].
  apply (unpack_H_range _ _ _ Hb) in Hu. cbn [bind].
  intros H. apply i16_true.
  assert (v = if u <? 32768 then u else u - 65536) as -> by congruence.
  destruct (Z.ltb_spec u 32768); lia.
Qed.

Lemma unpack_H_u16 (data : list Z) (pos v : Z) :
  bytes_ok data -> Struct.unpack_from_H data pos = Ok v -> u16 v = true.
Proof.
  intros Hb H. apply u16_true. now apply (unpack_H_range data pos).
Qed.

Lemma index_u8 (data : list Z) (pos v : Z) :
  bytes_ok data -> Struct.index data pos = Ok v -> u8 v = true.
Proof.
  intros Hb. unfold Struct.index.
  destruct ((0 <=? pos) && (pos <? len data)); [|discriminate].
  intros H. apply u8_true.
  assert (v = Struct.byte_at data pos) as -> by (unfold Struct.byte_at; congruence).
  now apply byte_at_range.
Qed.

Lemma Forall_snoc {A : Type} (P : A -> Prop) (l : list A) (x : A) :
  Forall P l -> P x -> Forall P (l ++ [x]).
Proof. intros Hl Hx. apply Forall_app. split; [assumption|]. now constructor. Qed.

Section Ranges.

Variable data : list Z.
Hypothesis data_bytes : bytes_ok data.

Lemma read_positions_range (count : nat) :
  forall pos acc r,
    Forall (fun p => i16 (py_int (fst p * 10)%Q) = true
                     /\ i16 (py_int (snd p * 10)%Q) = true) acc ->
    read_positions count data pos acc = Ok r ->
    Forall (fun p => i16 (py_int (fst p * 10)%Q) = true
                     /\ i16 (py_int (snd p * 10)%Q) = true) (snd r).
Proof.
  induction count as [|count IH]; intros pos acc r Hacc; cbn [read_positions].
  - intros H. injection H as <-. exact Hacc.
  - destruct (pos + 4 >? len data).
    + intros H. injection H as <-. exact Hacc.
    + destruct (Struct.unpack_from_h data pos) as [x|] eqn:Hx;
        [|discriminate].
      destruct (Struct.unpack_from_h data (pos + 2)) as [y|] eqn:Hy;
        [|discriminate].
      cbn [bind]. apply IH. apply Forall_snoc; [exact Hacc|].
      cbn [fst snd]. rewrite !py_int_div10.
      split; eapply unpack_h_range; eassumption.
Qed.

Lemma read_H_values_range (count : nat) :
  forall pos acc r,
    Forall (fun v => u16 v = true) acc ->
    read_H_values count data pos acc = Ok r ->
    Forall (fun v => u16 v = true) (snd r).
Proof.
  induction count as [|count IH]; intros pos acc r Hacc; cbn [read_H_values].
  - intros H. injection H as <-. exact Hacc.
  - destruct (pos + 2 >? len data).
    + intros H. injection H as <-. exact Hacc.
    + destruct (Struct.unpack_from_H data pos) as [v|] eqn:Hv;
        [|discriminate].
      cbn [bind]. apply IH. apply Forall_snoc; [exact Hacc|].
      eapply unpack_H_u16; eassumption.
Qed.

Lemma read_colors_range (count : nat) :
  forall pos acc r,
    Forall (fun c : Z * Z * Z * Z => u8 (snd c) = true) acc ->
    read_colors count data pos acc = Ok r ->
    Forall (fun c : Z * Z * Z * Z => u8 (snd c) = true) (snd r).
Proof.
  induction count as [|count IH]; intros pos acc r Hacc; cbn [read_colors].
  - intros H. injection H as <-. exact Hacc.
  - destruct (pos + 4 >? len data).
    + intros H. injection H as <-. exact Hacc.
    + destruct (Struct.index data pos) as [r0|]; [|discriminate].
      destruct (Struct.index data (pos + 1)) as [g0|]; [|discriminate].
      destruct (Struct.index data (pos + 2)) as [b0|]; [|discriminate].
      destruct (Struct.index data (pos + 3)) as [a0|] eqn:Ha; [|discriminate].
      cbn [bind]. apply IH. apply Forall_snoc; [exact Hacc|].
      cbn [snd]. eapply index_u8; eassumption.
Qed.

Lemma parse_icons_range (fuel : nat) :
  forall pos icons r,
    Forall (fun v => u16 v = true) icons ->
    parse_icons fuel data pos icons = Ok r ->
    Forall (fun v => u16 v = true) (snd r).
Proof.
  induction fuel as [|fuel IH]; intros pos icons r Hacc; cbn [parse_icons];
    [discriminate|].
  destruct (pos <? len data - 4).
  - destruct (Struct.unpack_from_H data pos) as [marker|]; [|discriminate].
    cbn [bind]. destruct (negb (marker =? 2)).
    + intros H. injection H as <-. exact Hacc.
    + destruct (Struct.unpack_from_H data (pos + 2)) as [icon_id|] eqn:Hid;
        [|discriminate].
      cbn [bind]. apply IH. apply Forall_snoc; [exact Hacc|].
      eapply unpack_H_u16; eassumption.
  - intros H. injection H as <-. exact Hacc.
Qed.

Ltac tag_section IH :=
  match goal with
  | |- (if ?c then _ else _) = _ -> _ =>
      destruct c; [intros H; injection H as <-; assumption|]
  end;
  match goal with
  | |- context [Struct.unpack_from_H data ?p] =>
      destruct (Struct.unpack_from_H data p) as [count|]; [|discriminate]
  end;
  cbn [bind].

Lemma parse_tags_range (fuel : nat) :
  forall st st',
    locals_in_range st -> parse_tags fuel data st = Ok st' ->
    locals_in_range st'.
Proof.
  induction fuel as [|fuel IH]; intros st st' Hst; cbn [parse_tags];
    [discriminate|].
  destruct (pos st <? len data - 2);
    [|intros H; injection H as <-; exact Hst].
  destruct (Struct.unpack_from_H data (pos st)) as [tag|]; [|discriminate].
  cbn [bind].
  destruct Hst as (Hp & Hbg & Hc & Ha & Hd).
  assert (Hst : locals_in_range st) by (repeat split; assumption).
  destruct (tag =? 4).
  { destruct (Struct.unpack_from_H data (pos st + 4)) as [count_val|];
      [|discriminate].
    cbn [bind]. destruct (count_val >? 1).
    - apply IH. exact Hst.
    - destruct (Struct.unpack_from_H data (pos st + 6)) as [flag_val|];
        [|discriminate].
      cbn [bind]. apply IH. exact Hst. }
  destruct (tag =? 5).
  { tag_section IH.
    destruct (read_positions _ data _ _) as [r|] eqn:Hr; [|discriminate].
    cbn [bind]. apply IH. repeat split; try assumption.
    cbn [positions]. refine (read_positions_range _ _ _ _ _ Hr); assumption. }
  destruct (tag =? 6).
  { tag_section IH.
    destruct (read_H_values _ data _ _) as [r|] eqn:Hr; [|discriminate].
    cbn [bind]. apply IH. repeat split; try assumption.
    cbn [backgrounds]. refine (read_H_values_range _ _ _ _ _ Hr); assumption. }
  destruct (tag =? 7).
  { tag_section IH.
    destruct (read_sizes _ data _ _) as [r|] eqn:Hr; [|discriminate].
    cbn [bind]. apply IH. exact Hst. }
  destruct (tag =? 8).
  { tag_section IH.
    destruct (read_colors _ data _ _) as [r|] eqn:Hr; [|discriminate].
    cbn [bind]. apply IH. repeat split; try assumption.
    cbn [colors]. refine (read_colors_range _ _ _ _ _ Hr); assumption. }
  destruct (tag =? 10).
  { tag_section IH.
    destruct (read_H_values _ data _ _) as [r|] eqn:Hr; [|discriminate].
    cbn [bind]. apply IH. repeat split; try assumption.
    cbn [arc_angles]. refine (read_H_values_range _ _ _ _ _ Hr); assumption. }
  destruct (tag =? 11).
  { tag_section IH.
    destruct (read_H_values _ data _ _) as [r|] eqn:Hr; [|discriminate].
    cbn [bind]. apply IH. repeat split; try assumption.
    cbn [donut_radii]. refine (read_H_values_range _ _ _ _ _ Hr); assumption. }
  destruct (tag =? 12).
  { tag_section IH. apply IH. exact Hst. }
  destruct (tag =? 3).
  { destruct (pos st + 8 <=? len data).
    - destruct (Struct.unpack_from_H data (pos st + 6)) as [board_bg|];
        [|discriminate].
      cbn [bind]. intros H. injection H as <-. exact Hst.
    - intros H. injection H as <-. exact Hst. }
  apply IH. exact Hst.
Qed.

End Ranges.

Lemma footer_code_u16 (s : string) :
  u16 (get (sfind bg_map_footer s) 1) = true.
Proof.
  unfold bg_map_footer. cbn [sfind].
  repeat (destruct (String.eqb _ s); [reflexivity|]). reflexivity.
Qed.

Lemma object_code_u16 (s : string) :
  u16 (get (sfind bg_map_object s) 0) = true.
Proof.
  unfold bg_map_object. cbn [sfind].
  repeat (destruct (String.eqb _ s); [reflexivity|]). reflexivity.
Qed.

Lemma nth_error_Forall {A : Type} (P : A -> Prop) (l : list A) (i : nat)
      (x : A) :
  Forall P l -> nth_error l i = Some x -> P x.
Proof.
  intros Hl Hx. rewrite Forall_forall in Hl. apply Hl.
  eapply nth_error_In. exact Hx.
Qed.

(** What [build_binary] packs for an object the decoder built. *)
Lemma decoded_object_fits (n : Z) (st : locals) (i : nat) (icon_id : Z) :
  locals_in_range st -> u16 icon_id = true ->
  u16 (icon_id_of (build_object n st i icon_id)) = true
  /\ (i16 (x_of (build_object n st i icon_id))
      && i16 (y_of (build_object n st i icon_id))) = true
  /\ u16 (bg_of (build_object n st i icon_id)) = true
  /\ (u8 (r_of (build_object n st i icon_id))
      && u8 (g_of (build_object n st i icon_id))
      && u8 (b_of (build_object n st i icon_id))
      && u8 (a_of (build_object n st i icon_id))) = true
  /\ u16 (arc_of (build_object n st i icon_id)) = true
  /\ u16 (radius_of (build_object n st i icon_id)) = true.
Proof.
  intros (Hp & Hbg & Hc & Ha & Hd) Hid.
  split; [|split; [|split; [|split; [|split]]]].
  - rewrite icon_id_of_decoded. destruct (icon_id =? 0); [reflexivity|exact Hid].
  - unfold x_of, y_of, build_object. cbn [Obj.x Obj.y get].
    destruct (nth_error (positions st) i) as [xy|] eqn:Hxy.
    + destruct (nth_error_Forall _ _ _ _ Hp Hxy) as [Hx Hy].
      now rewrite Hx, Hy.
    + reflexivity.
  - unfold bg_of, build_object. cbn [Obj.background].
    destruct (nth_error (backgrounds st) i) as [bg|] eqn:Hb; cbn [get];
      [|reflexivity].
    destruct (zfind BACKGROUND_TYPES bg) as [nm|].
    + apply object_code_u16.
    + exact (nth_error_Forall _ _ _ _ Hbg Hb).
  - unfold r_of, g_of, b_of, a_of, build_object.
    cbn [Obj.color_r Obj.color_g Obj.color_b Obj.transparency get].
    change (u8 255) with true. cbn [andb].
    destruct (nth_error (colors st) i) as [[[[r g] b] a]|] eqn:Hcol;
      [|reflexivity].
    pose proof (nth_error_Forall _ _ _ _ Hc Hcol) as Halpha.
    cbn [snd] in Halpha. destruct (a >? 0); [exact Halpha|reflexivity].
  - unfold arc_of, build_object. cbn [Obj.arc_angle].
    destruct (nth_error (arc_angles st) i) as [v|] eqn:Hv; [|reflexivity].
    pose proof (nth_error_Forall _ _ _ _ Ha Hv) as Hr.
    destruct (v >? 0); [exact Hr|reflexivity].
  - unfold radius_of, build_object.
    cbn [Obj.donut_radius Obj.knockback_horizontal].
    destruct (nth_error (donut_radii st) i) as [v|] eqn:Hv; [|reflexivity].
    pose proof (nth_error_Forall _ _ _ _ Hd Hv) as Hr.
    destruct (v >? 0); [exact Hr|reflexivity].
Qed.

Lemma forallb_build_objects (P : Obj.t -> bool) (n : Z) (st : locals)
      (icons : list Z) :
  (forall i icon_id, u16 icon_id = true ->
                     P (build_object n st i icon_id) = true) ->
  Forall (fun v => u16 v = true) icons ->
  forall i, forallb P (build_objects n st i icons) = true.
Proof.
  intros HP Hicons. induction Hicons as [|icon_id icons Hid _ IH]; intros i.
  - reflexivity.
  - cbn [build_objects forallb]. now rewrite HP, IH.
Qed.

Lemma len_build_objects (n : Z) (st : locals) (icons : list Z) (i : nat) :
  len (build_objects n st i icons) = len icons.
Proof.
  revert i. induction icons as [|icon_id icons IH]; intros i; [reflexivity|].
  cbn [build_objects]. now rewrite !len_cons, IH.
Qed.

Section Reencode.

Variable zlib_compress : list Z -> Z -> list Z.
Variable zlib_crc32 : list Z -> Z.
Variable utf8_decode : list Z -> string.

(** Whatever [parse_binary] makes of a byte buffer, every value
    [build_binary] packs for it is in range. *)
Lemma parsed_fits (data : list Z) (doc : Doc.t) :
  bytes_ok data -> parse_binary utf8_decode data = Ok doc ->
  len (get (Doc.objects doc) []) < 65536 ->
  fits doc = true.
Proof.
  intros Hb. unfold parse_binary.
  destruct (Struct.unpack_from_I data 0) as [version|]; cbn [bind];
    [|discriminate].
  destruct (parse_icons _ data 36 []) as [r|] eqn:Hicons; cbn [bind];
    [|discriminate].
  destruct (parse_tags _ data _) as [st|] eqn:Htags; cbn [bind];
    [|discriminate].
  intros H. injection H as <-.
  apply (parse_icons_range data Hb) in Hicons; [|constructor].
  apply (parse_tags_range data Hb) in Htags;
    [|unfold locals_in_range; cbn; repeat split; constructor].
  unfold fits, board_bg_of. cbn [Doc.objects Doc.board_background get].
  intros Hn.
  pose proof (fun i id Hid => decoded_object_fits (len (snd r)) st i id Htags Hid)
    as Hobj.
  apply andb_true_iff; split;
    [apply andb_true_iff; split; [apply andb_true_iff; split|]|].
  - apply forallb_build_objects; [|exact Hicons]. intros. now apply Hobj.
  - apply u16_true. split; [apply len_nonneg | exact Hn].
  - unfold properties_fit.
    repeat (apply andb_true_iff; split);
      (apply forallb_build_objects; [|exact Hicons]); intros; now apply Hobj.
  - destruct (board_background st) as [s|]; cbn [option_map get];
      [apply footer_code_u16 | reflexivity].
Qed.

(** A board the decoder returns can always be encoded again:
    [build_binary] accepts it whenever it has fewer than 65536 objects,
    and [encode_stgy] whenever it has at most 2845, whatever bytes it was
    decoded from. *)
Theorem decoded_board_reencodes (data : list Z) (doc : Doc.t) (randint : Z) :
  bytes_ok data -> parse_binary utf8_decode data = Ok doc ->
  (len (get (Doc.objects doc) []) < 65536 ->
   exists buf, build_binary doc = Ok buf)
  /\ (len (get (Doc.objects doc) []) <= 2845 ->
      exists code, encode_stgy zlib_compress zlib_crc32 doc randint = Ok code).
Proof.
  intros Hb Hdoc. split; intros Hn.
  - rewrite build_binary_spec, (parsed_fits data doc Hb Hdoc Hn).
    now eexists.
  - unfold encode_stgy.
    rewrite build_binary_spec, (parsed_fits data doc Hb Hdoc) by lia.
    cbn [bind].
    rewrite encode_cipher_spec, u16_len, len_patch_layout, len_layout.
    cbv zeta.
    pose proof (len_nonneg (get (Doc.objects doc) [])) as H0.
    pose proof (Z.mod_pos_bound (len (get (Doc.objects doc) [])) 2) as Hmod.
    destruct (len (get (Doc.objects doc) []) =? 0).
    + change (44 <? 65536) with true. now eexists.
    + replace (_ <? 65536) with true; [now eexists|].
      symmetry. apply Z.ltb_lt. lia.
Qed.

End Reencode.

Lemma decoded_board_reencodes_witness :
  (len (get (Doc.objects tank_board) []) < 65536 ->
   exists buf, build_binary tank_board = Ok buf)
  /\ (len (get (Doc.objects tank_board) []) <= 2845 ->
      exists code,
        encode_stgy store_compress zero_crc32 tank_board 17 = Ok code).
Proof.
  apply (decoded_board_reencodes store_compress zero_crc32 decode_ascii
           (patch (layout tank_board)) tank_board 17).
  - apply bytes_ok_patch_layout. vm_compute. reflexivity.
  - vm_compute. reflexivity.
Defined.

(* ------------------------------------------------------------------ *)
(** ** What the decoder does not read *)

Lemma byte_at_app_left (pre l : list Z) (i : Z) :
  0 <= i < len pre -> Struct.byte_at (pre ++ l) i = Struct.byte_at pre i.
Proof.
  intros Hi. unfold Struct.byte_at, len in *. apply app_nth1. lia.
Qed.

Lemma skipn_app_exact {A : Type} (pre l : list A) (k : nat) :
  List.length pre = k -> skipn k (pre ++ l) = l.
Proof.
  intros <-. rewrite skipn_app, skipn_all, Nat.sub_diag. reflexivity.
Qed.

Section HeaderFields.

Variable utf8_decode : list Z -> string.

(** [parse_binary] reads the version in bytes 0..3 and nothing else below
    offset 28: the 24 bytes between them, among them the two size fields
    [build_binary] fills in last, can be replaced by any 24 values without
    changing the result. *)
Theorem parse_binary_skips_header (version fields fields' rest : list Z) :
  bytes_ok (version ++ fields ++ rest) ->
  len version = 4 -> len fields = 24 -> len fields' = 24 ->
  parse_binary utf8_decode (version ++ fields' ++ rest)
  = parse_binary utf8_decode (version ++ fields ++ rest).
Proof.
  intros Hb Hv Hf Hf'.
  set (data := version ++ fields ++ rest).
  set (data' := version ++ fields' ++ rest).
  assert (Hlen' : len data' = len data)
    by (unfold data, data'; rewrite !len_app; lia).
  assert (Hsame : forall i, 28 <= i ->
            Struct.byte_at data' i = Struct.byte_at data i).
  { intros i Hi. unfold data, data'. rewrite !app_assoc.
    replace i with (28 + (i - 28)) by lia.
    rewrite !byte_at_app by (rewrite ?len_app; lia). reflexivity. }
  assert (Hlow : forall i, 0 <= i < 4 ->
            Struct.byte_at data' i = Struct.byte_at data i).
  { intros i Hi. unfold data, data'.
    now rewrite !byte_at_app_left by lia. }
  unfold parse_binary.
  assert (Hver : Struct.unpack_from_I data' 0 = Struct.unpack_from_I data 0).
  { unfold Struct.unpack_from_I. now rewrite Hlen', !Hlow by lia. }
  rewrite Hver.
  destruct (Struct.unpack_from_I data 0) as [v|]; cbn [bind]; [|reflexivity].
  assert (Hl : List.length data' = List.length data)
    by (unfold len in Hlen'; lia).
  rewrite Hl.
  rewrite (parse_icons_frame data data' Hlen' Hsame) by lia.
  destruct (parse_icons _ data 36 []) as [[p icons]|] eqn:Hicons;
    cbn [bind fst snd]; [|reflexivity].
  destruct (parse_icons_total (S (List.length data)) data 36 [])
    as (p' & icons' & Hicons' & Hp'); [lia|apply fuel_covers; lia|].
  rewrite Hicons in Hicons'. injection Hicons' as <- <-.
  rewrite (parse_tags_frame data data' Hb Hlen' Hsame) by (cbn [pos]; lia).
  destruct (parse_tags _ data _) as [st|]; cbn [bind]; [|reflexivity].
  assert (Hname : skipn 28 data' = skipn 28 data).
  { unfold data, data'. rewrite !app_assoc.
    rewrite !skipn_app_exact; [reflexivity| |];
      unfold len in *; rewrite length_app; lia. }
  now rewrite Hname.
Qed.

End HeaderFields.

Lemma parse_binary_skips_header_witness :
  parse_binary decode_ascii
    ([2; 0; 0; 0] ++ repeat 7 24 ++ skipn 28 (patch (layout tank_board)))
  = parse_binary decode_ascii
      ([2; 0; 0; 0] ++ firstn 24 (skipn 4 (patch (layout tank_board)))
       ++ skipn 28 (patch (layout tank_board))).
Proof.
  apply (parse_binary_skips_header decode_ascii [2; 0; 0; 0]
           (firstn 24 (skipn 4 (patch (layout tank_board))))
           (repeat 7 24) (skipn 28 (patch (layout tank_board)))).
  - change (bytes_ok (patch (layout tank_board))).
    apply bytes_ok_patch_layout. vm_compute. reflexivity.
  - reflexivity.
  - reflexivity.
  - reflexivity.
Defined.

Section Checksum.

Variable zlib_decompress : list Z -> outcome (list Z).

(** [decode_cipher] checks neither the checksum nor the length that
    [encode_cipher] puts before the compressed data: whatever 6 bytes
    stand there, it decompresses what follows them. *)
Theorem decode_cipher_ignores_checksum (header compressed : list Z)
        (key : Z) :
  bytes_ok header -> bytes_ok compressed -> len header = 6 ->
  0 <= key < 64 ->
  decode_cipher zlib_decompress (CipherCodec.encode (header ++ compressed) key)
  = zlib_decompress compressed.
Proof.
  intros Hh Hc Hlen Hkey. unfold decode_cipher.
  rewrite cipher_roundtrip_any by (try apply bytes_ok_app; assumption).
  cbn [bind]. f_equal. apply skipn_app_exact. unfold len in Hlen. lia.
Qed.

End Checksum.

Lemma decode_cipher_ignores_checksum_witness :
  decode_cipher store_decompress
    (CipherCodec.encode ([1; 2; 3; 4; 5; 6] ++ [120; 156; 3; 0]) 9)
  = store_decompress [120; 156; 3; 0].
Proof.
  apply (decode_cipher_ignores_checksum store_decompress
           [1; 2; 3; 4; 5; 6] [120; 156; 3; 0] 9).
  - unfold bytes_ok, is_byte. repeat (apply Forall_cons; [lia|]). constructor.
  - unfold bytes_ok, is_byte. repeat (apply Forall_cons; [lia|]). constructor.
  - reflexivity.
  - lia.
Defined.

(* ------------------------------------------------------------------ *)
(** ** The icon tables of the two programs *)

(** The encoder's table of names and the decoder's table of codes are
    inverse to each other: a name has a code in [ICON_TYPE_IDS] exactly
    when [ICON_TYPES] gives that code this name.  The decoder's own
    reverse table [ICON_NAME_TO_ID] finds what [ICON_TYPE_IDS] finds. *)
Theorem icon_tables_agree (name : string) (id : Z) :
  (sfind ICON_TYPE_IDS name = Some id <-> zfind ICON_TYPES id = Some name)
  /\ sfind ICON_NAME_TO_ID name = sfind ICON_TYPE_IDS name.
Proof.
  split; [split; intros H|].
  - destruct (known_name_roundtrip name id H) as [_ Hback].
    unfold idToName in Hback.
    destruct (zfind ICON_TYPES id) as [name'|]; cbn [get] in Hback.
    + now subst name'.
    + subst name. unfold unknown_ in H.
      rewrite unknown_is_no_name in H. discriminate.
  - destruct (known_id_roundtrip id name H) as [_ Hback].
    unfold nameToId in Hback.
    destruct (sfind ICON_TYPE_IDS name) as [id'|] eqn:Hfind;
      cbn [get] in Hback.
    + now subst id'.
    + subst id.
      assert (name = "tank"%string) as -> by (vm_compute in H; congruence).
      vm_compute in Hfind. discriminate.
  - assert (Heq : ICON_NAME_TO_ID = ICON_TYPE_IDS) by (vm_compute; reflexivity).
    now rewrite Heq.
Qed.
